(** * Split BLE central (app/src/split/bluetooth/central.c)

    A shallow embedding of the central side of the split link: the
    peripheral slot table, the notification decoders, characteristic
    discovery, the connection callbacks and the outbound writers.

    The C code mutates file-level globals and calls into the kernel and the
    Bluetooth host.  Here the globals are one [world] record, every function
    is a computation in a state monad over it, and every call that leaves the
    file is appended to the world's [calls] trace.  A computation yields
    [None] where the C code would index an array out of bounds (or, for the
    one recursive function, when the recursion budget is used up). *)

From Stdlib Require Import ZArith List Bool Lia.
From stdpp Require Import base decidable numbers list.
Import ListNotations.
Local Open Scope Z_scope.

(** ** Constants of the headers the file includes *)

(** errno values of Zephyr's errno.h. *)
Definition EAGAIN : Z := 11.
Definition ENOMEM : Z := 12.
Definition EINVAL : Z := 22.
Definition ENOMSG : Z := 35.
Definition EALREADY : Z := 120.
Definition ENOTCONN : Z := 128.

(** [bt_security_t]: L0 = 0, L1 = 1, L2 = 2, ... *)
Definition BT_SECURITY_L2 : Z := 2.
Definition BT_GATT_CCC_NOTIFY : Z := 1.

Definition POSITION_STATE_DATA_LEN : nat := 16.

(** A [struct bt_conn *]; the null pointer is 0. *)
Definition NULL : Z := 0.

(** Return value of a GATT iteration callback. *)
Inductive bt_gatt_iter := BT_GATT_ITER_STOP | BT_GATT_ITER_CONTINUE.

(** Conversions to the fixed-width unsigned types, wrap-around written out. *)
Definition to_uint8 (x : Z) : Z := x mod 256.
Definition to_uint16 (x : Z) : Z := x mod 65536.
Definition to_uint32 (x : Z) : Z := x mod 4294967296.

(** [BIT(j)] and the test [b & BIT(j)] used as a condition. *)
Definition BIT (j : nat) : Z := Z.shiftl 1 (Z.of_nat j).
Definition bit_set (b : Z) (j : nat) : bool := negb (Z.land b (BIT j) =? 0).

(** ** Build configuration

    The [#if] switches and sizes of the build.  [zmk/ble.h] defines
    [ZMK_SPLIT_BLE_PERIPHERAL_COUNT] as
    [CONFIG_ZMK_SPLIT_BLE_CENTRAL_PERIPHERALS]. *)
Record config := {
  CONFIG_ZMK_SPLIT_BLE_CENTRAL_PERIPHERALS : nat;
  ZMK_KEYMAP_HAS_SENSORS : bool;
  CONFIG_ZMK_SPLIT_PERIPHERAL_HID_INDICATORS : bool;
  CONFIG_ZMK_SPLIT_BLE_CENTRAL_BATTERY_LEVEL_FETCHING : bool;
  CONFIG_ZMK_SPLIT_BLE_CENTRAL_POSITION_QUEUE_SIZE : nat;
  CONFIG_ZMK_SPLIT_BLE_CENTRAL_BATTERY_LEVEL_QUEUE_SIZE : nat;
  CONFIG_ZMK_SPLIT_BLE_CENTRAL_SPLIT_RUN_QUEUE_SIZE : nat;
  ZMK_SENSOR_EVENT_MAX_CHANNELS : nat;
  (** [sizeof(struct zmk_sensor_channel_data)] *)
  sizeof_zmk_sensor_channel_data : nat
}.

Definition ZMK_SPLIT_BLE_PERIPHERAL_COUNT (cfg : config) : nat :=
  CONFIG_ZMK_SPLIT_BLE_CENTRAL_PERIPHERALS cfg.

(** ** Data *)

Inductive peripheral_slot_state :=
| PERIPHERAL_SLOT_STATE_OPEN
| PERIPHERAL_SLOT_STATE_CONNECTING
| PERIPHERAL_SLOT_STATE_CONNECTED.

#[global] Instance peripheral_slot_state_eq_dec : EqDecision peripheral_slot_state.
Proof. solve_decision. Defined.

(** The UUIDs the file compares against; every other UUID is
    [BT_UUID_OTHER]. *)
Inductive bt_uuid :=
| ZMK_SPLIT_BT_SERVICE_UUID
| ZMK_SPLIT_BT_CHAR_POSITION_STATE_UUID
| ZMK_SPLIT_BT_CHAR_SENSOR_STATE_UUID
| ZMK_SPLIT_BT_CHAR_RUN_BEHAVIOR_UUID
| ZMK_SPLIT_BT_SELECT_PHYS_LAYOUT_UUID
| ZMK_SPLIT_BT_UPDATE_HID_INDICATORS_UUID
| ZMK_SPLIT_BT_UPDATE_LAYERS_UUID
| BT_UUID_BAS_BATTERY_LEVEL
| BT_UUID_OTHER (n : Z).

#[global] Instance bt_uuid_eq_dec : EqDecision bt_uuid.
Proof. solve_decision. Defined.

(** [bt_uuid_cmp(a, b) == 0] *)
Definition bt_uuid_eq (a b : bt_uuid) : bool := bool_decide (a = b).

(** Function pointers stored in the parameter blocks. *)
Inductive discover_func :=
| no_discover_func
| split_central_service_discovery_func_ptr
| split_central_chrc_discovery_func_ptr.

Inductive notify_func :=
| no_notify_func
| split_central_notify_func_ptr
| split_central_sensor_notify_func_ptr
| split_central_battery_level_notify_func_ptr.

Inductive read_func :=
| no_read_func
| split_central_battery_level_read_func_ptr.

Inductive discover_type :=
| BT_GATT_DISCOVER_PRIMARY
| BT_GATT_DISCOVER_CHARACTERISTIC.

(** [struct bt_gatt_discover_params], the fields the file touches. *)
Record bt_gatt_discover_params := {
  dp_uuid : option bt_uuid;
  dp_func : discover_func;
  dp_start_handle : Z;
  dp_end_handle : Z;
  dp_type : discover_type
}.

(** [struct bt_gatt_subscribe_params]; [sp_disc_params] tells whether
    [disc_params] points at the slot's [sub_discover_params]. *)
Record bt_gatt_subscribe_params := {
  sp_disc_params : bool;
  sp_end_handle : Z;
  sp_value_handle : Z;
  sp_notify : notify_func;
  sp_value : Z
}.

(** [struct bt_gatt_read_params] *)
Record bt_gatt_read_params := {
  rp_func : read_func;
  rp_handle_count : Z;
  rp_single_handle : Z;
  rp_single_offset : Z
}.

Record peripheral_slot := {
  state : peripheral_slot_state;
  conn : Z;
  discover_params : bt_gatt_discover_params;
  subscribe_params : bt_gatt_subscribe_params;
  sensor_subscribe_params : bt_gatt_subscribe_params;
  sub_discover_params : bt_gatt_discover_params;
  run_behavior_handle : Z;
  batt_lvl_subscribe_params : bt_gatt_subscribe_params;
  batt_lvl_read_params : bt_gatt_read_params;
  update_hid_indicators : Z;
  selected_physical_layout_handle : Z;
  update_layers_handle : Z;
  position_state : list Z;
  changed_positions : list Z
}.

(** [struct zmk_position_state_changed] *)
Record zmk_position_state_changed := {
  ev_source : Z;
  ev_position : Z;
  ev_state : bool;
  ev_timestamp : Z
}.

(** [struct zmk_peripheral_battery_state_changed] *)
Record zmk_peripheral_battery_state_changed := {
  batt_source : Z;
  state_of_charge : Z
}.

(** [struct zmk_sensor_event].  [channel_data] holds the bytes the handler's
    second [memcpy] writes from the start of the event's [channel_data]
    array, however many they are. *)
Record zmk_sensor_event := {
  sensor_index : Z;
  channel_data_size : Z;
  channel_data : list Z;
  sensor_timestamp : Z
}.

(** [struct zmk_split_run_behavior_payload_wrapper]; the payload is the
    command's bytes. *)
Record zmk_split_run_behavior_payload_wrapper := {
  wrapper_source : Z;
  payload : list Z
}.

Inductive k_work :=
| peripheral_event_work
| peripheral_sensor_event_work
| peripheral_batt_lvl_work
| update_peripherals_selected_layouts_work
| split_central_split_run_work
| split_central_update_indicators
| split_central_update_layers.

(** What a [bt_gatt_write_without_response] carries. *)
Inductive gatt_value :=
| layout_idx_value (idx : Z)
| indicators_value (ind : Z)
| layers_value (layers : Z)
| run_behavior_value (bytes : list Z).

(** Calls that leave the file, in the order they are made. *)
Inductive call :=
| bt_conn_unref (c : Z)
| k_msgq_put_position (ev : zmk_position_state_changed)
| k_msgq_put_sensor (ev : zmk_sensor_event)
| k_msgq_put_batt_lvl (ev : zmk_peripheral_battery_state_changed)
| k_msgq_put_split_run (p : zmk_split_run_behavior_payload_wrapper)
| k_msgq_get_split_run
| k_work_submit (wk : k_work)
| k_work_submit_to_queue (wk : k_work)
| bt_gatt_subscribe (c : Z) (params : bt_gatt_subscribe_params)
| bt_gatt_read (c : Z) (params : bt_gatt_read_params)
| bt_gatt_write_without_response (c : Z) (handle : Z) (v : gatt_value)
| bt_le_scan_start
| bt_le_scan_stop
| zmk_ble_put_peripheral_addr (addr : Z).

Inductive log_level := LOG_LEVEL_ERR | LOG_LEVEL_WRN.

(** The file's globals, the kernel clock, and the record of what the file
    called and logged ([LOG_DBG] and [LOG_INF] lines are left out). *)
Record world := {
  peripherals : list peripheral_slot;
  is_scanning : bool;
  peripheral_event_msgq : list zmk_position_state_changed;
  peripheral_sensor_event_msgq : list zmk_sensor_event;
  peripheral_batt_lvl_msgq : list zmk_peripheral_battery_state_changed;
  zmk_split_central_split_run_msgq : list zmk_split_run_behavior_payload_wrapper;
  peripheral_battery_levels : list Z;
  hid_indicators : Z;
  layers_for_peripheral : Z;
  k_uptime : Z;
  calls : list call;
  logged : list log_level
}.

(** What the Bluetooth host, the identity store and the layout module
    answer.  They are outside the file; the code only consumes the returned
    values. *)
Record bt_host := {
  bt_conn_get_security : Z -> Z;
  bt_gatt_write_without_response_ret : Z -> Z -> Z;
  bt_gatt_subscribe_ret : Z -> bt_gatt_subscribe_params -> Z;
  bt_le_scan_start_ret : Z;
  zmk_ble_put_peripheral_addr_ret : Z -> Z;
  zmk_physical_layouts_get_selected : Z
}.

(** A [struct bt_gatt_subscribe_params *] handed to a notify callback: one of
    the three parameter blocks of a slot. *)
Inductive subscribe_params_ptr :=
| ptr_subscribe_params (slot : nat)
| ptr_sensor_subscribe_params (slot : nat)
| ptr_batt_lvl_subscribe_params (slot : nat).

(** A discovered attribute: [attr->handle], [attr->user_data] (the UUID of
    the [struct bt_gatt_chrc] it points to, when it is not null) and what
    [bt_gatt_attr_value_handle(attr)] returns for it. *)
Record bt_gatt_attr := {
  attr_handle : Z;
  user_data : option bt_uuid;
  attr_value_handle : Z
}.

(** ** Field updates

    [set_f x r] is [r] after the assignment [r.f = x]. *)

Definition set_dp_uuid (x : option bt_uuid) (p : bt_gatt_discover_params) : bt_gatt_discover_params :=
  {| dp_uuid := x; dp_func := dp_func p;
     dp_start_handle := dp_start_handle p; dp_end_handle := dp_end_handle p;
     dp_type := dp_type p |}.

Definition set_dp_start_handle (x : Z) (p : bt_gatt_discover_params) : bt_gatt_discover_params :=
  {| dp_uuid := dp_uuid p; dp_func := dp_func p; dp_start_handle := x;
     dp_end_handle := dp_end_handle p; dp_type := dp_type p |}.

Definition set_dp_type (x : discover_type) (p : bt_gatt_discover_params) : bt_gatt_discover_params :=
  {| dp_uuid := dp_uuid p; dp_func := dp_func p;
     dp_start_handle := dp_start_handle p; dp_end_handle := dp_end_handle p;
     dp_type := x |}.

Definition set_sp_disc_params (x : bool) (p : bt_gatt_subscribe_params) : bt_gatt_subscribe_params :=
  {| sp_disc_params := x; sp_end_handle := sp_end_handle p;
     sp_value_handle := sp_value_handle p; sp_notify := sp_notify p;
     sp_value := sp_value p |}.

Definition set_sp_end_handle (x : Z) (p : bt_gatt_subscribe_params) : bt_gatt_subscribe_params :=
  {| sp_disc_params := sp_disc_params p; sp_end_handle := x;
     sp_value_handle := sp_value_handle p; sp_notify := sp_notify p;
     sp_value := sp_value p |}.

Definition set_sp_value_handle (x : Z) (p : bt_gatt_subscribe_params) : bt_gatt_subscribe_params :=
  {| sp_disc_params := sp_disc_params p; sp_end_handle := sp_end_handle p;
     sp_value_handle := x; sp_notify := sp_notify p;
     sp_value := sp_value p |}.

Definition set_sp_notify (x : notify_func) (p : bt_gatt_subscribe_params) : bt_gatt_subscribe_params :=
  {| sp_disc_params := sp_disc_params p; sp_end_handle := sp_end_handle p;
     sp_value_handle := sp_value_handle p; sp_notify := x;
     sp_value := sp_value p |}.

Definition set_sp_value (x : Z) (p : bt_gatt_subscribe_params) : bt_gatt_subscribe_params :=
  {| sp_disc_params := sp_disc_params p; sp_end_handle := sp_end_handle p;
     sp_value_handle := sp_value_handle p; sp_notify := sp_notify p;
     sp_value := x |}.

Definition set_state (x : peripheral_slot_state) (s : peripheral_slot) : peripheral_slot :=
  {| state := x; conn := conn s; discover_params := discover_params s;
     subscribe_params := subscribe_params s;
     sensor_subscribe_params := sensor_subscribe_params s;
     sub_discover_params := sub_discover_params s;
     run_behavior_handle := run_behavior_handle s;
     batt_lvl_subscribe_params := batt_lvl_subscribe_params s;
     batt_lvl_read_params := batt_lvl_read_params s;
     update_hid_indicators := update_hid_indicators s;
     selected_physical_layout_handle := selected_physical_layout_handle s;
     update_layers_handle := update_layers_handle s;
     position_state := position_state s;
     changed_positions := changed_positions s |}.

Definition set_conn (x : Z) (s : peripheral_slot) : peripheral_slot :=
  {| state := state s; conn := x; discover_params := discover_params s;
     subscribe_params := subscribe_params s;
     sensor_subscribe_params := sensor_subscribe_params s;
     sub_discover_params := sub_discover_params s;
     run_behavior_handle := run_behavior_handle s;
     batt_lvl_subscribe_params := batt_lvl_subscribe_params s;
     batt_lvl_read_params := batt_lvl_read_params s;
     update_hid_indicators := update_hid_indicators s;
     selected_physical_layout_handle := selected_physical_layout_handle s;
     update_layers_handle := update_layers_handle s;
     position_state := position_state s;
     changed_positions := changed_positions s |}.

Definition set_discover_params (x : bt_gatt_discover_params) (s : peripheral_slot) : peripheral_slot :=
  {| state := state s; conn := conn s; discover_params := x;
     subscribe_params := subscribe_params s;
     sensor_subscribe_params := sensor_subscribe_params s;
     sub_discover_params := sub_discover_params s;
     run_behavior_handle := run_behavior_handle s;
     batt_lvl_subscribe_params := batt_lvl_subscribe_params s;
     batt_lvl_read_params := batt_lvl_read_params s;
     update_hid_indicators := update_hid_indicators s;
     selected_physical_layout_handle := selected_physical_layout_handle s;
     update_layers_handle := update_layers_handle s;
     position_state := position_state s;
     changed_positions := changed_positions s |}.

Definition set_subscribe_params (x : bt_gatt_subscribe_params) (s : peripheral_slot) : peripheral_slot :=
  {| state := state s; conn := conn s; discover_params := discover_params s;
     subscribe_params := x;
     sensor_subscribe_params := sensor_subscribe_params s;
     sub_discover_params := sub_discover_params s;
     run_behavior_handle := run_behavior_handle s;
     batt_lvl_subscribe_params := batt_lvl_subscribe_params s;
     batt_lvl_read_params := batt_lvl_read_params s;
     update_hid_indicators := update_hid_indicators s;
     selected_physical_layout_handle := selected_physical_layout_handle s;
     update_layers_handle := update_layers_handle s;
     position_state := position_state s;
     changed_positions := changed_positions s |}.

Definition set_sensor_subscribe_params (x : bt_gatt_subscribe_params) (s : peripheral_slot) : peripheral_slot :=
  {| state := state s; conn := conn s; discover_params := discover_params s;
     subscribe_params := subscribe_params s; sensor_subscribe_params := x;
     sub_discover_params := sub_discover_params s;
     run_behavior_handle := run_behavior_handle s;
     batt_lvl_subscribe_params := batt_lvl_subscribe_params s;
     batt_lvl_read_params := batt_lvl_read_params s;
     update_hid_indicators := update_hid_indicators s;
     selected_physical_layout_handle := selected_physical_layout_handle s;
     update_layers_handle := update_layers_handle s;
     position_state := position_state s;
     changed_positions := changed_positions s |}.

Definition set_run_behavior_handle (x : Z) (s : peripheral_slot) : peripheral_slot :=
  {| state := state s; conn := conn s; discover_params := discover_params s;
     subscribe_params := subscribe_params s;
     sensor_subscribe_params := sensor_subscribe_params s;
     sub_discover_params := sub_discover_params s; run_behavior_handle := x;
     batt_lvl_subscribe_params := batt_lvl_subscribe_params s;
     batt_lvl_read_params := batt_lvl_read_params s;
     update_hid_indicators := update_hid_indicators s;
     selected_physical_layout_handle := selected_physical_layout_handle s;
     update_layers_handle := update_layers_handle s;
     position_state := position_state s;
     changed_positions := changed_positions s |}.

Definition set_batt_lvl_subscribe_params (x : bt_gatt_subscribe_params) (s : peripheral_slot) : peripheral_slot :=
  {| state := state s; conn := conn s; discover_params := discover_params s;
     subscribe_params := subscribe_params s;
     sensor_subscribe_params := sensor_subscribe_params s;
     sub_discover_params := sub_discover_params s;
     run_behavior_handle := run_behavior_handle s;
     batt_lvl_subscribe_params := x;
     batt_lvl_read_params := batt_lvl_read_params s;
     update_hid_indicators := update_hid_indicators s;
     selected_physical_layout_handle := selected_physical_layout_handle s;
     update_layers_handle := update_layers_handle s;
     position_state := position_state s;
     changed_positions := changed_positions s |}.

Definition set_batt_lvl_read_params (x : bt_gatt_read_params) (s : peripheral_slot) : peripheral_slot :=
  {| state := state s; conn := conn s; discover_params := discover_params s;
     subscribe_params := subscribe_params s;
     sensor_subscribe_params := sensor_subscribe_params s;
     sub_discover_params := sub_discover_params s;
     run_behavior_handle := run_behavior_handle s;
     batt_lvl_subscribe_params := batt_lvl_subscribe_params s;
     batt_lvl_read_params := x;
     update_hid_indicators := update_hid_indicators s;
     selected_physical_layout_handle := selected_physical_layout_handle s;
     update_layers_handle := update_layers_handle s;
     position_state := position_state s;
     changed_positions := changed_positions s |}.

Definition set_update_hid_indicators (x : Z) (s : peripheral_slot) : peripheral_slot :=
  {| state := state s; conn := conn s; discover_params := discover_params s;
     subscribe_params := subscribe_params s;
     sensor_subscribe_params := sensor_subscribe_params s;
     sub_discover_params := sub_discover_params s;
     run_behavior_handle := run_behavior_handle s;
     batt_lvl_subscribe_params := batt_lvl_subscribe_params s;
     batt_lvl_read_params := batt_lvl_read_params s;
     update_hid_indicators := x;
     selected_physical_layout_handle := selected_physical_layout_handle s;
     update_layers_handle := update_layers_handle s;
     position_state := position_state s;
     changed_positions := changed_positions s |}.

Definition set_selected_physical_layout_handle (x : Z) (s : peripheral_slot) : peripheral_slot :=
  {| state := state s; conn := conn s; discover_params := discover_params s;
     subscribe_params := subscribe_params s;
     sensor_subscribe_params := sensor_subscribe_params s;
     sub_discover_params := sub_discover_params s;
     run_behavior_handle := run_behavior_handle s;
     batt_lvl_subscribe_params := batt_lvl_subscribe_params s;
     batt_lvl_read_params := batt_lvl_read_params s;
     update_hid_indicators := update_hid_indicators s;
     selected_physical_layout_handle := x;
     update_layers_handle := update_layers_handle s;
     position_state := position_state s;
     changed_positions := changed_positions s |}.

Definition set_update_layers_handle (x : Z) (s : peripheral_slot) : peripheral_slot :=
  {| state := state s; conn := conn s; discover_params := discover_params s;
     subscribe_params := subscribe_params s;
     sensor_subscribe_params := sensor_subscribe_params s;
     sub_discover_params := sub_discover_params s;
     run_behavior_handle := run_behavior_handle s;
     batt_lvl_subscribe_params := batt_lvl_subscribe_params s;
     batt_lvl_read_params := batt_lvl_read_params s;
     update_hid_indicators := update_hid_indicators s;
     selected_physical_layout_handle := selected_physical_layout_handle s;
     update_layers_handle := x; position_state := position_state s;
     changed_positions := changed_positions s |}.

Definition set_position_state (x : list Z) (s : peripheral_slot) : peripheral_slot :=
  {| state := state s; conn := conn s; discover_params := discover_params s;
     subscribe_params := subscribe_params s;
     sensor_subscribe_params := sensor_subscribe_params s;
     sub_discover_params := sub_discover_params s;
     run_behavior_handle := run_behavior_handle s;
     batt_lvl_subscribe_params := batt_lvl_subscribe_params s;
     batt_lvl_read_params := batt_lvl_read_params s;
     update_hid_indicators := update_hid_indicators s;
     selected_physical_layout_handle := selected_physical_layout_handle s;
     update_layers_handle := update_layers_handle s; position_state := x;
     changed_positions := changed_positions s |}.

Definition set_changed_positions (x : list Z) (s : peripheral_slot) : peripheral_slot :=
  {| state := state s; conn := conn s; discover_params := discover_params s;
     subscribe_params := subscribe_params s;
     sensor_subscribe_params := sensor_subscribe_params s;
     sub_discover_params := sub_discover_params s;
     run_behavior_handle := run_behavior_handle s;
     batt_lvl_subscribe_params := batt_lvl_subscribe_params s;
     batt_lvl_read_params := batt_lvl_read_params s;
     update_hid_indicators := update_hid_indicators s;
     selected_physical_layout_handle := selected_physical_layout_handle s;
     update_layers_handle := update_layers_handle s;
     position_state := position_state s; changed_positions := x |}.

Definition set_peripherals (x : list peripheral_slot) (w : world) : world :=
  {| peripherals := x; is_scanning := is_scanning w;
     peripheral_event_msgq := peripheral_event_msgq w;
     peripheral_sensor_event_msgq := peripheral_sensor_event_msgq w;
     peripheral_batt_lvl_msgq := peripheral_batt_lvl_msgq w;
     zmk_split_central_split_run_msgq := zmk_split_central_split_run_msgq w;
     peripheral_battery_levels := peripheral_battery_levels w;
     hid_indicators := hid_indicators w;
     layers_for_peripheral := layers_for_peripheral w;
     k_uptime := k_uptime w; calls := calls w; logged := logged w |}.

Definition set_is_scanning (x : bool) (w : world) : world :=
  {| peripherals := peripherals w; is_scanning := x;
     peripheral_event_msgq := peripheral_event_msgq w;
     peripheral_sensor_event_msgq := peripheral_sensor_event_msgq w;
     peripheral_batt_lvl_msgq := peripheral_batt_lvl_msgq w;
     zmk_split_central_split_run_msgq := zmk_split_central_split_run_msgq w;
     peripheral_battery_levels := peripheral_battery_levels w;
     hid_indicators := hid_indicators w;
     layers_for_peripheral := layers_for_peripheral w;
     k_uptime := k_uptime w; calls := calls w; logged := logged w |}.

Definition set_peripheral_event_msgq (x : list zmk_position_state_changed) (w : world) : world :=
  {| peripherals := peripherals w; is_scanning := is_scanning w;
     peripheral_event_msgq := x;
     peripheral_sensor_event_msgq := peripheral_sensor_event_msgq w;
     peripheral_batt_lvl_msgq := peripheral_batt_lvl_msgq w;
     zmk_split_central_split_run_msgq := zmk_split_central_split_run_msgq w;
     peripheral_battery_levels := peripheral_battery_levels w;
     hid_indicators := hid_indicators w;
     layers_for_peripheral := layers_for_peripheral w;
     k_uptime := k_uptime w; calls := calls w; logged := logged w |}.

Definition set_peripheral_sensor_event_msgq (x : list zmk_sensor_event) (w : world) : world :=
  {| peripherals := peripherals w; is_scanning := is_scanning w;
     peripheral_event_msgq := peripheral_event_msgq w;
     peripheral_sensor_event_msgq := x;
     peripheral_batt_lvl_msgq := peripheral_batt_lvl_msgq w;
     zmk_split_central_split_run_msgq := zmk_split_central_split_run_msgq w;
     peripheral_battery_levels := peripheral_battery_levels w;
     hid_indicators := hid_indicators w;
     layers_for_peripheral := layers_for_peripheral w;
     k_uptime := k_uptime w; calls := calls w; logged := logged w |}.

Definition set_peripheral_batt_lvl_msgq (x : list zmk_peripheral_battery_state_changed) (w : world) : world :=
  {| peripherals := peripherals w; is_scanning := is_scanning w;
     peripheral_event_msgq := peripheral_event_msgq w;
     peripheral_sensor_event_msgq := peripheral_sensor_event_msgq w;
     peripheral_batt_lvl_msgq := x;
     zmk_split_central_split_run_msgq := zmk_split_central_split_run_msgq w;
     peripheral_battery_levels := peripheral_battery_levels w;
     hid_indicators := hid_indicators w;
     layers_for_peripheral := layers_for_peripheral w;
     k_uptime := k_uptime w; calls := calls w; logged := logged w |}.

Definition set_zmk_split_central_split_run_msgq (x : list zmk_split_run_behavior_payload_wrapper) (w : world) : world :=
  {| peripherals := peripherals w; is_scanning := is_scanning w;
     peripheral_event_msgq := peripheral_event_msgq w;
     peripheral_sensor_event_msgq := peripheral_sensor_event_msgq w;
     peripheral_batt_lvl_msgq := peripheral_batt_lvl_msgq w;
     zmk_split_central_split_run_msgq := x;
     peripheral_battery_levels := peripheral_battery_levels w;
     hid_indicators := hid_indicators w;
     layers_for_peripheral := layers_for_peripheral w;
     k_uptime := k_uptime w; calls := calls w; logged := logged w |}.

Definition set_calls (x : list call) (w : world) : world :=
  {| peripherals := peripherals w; is_scanning := is_scanning w;
     peripheral_event_msgq := peripheral_event_msgq w;
     peripheral_sensor_event_msgq := peripheral_sensor_event_msgq w;
     peripheral_batt_lvl_msgq := peripheral_batt_lvl_msgq w;
     zmk_split_central_split_run_msgq := zmk_split_central_split_run_msgq w;
     peripheral_battery_levels := peripheral_battery_levels w;
     hid_indicators := hid_indicators w;
     layers_for_peripheral := layers_for_peripheral w;
     k_uptime := k_uptime w; calls := x; logged := logged w |}.

Definition set_logged (x : list log_level) (w : world) : world :=
  {| peripherals := peripherals w; is_scanning := is_scanning w;
     peripheral_event_msgq := peripheral_event_msgq w;
     peripheral_sensor_event_msgq := peripheral_sensor_event_msgq w;
     peripheral_batt_lvl_msgq := peripheral_batt_lvl_msgq w;
     zmk_split_central_split_run_msgq := zmk_split_central_split_run_msgq w;
     peripheral_battery_levels := peripheral_battery_levels w;
     hid_indicators := hid_indicators w;
     layers_for_peripheral := layers_for_peripheral w;
     k_uptime := k_uptime w; calls := calls w; logged := x |}.

(** ** The state monad *)

Definition M (A : Type) : Type := world -> option (A * world).

Definition ret {A} (a : A) : M A := fun w => Some (a, w).

Definition bind {A B} (m : M A) (k : A -> M B) : M B :=
  fun w => match m w with
           | Some (a, w') => k a w'
           | None => None
           end.

Declare Scope central_scope.
Delimit Scope central_scope with central.
Notation "x <- m ;; k" := (bind m (fun x => k))
  (at level 20, m at level 99, k at level 200, only parsing) : central_scope.
Notation "m ;; k" := (bind m (fun _ => k))
  (at level 100, k at level 200, only parsing, right associativity)
  : central_scope.
Open Scope central_scope.

(** An access outside an array. *)
Definition out_of_bounds {A} : M A := fun _ => None.

Definition gets {A} (f : world -> A) : M A := fun w => Some (f w, w).
Definition modify (f : world -> world) : M unit := fun w => Some (tt, f w).

Definition of_option {A} (o : option A) : M A :=
  match o with
  | Some a => ret a
  | None => out_of_bounds
  end.

(** [for (int i = 0; i < n; i++) body(i)] with no [break]. *)
Fixpoint for_each {A} (l : list A) (body : A -> M unit) : M unit :=
  match l with
  | [] => ret tt
  | x :: l' => body x ;; for_each l' body
  end.

Definition for_range (n : nat) (body : nat -> M unit) : M unit :=
  for_each (seq 0 n) body.

(** ** Arrays *)

(** [a[i]] and [a[i] = x] on a byte array. *)
Definition load_byte (a : list Z) (i : nat) : M Z := of_option (a !! i).

Definition store_byte (a : list Z) (i : nat) (x : Z) : option (list Z) :=
  if decide (i < length a)%nat then Some (<[i := x]> a) else None.

(** [peripherals[i]] read, and an assignment through [&peripherals[i]]. *)
Definition load_slot (i : nat) : M peripheral_slot :=
  ps <- gets peripherals ;; of_option (ps !! i).

Definition update_slot (i : nat) (f : peripheral_slot -> option peripheral_slot)
  : M unit :=
  s <- load_slot i ;;
  s' <- of_option (f s) ;;
  modify (fun w => set_peripherals (<[i := s']> (peripherals w)) w).

Definition assign_slot (i : nat) (f : peripheral_slot -> peripheral_slot)
  : M unit :=
  update_slot i (fun s => Some (f s)).

(** ** Kernel and host calls *)

Definition extern (c : call) : M unit :=
  modify (fun w => set_calls (calls w ++ [c]) w).

Definition log (l : log_level) : M unit :=
  modify (fun w => set_logged (logged w ++ [l]) w).

Definition k_uptime_get : M Z := gets k_uptime.

(** [k_msgq_put] on a queue of [cap] messages that nobody else drains while
    the call waits: the message goes to the back when there is room, and the
    call fails otherwise, with [-ENOMSG] for [K_NO_WAIT] and [-EAGAIN] once a
    timeout has passed. *)
Definition msgq_put {A} (cap : nat) (q : list A) (x : A) (wait : bool)
  : Z * list A :=
  if decide (length q < cap)%nat then (0, q ++ [x])
  else (if wait then - EAGAIN else - ENOMSG, q).

(** [k_msgq_get] with [K_NO_WAIT]: the front message, if any. *)
Definition msgq_get {A} (q : list A) : option A * list A :=
  match q with
  | [] => (None, [])
  | x :: q' => (Some x, q')
  end.

Section Central.

Context (cfg : config) (bt : bt_host).

Definition put_position_event (ev : zmk_position_state_changed) : M Z :=
  extern (k_msgq_put_position ev) ;;
  q <- gets peripheral_event_msgq ;;
  let '(r, q') := msgq_put (CONFIG_ZMK_SPLIT_BLE_CENTRAL_POSITION_QUEUE_SIZE cfg)
                           q ev false in
  modify (set_peripheral_event_msgq q') ;;
  ret r.

Definition put_sensor_event (ev : zmk_sensor_event) : M Z :=
  extern (k_msgq_put_sensor ev) ;;
  q <- gets peripheral_sensor_event_msgq ;;
  let '(r, q') := msgq_put (CONFIG_ZMK_SPLIT_BLE_CENTRAL_POSITION_QUEUE_SIZE cfg)
                           q ev false in
  modify (set_peripheral_sensor_event_msgq q') ;;
  ret r.

Definition put_batt_lvl_event (ev : zmk_peripheral_battery_state_changed)
  : M Z :=
  extern (k_msgq_put_batt_lvl ev) ;;
  q <- gets peripheral_batt_lvl_msgq ;;
  let '(r, q') :=
    msgq_put (CONFIG_ZMK_SPLIT_BLE_CENTRAL_BATTERY_LEVEL_QUEUE_SIZE cfg)
             q ev false in
  modify (set_peripheral_batt_lvl_msgq q') ;;
  ret r.

(** ** The slot registry *)

(** The loop of [peripheral_slot_index_for_conn] from index [i] on, over the
    [n] slots that remain. *)
Fixpoint index_for_conn_from (c : Z) (i n : nat) : M Z :=
  match n with
  | O => ret (- EINVAL)
  | S n' =>
      s <- load_slot i ;;
      if conn s =? c then ret (Z.of_nat i)
      else index_for_conn_from c (S i) n'
  end.

Definition peripheral_slot_index_for_conn (c : Z) : M Z :=
  index_for_conn_from c 0 (ZMK_SPLIT_BLE_PERIPHERAL_COUNT cfg).

(** [peripheral_slot_for_conn]: the slot pointer is its index in the table,
    [None] the null pointer. *)
Definition peripheral_slot_for_conn (c : Z) : M (option nat) :=
  idx <- peripheral_slot_index_for_conn c ;;
  if idx <? 0 then ret None else ret (Some (Z.to_nat idx)).

(** One step of the inner loop of [release_peripheral_slot]. *)
Definition release_position (index : Z) (slot i j : nat) : M unit :=
  s <- load_slot slot ;;
  b <- load_byte (position_state s) i ;;
  if bit_set b j then
    let position := to_uint32 (Z.of_nat i * 8 + Z.of_nat j) in
    t <- k_uptime_get ;;
    let ev := {| ev_source := to_uint8 index; ev_position := position;
                 ev_state := false; ev_timestamp := t |} in
    put_position_event ev ;;
    extern (k_work_submit peripheral_event_work)
  else ret tt.

Definition clear_position (i : nat) (s : peripheral_slot)
  : option peripheral_slot :=
  match store_byte (position_state s) i 0 with
  | Some p =>
      let s1 := set_position_state p s in
      match store_byte (changed_positions s1) i 0 with
      | Some c => Some (set_changed_positions c s1)
      | None => None
      end
  | None => None
  end.

Definition release_peripheral_slot (index : Z) : M Z :=
  if (index <? 0) || (index >=? Z.of_nat (ZMK_SPLIT_BLE_PERIPHERAL_COUNT cfg))
  then ret (- EINVAL)
  else
    let slot := Z.to_nat index in
    s <- load_slot slot ;;
    if bool_decide (state s = PERIPHERAL_SLOT_STATE_OPEN) then ret (- EINVAL)
    else
      (if negb (conn s =? NULL) then
         extern (bt_conn_unref (conn s)) ;;
         assign_slot slot (set_conn NULL)
       else ret tt) ;;
      assign_slot slot (set_state PERIPHERAL_SLOT_STATE_OPEN) ;;
      for_range POSITION_STATE_DATA_LEN (fun i =>
        for_range 8 (fun j => release_position index slot i j)) ;;
      for_range POSITION_STATE_DATA_LEN (fun i =>
        update_slot slot (clear_position i)) ;;
      assign_slot slot (fun s =>
        set_subscribe_params (set_sp_value_handle 0 (subscribe_params s)) s) ;;
      assign_slot slot (set_run_behavior_handle 0) ;;
      assign_slot slot (set_selected_physical_layout_handle 0) ;;
      (if CONFIG_ZMK_SPLIT_PERIPHERAL_HID_INDICATORS cfg then
         assign_slot slot (set_update_hid_indicators 0)
       else ret tt) ;;
      assign_slot slot (set_update_layers_handle 0) ;;
      ret 0.

Definition reserve_peripheral_slot (addr : Z) : M Z :=
  extern (zmk_ble_put_peripheral_addr addr) ;;
  let i := zmk_ble_put_peripheral_addr_ret bt addr in
  if i >=? 0 then
    s <- load_slot (Z.to_nat i) ;;
    if bool_decide (state s = PERIPHERAL_SLOT_STATE_OPEN) then
      release_peripheral_slot i ;;
      assign_slot (Z.to_nat i) (set_state PERIPHERAL_SLOT_STATE_CONNECTING) ;;
      ret i
    else ret (- ENOMEM)
  else ret (- ENOMEM).

Definition release_peripheral_slot_for_conn (c : Z) : M Z :=
  idx <- peripheral_slot_index_for_conn c ;;
  if idx <? 0 then ret idx else release_peripheral_slot idx.

Definition confirm_peripheral_slot_conn (c : Z) : M Z :=
  idx <- peripheral_slot_index_for_conn c ;;
  if idx <? 0 then ret idx
  else
    assign_slot (Z.to_nat idx) (set_state PERIPHERAL_SLOT_STATE_CONNECTED) ;;
    ret 0.

(** ** Notification decoders *)

(** [params->value_handle = 0U] *)
Definition clear_value_handle (params : subscribe_params_ptr) : M unit :=
  match params with
  | ptr_subscribe_params slot =>
      assign_slot slot (fun s =>
        set_subscribe_params (set_sp_value_handle 0 (subscribe_params s)) s)
  | ptr_sensor_subscribe_params slot =>
      assign_slot slot (fun s =>
        set_sensor_subscribe_params
          (set_sp_value_handle 0 (sensor_subscribe_params s)) s)
  | ptr_batt_lvl_subscribe_params slot =>
      assign_slot slot (fun s =>
        set_batt_lvl_subscribe_params
          (set_sp_value_handle 0 (batt_lvl_subscribe_params s)) s)
  end.

(** Modelled from the spec: the layout of [struct sensor_event], whose header
    [zmk/split/bluetooth/service.h] is not among the sources: a sensor index
    and a channel count, one byte each, then the channel data, so
    [offsetof(struct sensor_event, channel_data)] is 2. *)
Definition sensor_event_channel_data_offset : nat := 2.

Definition sizeof_sensor_event : nat :=
  (sensor_event_channel_data_offset +
   sizeof_zmk_sensor_channel_data cfg * ZMK_SENSOR_EVENT_MAX_CHANNELS cfg)%nat.

(** The local [sensor_event] after [memcpy(&sensor_event, data, n)]: the
    first [n] bytes come from [data], the others are what the stack frame
    held ([frame], indexed from the start of [sensor_event] and continuing
    past its end). *)
Definition sensor_event_bytes (frame : nat -> Z) (copied : list Z) (off : nat)
  : Z :=
  match copied !! off with
  | Some b => b
  | None => frame off
  end.

(** [data] is what can be read at the pointer ([None] for a null pointer),
    [length] the length the host reports. *)
Definition split_central_sensor_notify_func (frame : nat -> Z)
    (params : subscribe_params_ptr) (data : option (list Z)) (length : Z)
  : M bt_gatt_iter :=
  match data with
  | None => clear_value_handle params ;; ret BT_GATT_ITER_STOP
  | Some data =>
      if length <? Z.of_nat sensor_event_channel_data_offset then
        log LOG_LEVEL_WRN ;; ret BT_GATT_ITER_STOP
      else
        let n := Z.to_nat (Z.min length (Z.of_nat sizeof_sensor_event)) in
        copied <- (if decide (n <= List.length data)%nat then ret (take n data)
                   else out_of_bounds) ;;
        let sensor_event := sensor_event_bytes frame copied in
        let sensor_event_sensor_index := sensor_event 0%nat in
        let sensor_event_channel_data_size := sensor_event 1%nat in
        t <- k_uptime_get ;;
        let count :=
          (sizeof_zmk_sensor_channel_data cfg *
           Z.to_nat sensor_event_channel_data_size)%nat in
        let ev :=
          {| sensor_index := sensor_event_sensor_index;
             channel_data_size :=
               Z.min sensor_event_channel_data_size
                     (Z.of_nat (ZMK_SENSOR_EVENT_MAX_CHANNELS cfg));
             channel_data :=
               map (fun k =>
                      sensor_event (sensor_event_channel_data_offset + k)%nat)
                   (seq 0 count);
             sensor_timestamp := t |} in
        put_sensor_event ev ;;
        extern (k_work_submit peripheral_sensor_event_work) ;;
        ret BT_GATT_ITER_CONTINUE
  end.

(** One step of the first loop of [split_central_notify_func]. *)
Definition diff_position (data : list Z) (i : nat) (s : peripheral_slot)
  : option peripheral_slot :=
  match data !! i, position_state s !! i with
  | Some d, Some p =>
      match store_byte (changed_positions s) i (to_uint8 (Z.lxor d p)) with
      | Some c =>
          let s1 := set_changed_positions c s in
          match store_byte (position_state s1) i d with
          | Some p' => Some (set_position_state p' s1)
          | None => None
          end
      | None => None
      end
  | _, _ => None
  end.

(** One step of its inner second loop. *)
Definition notify_position (c : Z) (slot i j : nat) : M unit :=
  s <- load_slot slot ;;
  ch <- load_byte (changed_positions s) i ;;
  if bit_set ch j then
    let position := to_uint32 (Z.of_nat i * 8 + Z.of_nat j) in
    p <- load_byte (position_state s) i ;;
    let pressed := bit_set p j in
    src <- peripheral_slot_index_for_conn c ;;
    t <- k_uptime_get ;;
    let ev := {| ev_source := to_uint8 src; ev_position := position;
                 ev_state := pressed; ev_timestamp := t |} in
    put_position_event ev ;;
    extern (k_work_submit peripheral_event_work)
  else ret tt.

Definition split_central_notify_func (c : Z) (params : subscribe_params_ptr)
    (data : option (list Z)) (length : Z) : M bt_gatt_iter :=
  slot <- peripheral_slot_for_conn c ;;
  match slot with
  | None => log LOG_LEVEL_ERR ;; ret BT_GATT_ITER_CONTINUE
  | Some slot =>
      match data with
      | None => clear_value_handle params ;; ret BT_GATT_ITER_STOP
      | Some data =>
          for_range POSITION_STATE_DATA_LEN (fun i =>
            update_slot slot (diff_position data i)) ;;
          for_range POSITION_STATE_DATA_LEN (fun i =>
            for_range 8 (fun j => notify_position c slot i j)) ;;
          ret BT_GATT_ITER_CONTINUE
      end
  end.

(** [zmk_split_get_peripheral_battery_level]: the returned code and what was
    written through [level], if anything. *)
Definition zmk_split_get_peripheral_battery_level (source : Z)
  : M (Z * option Z) :=
  if source >=? Z.of_nat (ZMK_SPLIT_BLE_PERIPHERAL_COUNT cfg) then
    ret (- EINVAL, None)
  else
    s <- load_slot (Z.to_nat source) ;;
    if negb (bool_decide (state s = PERIPHERAL_SLOT_STATE_CONNECTED)) then
      ret (- ENOTCONN, None)
    else
      levels <- gets peripheral_battery_levels ;;
      l <- load_byte levels (Z.to_nat source) ;;
      ret (0, Some l).

(** ** Outbound writes *)

Definition gatt_write_without_response (c handle : Z) (v : gatt_value) : M Z :=
  extern (bt_gatt_write_without_response c handle v) ;;
  ret (bt_gatt_write_without_response_ret bt c handle).

Definition update_peripheral_selected_layout (slot : nat) (layout_idx : Z)
  : M Z :=
  s <- load_slot slot ;;
  if negb (bool_decide (state s = PERIPHERAL_SLOT_STATE_CONNECTED)) then
    ret (- ENOTCONN)
  else if selected_physical_layout_handle s =? 0 then ret (- EAGAIN)
  else if bt_conn_get_security bt (conn s) <? BT_SECURITY_L2 then
    ret (- EAGAIN)
  else
    err <- gatt_write_without_response (conn s)
             (selected_physical_layout_handle s) (layout_idx_value layout_idx) ;;
    (if err <? 0 then log LOG_LEVEL_ERR else ret tt) ;;
    ret err.

Definition update_peripherals_selected_physical_layout : M unit :=
  let layout_idx := to_uint8 (zmk_physical_layouts_get_selected bt) in
  for_range (ZMK_SPLIT_BLE_PERIPHERAL_COUNT cfg) (fun i =>
    s <- load_slot i ;;
    if negb (bool_decide (state s = PERIPHERAL_SLOT_STATE_CONNECTED)) then
      ret tt
    else
      update_peripheral_selected_layout i layout_idx ;; ret tt).

Definition split_central_update_indicators_callback : M unit :=
  indicators <- gets hid_indicators ;;
  for_range (ZMK_SPLIT_BLE_PERIPHERAL_COUNT cfg) (fun i =>
    s <- load_slot i ;;
    if negb (bool_decide (state s = PERIPHERAL_SLOT_STATE_CONNECTED)) then
      ret tt
    else if update_hid_indicators s =? 0 then ret tt
    else
      err <- gatt_write_without_response (conn s) (update_hid_indicators s)
               (indicators_value indicators) ;;
      if negb (err =? 0) then log LOG_LEVEL_ERR else ret tt).

Definition put_split_run (pw : zmk_split_run_behavior_payload_wrapper)
  : M Z :=
  extern (k_msgq_put_split_run pw) ;;
  q <- gets zmk_split_central_split_run_msgq ;;
  let '(r, q') :=
    msgq_put (CONFIG_ZMK_SPLIT_BLE_CENTRAL_SPLIT_RUN_QUEUE_SIZE cfg)
             q pw true in
  modify (set_zmk_split_central_split_run_msgq q') ;;
  ret r.

Definition get_split_run
  : M (option zmk_split_run_behavior_payload_wrapper) :=
  extern k_msgq_get_split_run ;;
  q <- gets zmk_split_central_split_run_msgq ;;
  let '(x, q') := msgq_get q in
  modify (set_zmk_split_central_split_run_msgq q') ;;
  ret x.

(** The function calls itself after a full queue; [fuel] bounds the depth of
    that recursion, and the result is [None] when it does not suffice. *)
Fixpoint split_bt_invoke_behavior_payload (fuel : nat)
    (payload_wrapper : zmk_split_run_behavior_payload_wrapper) : M Z :=
  match fuel with
  | O => fun _ => None
  | S fuel' =>
      err <- put_split_run payload_wrapper ;;
      if negb (err =? 0) then
        if err =? - EAGAIN then
          log LOG_LEVEL_WRN ;;
          get_split_run ;;
          split_bt_invoke_behavior_payload fuel' payload_wrapper
        else
          log LOG_LEVEL_WRN ;; ret err
      else
        extern (k_work_submit_to_queue split_central_split_run_work) ;;
        ret 0
  end.

(** ** Discovery *)

Definition split_central_subscribe (c : Z) (params : bt_gatt_subscribe_params)
  : M Z :=
  extern (bt_gatt_subscribe c params) ;;
  let err := bt_gatt_subscribe_ret bt c params in
  (if (err =? - EALREADY) || (err =? 0) then ret tt
   else log LOG_LEVEL_ERR) ;;
  ret err.

(** The parameter block a characteristic's subscription is set up with. *)
Definition subscription (s : peripheral_slot) (attr : bt_gatt_attr)
    (notify : notify_func) : bt_gatt_subscribe_params :=
  {| sp_disc_params := true;
     sp_end_handle := dp_end_handle (discover_params s);
     sp_value_handle := attr_value_handle attr;
     sp_notify := notify;
     sp_value := BT_GATT_CCC_NOTIFY |}.

(** The [if]/[else if] chain of [split_central_chrc_discovery_func] on the
    characteristic's UUID. *)
Definition match_characteristic (c : Z) (slot : nat) (attr : bt_gatt_attr)
    (chrc_uuid : bt_uuid) : M unit :=
  if bt_uuid_eq chrc_uuid ZMK_SPLIT_BT_CHAR_POSITION_STATE_UUID then
    assign_slot slot (fun s =>
      set_subscribe_params
        (subscription s attr split_central_notify_func_ptr) s) ;;
    s <- load_slot slot ;;
    split_central_subscribe c (subscribe_params s) ;; ret tt
  else if ZMK_KEYMAP_HAS_SENSORS cfg &&
          bt_uuid_eq chrc_uuid ZMK_SPLIT_BT_CHAR_SENSOR_STATE_UUID then
    assign_slot slot (fun s =>
      set_discover_params
        (set_dp_type BT_GATT_DISCOVER_CHARACTERISTIC
           (set_dp_start_handle (to_uint16 (attr_handle attr + 2))
              (set_dp_uuid None (discover_params s)))) s) ;;
    assign_slot slot (fun s =>
      set_sensor_subscribe_params
        (subscription s attr split_central_sensor_notify_func_ptr) s) ;;
    s <- load_slot slot ;;
    split_central_subscribe c (sensor_subscribe_params s) ;; ret tt
  else if bt_uuid_eq chrc_uuid ZMK_SPLIT_BT_CHAR_RUN_BEHAVIOR_UUID then
    assign_slot slot (fun s =>
      set_discover_params
        (set_dp_start_handle (to_uint16 (attr_handle attr + 2))
           (set_dp_uuid None (discover_params s))) s) ;;
    assign_slot slot (set_run_behavior_handle (attr_value_handle attr))
  else if bt_uuid_eq chrc_uuid ZMK_SPLIT_BT_SELECT_PHYS_LAYOUT_UUID then
    assign_slot slot
      (set_selected_physical_layout_handle (attr_value_handle attr)) ;;
    extern (k_work_submit update_peripherals_selected_layouts_work)
  else if CONFIG_ZMK_SPLIT_PERIPHERAL_HID_INDICATORS cfg &&
          bt_uuid_eq chrc_uuid ZMK_SPLIT_BT_UPDATE_HID_INDICATORS_UUID then
    assign_slot slot (set_update_hid_indicators (attr_value_handle attr))
  else if bt_uuid_eq chrc_uuid ZMK_SPLIT_BT_UPDATE_LAYERS_UUID then
    assign_slot slot (set_update_layers_handle (attr_value_handle attr))
  else if CONFIG_ZMK_SPLIT_BLE_CENTRAL_BATTERY_LEVEL_FETCHING cfg &&
          bt_uuid_eq chrc_uuid BT_UUID_BAS_BATTERY_LEVEL then
    assign_slot slot (fun s =>
      set_batt_lvl_subscribe_params
        (subscription s attr split_central_battery_level_notify_func_ptr) s) ;;
    s <- load_slot slot ;;
    split_central_subscribe c (batt_lvl_subscribe_params s) ;;
    assign_slot slot
      (set_batt_lvl_read_params
         {| rp_func := split_central_battery_level_read_func_ptr;
            rp_handle_count := 1;
            rp_single_handle := attr_value_handle attr;
            rp_single_offset := 0 |}) ;;
    s <- load_slot slot ;;
    extern (bt_gatt_read c (batt_lvl_read_params s))
  else ret tt.

(** The value of [subscribed] at the end of
    [split_central_chrc_discovery_func]; a handle counts as true when it is
    not zero. *)
Definition subscribed (s : peripheral_slot) : bool :=
  let subscribed :=
    negb (run_behavior_handle s =? 0) &&
    negb (sp_value_handle (subscribe_params s) =? 0) &&
    negb (selected_physical_layout_handle s =? 0) in
  let subscribed :=
    if ZMK_KEYMAP_HAS_SENSORS cfg then
      subscribed && negb (sp_value_handle (sensor_subscribe_params s) =? 0)
    else subscribed in
  let subscribed :=
    if CONFIG_ZMK_SPLIT_PERIPHERAL_HID_INDICATORS cfg then
      subscribed && negb (update_hid_indicators s =? 0)
    else subscribed in
  let subscribed :=
    if CONFIG_ZMK_SPLIT_BLE_CENTRAL_BATTERY_LEVEL_FETCHING cfg then
      subscribed && negb (sp_value_handle (batt_lvl_subscribe_params s) =? 0)
    else subscribed in
  subscribed && negb (update_layers_handle s =? 0).

Definition split_central_chrc_discovery_func (c : Z)
    (attr : option bt_gatt_attr) : M bt_gatt_iter :=
  match attr with
  | None => ret BT_GATT_ITER_STOP
  | Some attr =>
      match user_data attr with
      | None => log LOG_LEVEL_ERR ;; ret BT_GATT_ITER_STOP
      | Some chrc_uuid =>
          slot <- peripheral_slot_for_conn c ;;
          match slot with
          | None => log LOG_LEVEL_ERR ;; ret BT_GATT_ITER_STOP
          | Some slot =>
              match_characteristic c slot attr chrc_uuid ;;
              s <- load_slot slot ;;
              if subscribed s then ret BT_GATT_ITER_STOP
              else ret BT_GATT_ITER_CONTINUE
          end
      end
  end.

(** ** Scanning and the connection callbacks *)

(** The loop of [start_scanning] from index [i] on, over [n] slots, leaving
    at the first slot without a connection. *)
Fixpoint has_unconnected_from (i n : nat) : M bool :=
  match n with
  | O => ret false
  | S n' =>
      s <- load_slot i ;;
      if conn s =? NULL then ret true else has_unconnected_from (S i) n'
  end.

Definition start_scanning : M Z :=
  scanning <- gets is_scanning ;;
  if scanning then ret 0
  else
    has_unconnected <-
      has_unconnected_from 0 (CONFIG_ZMK_SPLIT_BLE_CENTRAL_PERIPHERALS cfg) ;;
    if negb has_unconnected then ret 0
    else
      modify (set_is_scanning true) ;;
      extern bt_le_scan_start ;;
      let err := bt_le_scan_start_ret bt in
      if err <? 0 then log LOG_LEVEL_ERR ;; ret err else ret 0.

Definition split_central_disconnected (c : Z) (reason : Z) : M unit :=
  (if CONFIG_ZMK_SPLIT_BLE_CENTRAL_BATTERY_LEVEL_FETCHING cfg then
     src <- peripheral_slot_index_for_conn c ;;
     let ev := {| batt_source := to_uint8 src; state_of_charge := 0 |} in
     put_batt_lvl_event ev ;;
     extern (k_work_submit peripheral_batt_lvl_work)
   else ret tt) ;;
  err <- release_peripheral_slot_for_conn c ;;
  if err <? 0 then ret tt
  else start_scanning ;; ret tt.

End Central.

(** ** Vocabulary of the statements *)

(** The arrays of the table have their declared sizes. *)
Definition wf_slot (s : peripheral_slot) : Prop :=
  length (position_state s) = POSITION_STATE_DATA_LEN /\
  length (changed_positions s) = POSITION_STATE_DATA_LEN.

Definition wf_world (cfg : config) (w : world) : Prop :=
  length (peripherals w) = ZMK_SPLIT_BLE_PERIPHERAL_COUNT cfg /\
  Forall wf_slot (peripherals w) /\
  length (peripheral_battery_levels w) = ZMK_SPLIT_BLE_PERIPHERAL_COUNT cfg.

(** [slot] is the first slot of the table whose connection is [c]. *)
Definition slot_of_conn (w : world) (c : Z) (slot : nat) : Prop :=
  (exists s, peripherals w !! slot = Some s /\ conn s = c) /\
  forall k s, (k < slot)%nat -> peripherals w !! k = Some s -> conn s <> c.

(** No slot of the table has connection [c]. *)
Definition no_slot_of_conn (w : world) (c : Z) : Prop :=
  forall k s, peripherals w !! k = Some s -> conn s <> c.

(** Bit [j] of byte [i] of a position bitmap, and bit [p] of the bitmap:
    bit [p mod 8] of byte [p / 8]. *)
Definition byte_bit (bm : list Z) (i j : nat) : bool :=
  match bm !! i with
  | Some b => Z.testbit b (Z.of_nat j)
  | None => false
  end.

Definition bitmap_bit (bm : list Z) (p : nat) : bool :=
  byte_bit bm (p / 8) (p mod 8).

(** The position-changed events between snapshot [a] and snapshot [b]: one
    for each of the 128 positions whose bit differs, in increasing order,
    carrying the bit of [b]. *)
Definition position_events (src t : Z) (a b : list Z)
  : list zmk_position_state_changed :=
  map (fun p => {| ev_source := src; ev_position := Z.of_nat p;
                   ev_state := bitmap_bit b p; ev_timestamp := t |})
      (List.filter (fun p => xorb (bitmap_bit a p) (bitmap_bit b p))
                   (seq 0 128)).

(** The release events of a bitmap: one for each set bit. *)
Definition release_events (src t : Z) (bm : list Z)
  : list zmk_position_state_changed :=
  map (fun p => {| ev_source := src; ev_position := Z.of_nat p;
                   ev_state := false; ev_timestamp := t |})
      (List.filter (bitmap_bit bm) (seq 0 128)).

(** Raising position events: each is offered to the queue, then the worker is
    submitted. *)
Definition raise_calls (evs : list zmk_position_state_changed) : list call :=
  flat_map (fun ev => [k_msgq_put_position ev;
                       k_work_submit peripheral_event_work]) evs.

(** The world after one position event was raised, and after a list of them
    was. *)
Definition raise_position (cfg : config) (w : world)
    (ev : zmk_position_state_changed) : world :=
  let w1 := set_calls (calls w ++ [k_msgq_put_position ev]) w in
  let q := snd (msgq_put (CONFIG_ZMK_SPLIT_BLE_CENTRAL_POSITION_QUEUE_SIZE cfg)
                         (peripheral_event_msgq w1) ev false) in
  let w2 := set_peripheral_event_msgq q w1 in
  set_calls (calls w2 ++ [k_work_submit peripheral_event_work]) w2.

Definition raise_positions (cfg : config) (w : world)
    (evs : list zmk_position_state_changed) : world :=
  fold_left (raise_position cfg) evs w.

(** Successive updates of one value, any of which may fail. *)
Fixpoint fold_update {A S} (f : A -> S -> option S) (l : list A) (s : S)
  : option S :=
  match l with
  | [] => Some s
  | x :: l' =>
      match f x s with
      | Some s' => fold_update f l' s'
      | None => None
      end
  end.

(** Every mandatory handle and every handle of an enabled option is
    resolved. *)
Definition complete (cfg : config) (s : peripheral_slot) : Prop :=
  sp_value_handle (subscribe_params s) <> 0 /\
  run_behavior_handle s <> 0 /\
  selected_physical_layout_handle s <> 0 /\
  update_layers_handle s <> 0 /\
  (ZMK_KEYMAP_HAS_SENSORS cfg = true ->
   sp_value_handle (sensor_subscribe_params s) <> 0) /\
  (CONFIG_ZMK_SPLIT_PERIPHERAL_HID_INDICATORS cfg = true ->
   update_hid_indicators s <> 0) /\
  (CONFIG_ZMK_SPLIT_BLE_CENTRAL_BATTERY_LEVEL_FETCHING cfg = true ->
   sp_value_handle (batt_lvl_subscribe_params s) <> 0).

(** The slot [release_peripheral_slot] leaves behind. *)
Definition released (cfg : config) (s : peripheral_slot) : peripheral_slot :=
  {| state := PERIPHERAL_SLOT_STATE_OPEN;
     conn := NULL;
     discover_params := discover_params s;
     subscribe_params := set_sp_value_handle 0 (subscribe_params s);
     sensor_subscribe_params := sensor_subscribe_params s;
     sub_discover_params := sub_discover_params s;
     run_behavior_handle := 0;
     batt_lvl_subscribe_params := batt_lvl_subscribe_params s;
     batt_lvl_read_params := batt_lvl_read_params s;
     update_hid_indicators :=
       if CONFIG_ZMK_SPLIT_PERIPHERAL_HID_INDICATORS cfg then 0
       else update_hid_indicators s;
     selected_physical_layout_handle := 0;
     update_layers_handle := 0;
     position_state := replicate POSITION_STATE_DATA_LEN 0;
     changed_positions := replicate POSITION_STATE_DATA_LEN 0 |}.

(** The [bt_conn_unref] of a release, made when the slot has a
    connection. *)
Definition unref_calls (s : peripheral_slot) : list call :=
  if conn s =? NULL then [] else [bt_conn_unref (conn s)].

(** The bytes [changed_positions] holds after a snapshot [data] arrived over
    [prev], and the slot after it. *)
Definition diff_bytes (data prev : list Z) : list Z :=
  zip_with (fun d p => to_uint8 (Z.lxor d p)) data prev.

Definition notified (data : list Z) (s : peripheral_slot) : peripheral_slot :=
  set_position_state (take POSITION_STATE_DATA_LEN data)
    (set_changed_positions
       (diff_bytes (take POSITION_STATE_DATA_LEN data) (position_state s)) s).

(** The world after some calls were made and some lines logged. *)
Definition logged_calls (cs : list call) (ls : list log_level) (w : world)
  : world :=
  set_logged (logged w ++ ls) (set_calls (calls w ++ cs) w).

(** The write the layout broadcast makes for a slot, and the error it logs
    when that write fails. *)
Definition layout_write (bt : bt_host) (layout_idx : Z) (s : peripheral_slot)
  : list call :=
  if bool_decide (state s = PERIPHERAL_SLOT_STATE_CONNECTED) &&
     negb (selected_physical_layout_handle s =? 0) &&
     negb (bt_conn_get_security bt (conn s) <? BT_SECURITY_L2)
  then [bt_gatt_write_without_response (conn s)
          (selected_physical_layout_handle s) (layout_idx_value layout_idx)]
  else [].

Definition layout_write_log (bt : bt_host) (s : peripheral_slot)
  : list log_level :=
  if bool_decide (state s = PERIPHERAL_SLOT_STATE_CONNECTED) &&
     negb (selected_physical_layout_handle s =? 0) &&
     negb (bt_conn_get_security bt (conn s) <? BT_SECURITY_L2) &&
     (bt_gatt_write_without_response_ret bt (conn s)
        (selected_physical_layout_handle s) <? 0)
  then [LOG_LEVEL_ERR] else [].

(** The same for the indicators broadcast. *)
Definition indicators_write (indicators : Z) (s : peripheral_slot)
  : list call :=
  if bool_decide (state s = PERIPHERAL_SLOT_STATE_CONNECTED) &&
     negb (update_hid_indicators s =? 0)
  then [bt_gatt_write_without_response (conn s) (update_hid_indicators s)
          (indicators_value indicators)]
  else [].

Definition indicators_write_log (bt : bt_host) (s : peripheral_slot)
  : list log_level :=
  if bool_decide (state s = PERIPHERAL_SLOT_STATE_CONNECTED) &&
     negb (update_hid_indicators s =? 0) &&
     negb (bt_gatt_write_without_response_ret bt (conn s)
             (update_hid_indicators s) =? 0)
  then [LOG_LEVEL_ERR] else [].

(** The world with slot [slot] of the table replaced. *)
Definition put_slot (slot : nat) (s : peripheral_slot) (w : world) : world :=
  set_peripherals (<[slot := s]> (peripherals w)) w.

(** The handle a characteristic declaration resolves: the value handle of
    [attr] when the option is enabled and the declaration's UUID is the
    known one, the handle as it was otherwise. *)
Definition resolved (enabled : bool) (uuid known : bt_uuid)
    (attr : bt_gatt_attr) (old : Z) : Z :=
  if enabled && bt_uuid_eq uuid known then attr_value_handle attr else old.

(** The error [split_central_subscribe] logs when subscribing fails. *)
Definition subscribe_log (bt : bt_host) (c : Z) (p : bt_gatt_subscribe_params)
  : list log_level :=
  if (bt_gatt_subscribe_ret bt c p =? - EALREADY) ||
     (bt_gatt_subscribe_ret bt c p =? 0)
  then [] else [LOG_LEVEL_ERR].

(** The world after a battery event was raised. *)
Definition raise_battery (cfg : config) (w : world)
    (ev : zmk_peripheral_battery_state_changed) : world :=
  let w1 := set_calls (calls w ++ [k_msgq_put_batt_lvl ev]) w in
  let q :=
    snd (msgq_put (CONFIG_ZMK_SPLIT_BLE_CENTRAL_BATTERY_LEVEL_QUEUE_SIZE cfg)
                  (peripheral_batt_lvl_msgq w1) ev false) in
  let w2 := set_peripheral_batt_lvl_msgq q w1 in
  set_calls (calls w2 ++ [k_work_submit peripheral_batt_lvl_work]) w2.

(** What a disconnect calls for the battery of slot [src], in a build that
    fetches battery levels. *)
Definition battery_gone_calls (cfg : config) (src : Z) : list call :=
  if CONFIG_ZMK_SPLIT_BLE_CENTRAL_BATTERY_LEVEL_FETCHING cfg then
    [k_msgq_put_batt_lvl {| batt_source := src; state_of_charge := 0 |};
     k_work_submit peripheral_batt_lvl_work]
  else [].

(** ** Example states *)

(** A build for two peripherals with indicators and battery fetching, and
    small queues. *)
Definition example_cfg : config :=
  {| CONFIG_ZMK_SPLIT_BLE_CENTRAL_PERIPHERALS := 2;
     ZMK_KEYMAP_HAS_SENSORS := true;
     CONFIG_ZMK_SPLIT_PERIPHERAL_HID_INDICATORS := true;
     CONFIG_ZMK_SPLIT_BLE_CENTRAL_BATTERY_LEVEL_FETCHING := true;
     CONFIG_ZMK_SPLIT_BLE_CENTRAL_POSITION_QUEUE_SIZE := 20;
     CONFIG_ZMK_SPLIT_BLE_CENTRAL_BATTERY_LEVEL_QUEUE_SIZE := 4;
     CONFIG_ZMK_SPLIT_BLE_CENTRAL_SPLIT_RUN_QUEUE_SIZE := 2;
     ZMK_SENSOR_EVENT_MAX_CHANNELS := 1;
     sizeof_zmk_sensor_channel_data := 12 |}.

(** A host on which every call succeeds, every link has security level
    [level], and the identity store binds every address to [index]. *)
Definition example_host (level index : Z) : bt_host :=
  {| bt_conn_get_security := fun _ => level;
     bt_gatt_write_without_response_ret := fun _ _ => 0;
     bt_gatt_subscribe_ret := fun _ _ => 0;
     bt_le_scan_start_ret := 0;
     zmk_ble_put_peripheral_addr_ret := fun _ => index;
     zmk_physical_layouts_get_selected := 1 |}.

Definition zero_discover_params : bt_gatt_discover_params :=
  {| dp_uuid := None; dp_func := no_discover_func; dp_start_handle := 0;
     dp_end_handle := 0; dp_type := BT_GATT_DISCOVER_PRIMARY |}.

Definition zero_subscribe_params : bt_gatt_subscribe_params :=
  {| sp_disc_params := false; sp_end_handle := 0; sp_value_handle := 0;
     sp_notify := no_notify_func; sp_value := 0 |}.

Definition zero_read_params : bt_gatt_read_params :=
  {| rp_func := no_read_func; rp_handle_count := 0; rp_single_handle := 0;
     rp_single_offset := 0 |}.

(** A slot as the zero-initialised table has it. *)
Definition open_slot : peripheral_slot :=
  {| state := PERIPHERAL_SLOT_STATE_OPEN; conn := NULL;
     discover_params := zero_discover_params;
     subscribe_params := zero_subscribe_params;
     sensor_subscribe_params := zero_subscribe_params;
     sub_discover_params := zero_discover_params;
     run_behavior_handle := 0;
     batt_lvl_subscribe_params := zero_subscribe_params;
     batt_lvl_read_params := zero_read_params;
     update_hid_indicators := 0;
     selected_physical_layout_handle := 0;
     update_layers_handle := 0;
     position_state := replicate POSITION_STATE_DATA_LEN 0;
     changed_positions := replicate POSITION_STATE_DATA_LEN 0 |}.

(** A connected slot on connection [c], every characteristic discovered,
    whose last position snapshot is [bm]. *)
Definition connected_slot (c : Z) (bm : list Z) : peripheral_slot :=
  {| state := PERIPHERAL_SLOT_STATE_CONNECTED; conn := c;
     discover_params := zero_discover_params;
     subscribe_params := set_sp_value_handle 18 zero_subscribe_params;
     sensor_subscribe_params := set_sp_value_handle 21 zero_subscribe_params;
     sub_discover_params := zero_discover_params;
     run_behavior_handle := 24;
     batt_lvl_subscribe_params := set_sp_value_handle 40 zero_subscribe_params;
     batt_lvl_read_params := zero_read_params;
     update_hid_indicators := 30;
     selected_physical_layout_handle := 27;
     update_layers_handle := 33;
     position_state := bm;
     changed_positions := replicate POSITION_STATE_DATA_LEN 0 |}.

(** A world around a table, with empty queues and an idle scanner. *)
Definition world_of (ps : list peripheral_slot) : world :=
  {| peripherals := ps; is_scanning := false;
     peripheral_event_msgq := [];
     peripheral_sensor_event_msgq := [];
     peripheral_batt_lvl_msgq := [];
     zmk_split_central_split_run_msgq := [];
     peripheral_battery_levels := replicate (length ps) 0;
     hid_indicators := 2; layers_for_peripheral := 0;
     k_uptime := 1000; calls := []; logged := [] |}.

(** Position 5 held on the first peripheral. *)
Definition bit5 : list Z := 32 :: replicate 15 0.

Definition held_world : world :=
  world_of [connected_slot 7 bit5; open_slot].

(** Nothing held on the first peripheral, and the snapshot with position 0
    pressed. *)
Definition idle_world : world :=
  world_of [connected_slot 7 (replicate 16 0); open_slot].

Definition bit0 : list Z := 1 :: replicate 15 0.

(** A sensor notification of 26 bytes: sensor 0, a channel count of 2, and
    24 bytes of channel data, for a build with one channel of 12 bytes per
    event; and a stack frame that holds [0xAA] everywhere. *)
Definition two_channel_payload : list Z :=
  [0; 2] ++ map Z.of_nat (seq 1 24).

Definition stale_frame : nat -> Z := fun _ => 170.

(** The example build without battery fetching, and a slot in discovery:
    every handle resolved but the layers handle; the battery handle is
    zero. *)
Definition no_battery_cfg : config :=
  {| CONFIG_ZMK_SPLIT_BLE_CENTRAL_PERIPHERALS := 2;
     ZMK_KEYMAP_HAS_SENSORS := true;
     CONFIG_ZMK_SPLIT_PERIPHERAL_HID_INDICATORS := true;
     CONFIG_ZMK_SPLIT_BLE_CENTRAL_BATTERY_LEVEL_FETCHING := false;
     CONFIG_ZMK_SPLIT_BLE_CENTRAL_POSITION_QUEUE_SIZE := 20;
     CONFIG_ZMK_SPLIT_BLE_CENTRAL_BATTERY_LEVEL_QUEUE_SIZE := 4;
     CONFIG_ZMK_SPLIT_BLE_CENTRAL_SPLIT_RUN_QUEUE_SIZE := 2;
     ZMK_SENSOR_EVENT_MAX_CHANNELS := 1;
     sizeof_zmk_sensor_channel_data := 12 |}.

Definition discovering_slot : peripheral_slot :=
  set_update_layers_handle 0
    (set_batt_lvl_subscribe_params zero_subscribe_params
       (connected_slot 7 (replicate 16 0))).

Definition discovering_world : world :=
  world_of [discovering_slot; open_slot].

(** The declaration of the layers characteristic, with value handle 33. *)
Definition layers_attr : bt_gatt_attr :=
  {| attr_handle := 32;
     user_data := Some ZMK_SPLIT_BT_UPDATE_LAYERS_UUID;
     attr_value_handle := 33 |}.

(** ** The workers, the remaining callbacks and the entry points

    Draining a queue is a [while] loop in the source; here it takes a budget
    of rounds and yields [None] when the budget does not suffice.  The
    [k_msgq_get] of the inbound queues, the event manager's [raise_...]
    functions, [bt_gatt_discover], [bt_conn_le_create] and [bt_conn_get_info]
    have no entry in [call]: what a worker raises is its result, a function
    that asks the host for a discovery or a connection returns the request,
    and what the host answers is an argument. *)

Definition set_peripheral_battery_levels (x : list Z) (w : world) : world :=
  {| peripherals := peripherals w; is_scanning := is_scanning w;
     peripheral_event_msgq := peripheral_event_msgq w;
     peripheral_sensor_event_msgq := peripheral_sensor_event_msgq w;
     peripheral_batt_lvl_msgq := peripheral_batt_lvl_msgq w;
     zmk_split_central_split_run_msgq := zmk_split_central_split_run_msgq w;
     peripheral_battery_levels := x; hid_indicators := hid_indicators w;
     layers_for_peripheral := layers_for_peripheral w;
     k_uptime := k_uptime w; calls := calls w; logged := logged w |}.

Definition set_hid_indicators (x : Z) (w : world) : world :=
  {| peripherals := peripherals w; is_scanning := is_scanning w;
     peripheral_event_msgq := peripheral_event_msgq w;
     peripheral_sensor_event_msgq := peripheral_sensor_event_msgq w;
     peripheral_batt_lvl_msgq := peripheral_batt_lvl_msgq w;
     zmk_split_central_split_run_msgq := zmk_split_central_split_run_msgq w;
     peripheral_battery_levels := peripheral_battery_levels w;
     hid_indicators := x;
     layers_for_peripheral := layers_for_peripheral w;
     k_uptime := k_uptime w; calls := calls w; logged := logged w |}.

Definition set_layers_for_peripheral (x : Z) (w : world) : world :=
  {| peripherals := peripherals w; is_scanning := is_scanning w;
     peripheral_event_msgq := peripheral_event_msgq w;
     peripheral_sensor_event_msgq := peripheral_sensor_event_msgq w;
     peripheral_batt_lvl_msgq := peripheral_batt_lvl_msgq w;
     zmk_split_central_split_run_msgq := zmk_split_central_split_run_msgq w;
     peripheral_battery_levels := peripheral_battery_levels w;
     hid_indicators := hid_indicators w;
     layers_for_peripheral := x;
     k_uptime := k_uptime w; calls := calls w; logged := logged w |}.

Definition set_dp_func (x : discover_func) (p : bt_gatt_discover_params)
  : bt_gatt_discover_params :=
  {| dp_uuid := dp_uuid p; dp_func := x;
     dp_start_handle := dp_start_handle p; dp_end_handle := dp_end_handle p;
     dp_type := dp_type p |}.

Definition set_dp_end_handle (x : Z) (p : bt_gatt_discover_params)
  : bt_gatt_discover_params :=
  {| dp_uuid := dp_uuid p; dp_func := dp_func p;
     dp_start_handle := dp_start_handle p; dp_end_handle := x;
     dp_type := dp_type p |}.

(** Advertising data types and advertisement types of the host's headers. *)
Definition BT_DATA_UUID128_SOME : Z := 6.
Definition BT_DATA_UUID128_ALL : Z := 7.
Definition BT_GAP_ADV_TYPE_ADV_IND : Z := 0.
Definition BT_GAP_ADV_TYPE_ADV_DIRECT_IND : Z := 1.

(** What the file asks of the host through calls that [call] does not
    list. *)
Inductive host_request :=
| bt_gatt_discover (c : Z) (params : bt_gatt_discover_params)
| bt_conn_le_create (addr : Z) (slot : nat).

(** [struct bt_data]: an element of advertising data; [data_len] is the
    length of [ad_data]. *)
Record bt_data := {
  ad_type : Z;
  ad_data : list Z
}.

(** A loop over a list whose rounds each raise some events. *)
Fixpoint for_each_collect {A B} (l : list A) (body : A -> M (list B))
  : M (list B) :=
  match l with
  | [] => ret []
  | x :: l' =>
      o <- body x ;;
      os <- for_each_collect l' body ;;
      ret (o ++ os)
  end.

Section CentralRest.

Context (cfg : config) (bt : bt_host).

(** *** Workers of the inbound queues *)

(** [peripheral_event_work_callback]: the events handed to
    [raise_zmk_position_state_changed], in order. *)
Fixpoint peripheral_event_work_callback (fuel : nat)
  : M (list zmk_position_state_changed) :=
  match fuel with
  | O => fun _ => None
  | S fuel' =>
      q <- gets peripheral_event_msgq ;;
      let '(x, q') := msgq_get q in
      modify (set_peripheral_event_msgq q') ;;
      match x with
      | None => ret []
      | Some ev =>
          rest <- peripheral_event_work_callback fuel' ;;
          ret (ev :: rest)
      end
  end.

(** [peripheral_sensor_event_work_callback] *)
Fixpoint peripheral_sensor_event_work_callback (fuel : nat)
  : M (list zmk_sensor_event) :=
  match fuel with
  | O => fun _ => None
  | S fuel' =>
      q <- gets peripheral_sensor_event_msgq ;;
      let '(x, q') := msgq_get q in
      modify (set_peripheral_sensor_event_msgq q') ;;
      match x with
      | None => ret []
      | Some ev =>
          rest <- peripheral_sensor_event_work_callback fuel' ;;
          ret (ev :: rest)
      end
  end.

(** [peripheral_batt_lvl_change_callback]: each event's level is stored at
    [peripheral_battery_levels[ev.source]] before the event is raised. *)
Fixpoint peripheral_batt_lvl_change_callback (fuel : nat)
  : M (list zmk_peripheral_battery_state_changed) :=
  match fuel with
  | O => fun _ => None
  | S fuel' =>
      q <- gets peripheral_batt_lvl_msgq ;;
      let '(x, q') := msgq_get q in
      modify (set_peripheral_batt_lvl_msgq q') ;;
      match x with
      | None => ret []
      | Some ev =>
          levels <- gets peripheral_battery_levels ;;
          levels' <- of_option (store_byte levels (Z.to_nat (batt_source ev))
                                           (state_of_charge ev)) ;;
          modify (set_peripheral_battery_levels levels') ;;
          rest <- peripheral_batt_lvl_change_callback fuel' ;;
          ret (ev :: rest)
      end
  end.

(** *** Battery level notifications and reads *)

Definition split_central_battery_level_notify_func (c : Z)
    (params : subscribe_params_ptr) (data : option (list Z)) (length : Z)
  : M bt_gatt_iter :=
  slot <- peripheral_slot_for_conn cfg c ;;
  match slot with
  | None => log LOG_LEVEL_ERR ;; ret BT_GATT_ITER_CONTINUE
  | Some _ =>
      match data with
      | None => clear_value_handle params ;; ret BT_GATT_ITER_STOP
      | Some data =>
          if length =? 0 then
            log LOG_LEVEL_ERR ;; ret BT_GATT_ITER_CONTINUE
          else
            battery_level <- load_byte data 0 ;;
            src <- peripheral_slot_index_for_conn cfg c ;;
            let ev := {| batt_source := to_uint8 src;
                         state_of_charge := battery_level |} in
            put_batt_lvl_event cfg ev ;;
            extern (k_work_submit peripheral_batt_lvl_work) ;;
            ret BT_GATT_ITER_CONTINUE
      end
  end.

Definition split_central_battery_level_read_func (c : Z) (err : Z)
    (data : option (list Z)) (length : Z) : M bt_gatt_iter :=
  if err >? 0 then log LOG_LEVEL_ERR ;; ret BT_GATT_ITER_STOP
  else
    slot <- peripheral_slot_for_conn cfg c ;;
    match slot with
    | None => log LOG_LEVEL_ERR ;; ret BT_GATT_ITER_CONTINUE
    | Some _ =>
        match data with
        | None => ret BT_GATT_ITER_STOP
        | Some data =>
            if length =? 0 then
              log LOG_LEVEL_ERR ;; ret BT_GATT_ITER_CONTINUE
            else
              battery_level <- load_byte data 0 ;;
              src <- peripheral_slot_index_for_conn cfg c ;;
              let ev := {| batt_source := to_uint8 src;
                           state_of_charge := battery_level |} in
              put_batt_lvl_event cfg ev ;;
              extern (k_work_submit peripheral_batt_lvl_work) ;;
              ret BT_GATT_ITER_CONTINUE
        end
    end.

(** *** The outbound worker and the entry points *)

Fixpoint split_central_split_run_callback (fuel : nat) : M unit :=
  match fuel with
  | O => fun _ => None
  | S fuel' =>
      x <- get_split_run ;;
      match x with
      | None => ret tt
      | Some payload_wrapper =>
          s <- load_slot (Z.to_nat (wrapper_source payload_wrapper)) ;;
          (if negb (bool_decide (state s = PERIPHERAL_SLOT_STATE_CONNECTED))
           then log LOG_LEVEL_ERR
           else if run_behavior_handle s =? 0 then log LOG_LEVEL_ERR
           else
             err <- gatt_write_without_response bt (conn s)
                      (run_behavior_handle s)
                      (run_behavior_value (payload payload_wrapper)) ;;
             if negb (err =? 0) then log LOG_LEVEL_ERR else ret tt) ;;
          split_central_split_run_callback fuel'
      end
  end.

(** [zmk_split_bt_update_hid_indicator]; [submitted] is what
    [k_work_submit_to_queue] returns. *)
Definition zmk_split_bt_update_hid_indicator (indicators submitted : Z)
  : M Z :=
  modify (set_hid_indicators indicators) ;;
  extern (k_work_submit_to_queue split_central_update_indicators) ;;
  ret submitted.

(** [split_central_update_layers_callback]: the layer masks handed to
    [raise_zmk_split_peripheral_layer_changed]. *)
Definition split_central_update_layers_callback : M (list Z) :=
  layers <- gets layers_for_peripheral ;;
  for_each_collect (seq 0 (ZMK_SPLIT_BLE_PERIPHERAL_COUNT cfg)) (fun i =>
    s <- load_slot i ;;
    if negb (bool_decide (state s = PERIPHERAL_SLOT_STATE_CONNECTED)) then
      ret []
    else if update_layers_handle s =? 0 then ret []
    else
      err <- gatt_write_without_response bt (conn s) (update_layers_handle s)
               (layers_value layers) ;;
      if negb (err =? 0) then log LOG_LEVEL_ERR ;; ret []
      else ret [layers]).

Definition zmk_split_bt_update_layers (new_layers submitted : Z) : M Z :=
  modify (set_layers_for_peripheral new_layers) ;;
  extern (k_work_submit_to_queue split_central_update_layers) ;;
  ret submitted.

(** *** Discovery of the service *)

(** [params] is the slot whose [discover_params] the host hands back;
    [discovered] is what [bt_gatt_discover] returns.  Comparing through a
    null [uuid] pointer is an access outside any object. *)
Definition split_central_service_discovery_func (c : Z)
    (attr : option bt_gatt_attr) (params : nat) (discovered : Z)
  : M (bt_gatt_iter * list host_request) :=
  match attr with
  | None =>
      assign_slot params (set_discover_params zero_discover_params) ;;
      ret (BT_GATT_ITER_STOP, [])
  | Some attr =>
      slot <- peripheral_slot_for_conn cfg c ;;
      match slot with
      | None => log LOG_LEVEL_ERR ;; ret (BT_GATT_ITER_STOP, [])
      | Some slot =>
          s <- load_slot slot ;;
          uuid <- of_option (dp_uuid (discover_params s)) ;;
          if negb (bt_uuid_eq uuid ZMK_SPLIT_BT_SERVICE_UUID) then
            ret (BT_GATT_ITER_CONTINUE, [])
          else
            assign_slot slot (fun s =>
              set_discover_params
                (set_dp_type BT_GATT_DISCOVER_CHARACTERISTIC
                   (set_dp_func split_central_chrc_discovery_func_ptr
                      (set_dp_uuid None (discover_params s)))) s) ;;
            s <- load_slot slot ;;
            (if negb (discovered =? 0) then log LOG_LEVEL_ERR else ret tt) ;;
            ret (BT_GATT_ITER_STOP, [bt_gatt_discover c (discover_params s)])
      end
  end.

Definition split_central_process_connection (c : Z) (discovered : Z)
  : M (list host_request) :=
  slot <- peripheral_slot_for_conn cfg c ;;
  match slot with
  | None => log LOG_LEVEL_ERR ;; ret []
  | Some slot =>
      s <- load_slot slot ;;
      if sp_value_handle (subscribe_params s) =? 0 then
        assign_slot slot
          (set_discover_params
             {| dp_uuid := Some ZMK_SPLIT_BT_SERVICE_UUID;
                dp_func := split_central_service_discovery_func_ptr;
                dp_start_handle := 1;
                dp_end_handle := 65535;
                dp_type := BT_GATT_DISCOVER_PRIMARY |}) ;;
        s <- load_slot slot ;;
        let request := [bt_gatt_discover (conn s) (discover_params s)] in
        if negb (discovered =? 0) then
          log LOG_LEVEL_ERR ;; ret request
        else
          start_scanning cfg bt ;; ret request
      else
        start_scanning cfg bt ;; ret []
  end.

(** *** Scanning and connecting *)

(** [stopped] is what [bt_le_scan_stop] returns. *)
Definition stop_scanning (stopped : Z) : M Z :=
  modify (set_is_scanning false) ;;
  extern bt_le_scan_stop ;;
  if stopped <? 0 then log LOG_LEVEL_ERR ;; ret stopped else ret 0.

(** [created] is what [bt_conn_le_create] returns and [new_conn] the
    connection it stores through [&slot->conn] when it succeeds. *)
Definition split_central_eir_found (addr stopped created new_conn : Z)
  : M (bool * list host_request) :=
  slot_idx <- reserve_peripheral_slot cfg bt addr ;;
  if slot_idx <? 0 then ret (false, [])
  else
    err <- stop_scanning stopped ;;
    if err <? 0 then ret (false, [])
    else
      let slot := Z.to_nat slot_idx in
      let request := [bt_conn_le_create addr slot] in
      if created <? 0 then
        log LOG_LEVEL_ERR ;;
        release_peripheral_slot cfg slot_idx ;;
        start_scanning cfg bt ;;
        ret (false, request)
      else
        assign_slot slot (set_conn new_conn) ;;
        ret (false, request).

(** The loop of [split_central_eir_parse] over the 16-byte UUIDs of an
    element; [service_uuid] is the encoding of the split service's UUID.
    [None] says that no UUID matched. *)
Fixpoint eir_parse_uuids (service_uuid : list Z) (rounds : nat)
    (data : list Z) (addr stopped created new_conn : Z)
  : M (option (bool * list host_request)) :=
  match rounds with
  | O => ret None
  | S rounds' =>
      if bool_decide (take 16 data = service_uuid) then
        r <- split_central_eir_found addr stopped created new_conn ;;
        ret (Some r)
      else
        eir_parse_uuids service_uuid rounds' (drop 16 data)
          addr stopped created new_conn
  end.

Definition split_central_eir_parse (service_uuid : list Z) (data : bt_data)
    (addr stopped created new_conn : Z) : M (bool * list host_request) :=
  if (ad_type data =? BT_DATA_UUID128_SOME) ||
     (ad_type data =? BT_DATA_UUID128_ALL) then
    let data_len := length (ad_data data) in
    if negb (data_len mod 16 =? 0)%nat then
      log LOG_LEVEL_ERR ;; ret (true, [])
    else
      r <- eir_parse_uuids service_uuid (data_len / 16) (ad_data data)
             addr stopped created new_conn ;;
      match r with
      | Some r => ret r
      | None => ret (true, [])
      end
  else ret (true, []).

(** [bt_data_parse] is the host's: it hands the elements of the
    advertisement to the callback, in order, until the callback returns
    false. *)
Fixpoint bt_data_parse (service_uuid : list Z) (ad : list bt_data)
    (addr stopped created new_conn : Z) : M (list host_request) :=
  match ad with
  | [] => ret []
  | data :: ad' =>
      r <- split_central_eir_parse service_uuid data
             addr stopped created new_conn ;;
      if fst r then
        rs <- bt_data_parse service_uuid ad' addr stopped created new_conn ;;
        ret (snd r ++ rs)
      else ret (snd r)
  end.

Definition split_central_device_found (service_uuid : list Z) (addr : Z)
    (type : Z) (ad : list bt_data) (stopped created new_conn : Z)
  : M (list host_request) :=
  if type =? BT_GAP_ADV_TYPE_ADV_IND then
    bt_data_parse service_uuid ad addr stopped created new_conn
  else if type =? BT_GAP_ADV_TYPE_ADV_DIRECT_IND then
    r <- split_central_eir_found addr stopped created new_conn ;;
    ret (snd r)
  else ret [].

(** [central] tells whether [info.role] is [BT_CONN_ROLE_CENTRAL]. *)
Definition split_central_connected (c : Z) (conn_err : Z) (central : bool)
    (discovered : Z) : M (list host_request) :=
  if negb central then ret []
  else if negb (conn_err =? 0) then
    log LOG_LEVEL_ERR ;;
    release_peripheral_slot_for_conn cfg c ;;
    start_scanning cfg bt ;;
    ret []
  else
    confirm_peripheral_slot_conn cfg c ;;
    split_central_process_connection c discovered.

Definition split_central_security_changed (c : Z) (level : Z) (err : Z)
  : M unit :=
  slot <- peripheral_slot_for_conn cfg c ;;
  match slot with
  | None => ret tt
  | Some slot =>
      s <- load_slot slot ;;
      if selected_physical_layout_handle s =? 0 then ret tt
      else if err >? 0 then ret tt
      else if level <? BT_SECURITY_L2 then ret tt
      else extern (k_work_submit update_peripherals_selected_layouts_work)
  end.

End CentralRest.

(** ** Vocabulary of the further statements *)

(** A computation keeps a property of the world: whenever it runs to an end
    from a world with the property, the world it leaves has it. *)
Definition preserves {A} (P : world -> Prop) (m : M A) : Prop :=
  forall w a w', P w -> m w = Some (a, w') -> P w'.

(** The battery array after the levels of some events were stored, in
    order. *)
Definition stored_levels (levels : list Z)
    (evs : list zmk_peripheral_battery_state_changed) : list Z :=
  fold_left (fun lv ev => <[Z.to_nat (batt_source ev) := state_of_charge ev]> lv)
            evs levels.

(** The write the outbound worker makes for a queued command: to the slot
    the command names, when it is Connected and its run-behavior handle is
    resolved. *)
Definition run_write (ps : list peripheral_slot)
    (pw : zmk_split_run_behavior_payload_wrapper) : list call :=
  match ps !! Z.to_nat (wrapper_source pw) with
  | Some s =>
      if bool_decide (state s = PERIPHERAL_SLOT_STATE_CONNECTED) &&
         negb (run_behavior_handle s =? 0)
      then [bt_gatt_write_without_response (conn s) (run_behavior_handle s)
              (run_behavior_value (payload pw))]
      else []
  | None => []
  end.

(** All the calls of a run of the outbound worker over the queue [q]: a
    [k_msgq_get] and perhaps a write for each command, and the
    [k_msgq_get] that finds the queue empty. *)
Definition run_worker_calls (ps : list peripheral_slot)
    (q : list zmk_split_run_behavior_payload_wrapper) : list call :=
  flat_map (fun pw => k_msgq_get_split_run :: run_write ps pw) q ++
  [k_msgq_get_split_run].

(** The write the layers broadcast makes for a slot, and the event it
    raises when the write succeeded. *)
Definition layers_write (layers : Z) (s : peripheral_slot) : list call :=
  if bool_decide (state s = PERIPHERAL_SLOT_STATE_CONNECTED) &&
     negb (update_layers_handle s =? 0)
  then [bt_gatt_write_without_response (conn s) (update_layers_handle s)
          (layers_value layers)]
  else [].

Definition layers_raised (bt : bt_host) (layers : Z) (s : peripheral_slot)
  : list Z :=
  if bool_decide (state s = PERIPHERAL_SLOT_STATE_CONNECTED) &&
     negb (update_layers_handle s =? 0) &&
     (bt_gatt_write_without_response_ret bt (conn s)
        (update_layers_handle s) =? 0)
  then [layers] else [].

Definition layers_write_log (bt : bt_host) (s : peripheral_slot)
  : list log_level :=
  if bool_decide (state s = PERIPHERAL_SLOT_STATE_CONNECTED) &&
     negb (update_layers_handle s =? 0) &&
     negb (bt_gatt_write_without_response_ret bt (conn s)
             (update_layers_handle s) =? 0)
  then [LOG_LEVEL_ERR] else [].

(** Some slot of the table has no connection. *)
Definition has_unconnected (ps : list peripheral_slot) : bool :=
  existsb (fun s => conn s =? NULL) ps.

(** The world after [start_scanning] asked the host to scan. *)
Definition scan_started (bt : bt_host) (w : world) : world :=
  let w1 := set_calls (calls w ++ [bt_le_scan_start])
              (set_is_scanning true w) in
  if bt_le_scan_start_ret bt <? 0
  then set_logged (logged w1 ++ [LOG_LEVEL_ERR]) w1 else w1.

(** A host that refuses to scan. *)
Definition refusing_host : bt_host :=
  {| bt_conn_get_security := fun _ => 2;
     bt_gatt_write_without_response_ret := fun _ _ => 0;
     bt_gatt_subscribe_ret := fun _ _ => 0;
     bt_le_scan_start_ret := - 5;
     zmk_ble_put_peripheral_addr_ret := fun _ => 1;
     zmk_physical_layouts_get_selected := 1 |}.

(** The world after [reserve_peripheral_slot] asked the identity store about
    [addr]. *)
Definition asked (addr : Z) (w : world) : world :=
  set_calls (calls w ++ [zmk_ble_put_peripheral_addr addr]) w.

(** The world after a reservation took slot [i] and [stop_scanning] ran with
    the host returning [stopped]. *)
Definition reserved_and_stopped (addr stopped : Z) (i : nat)
    (s : peripheral_slot) (w : world) : world :=
  let w1 := put_slot i (set_state PERIPHERAL_SLOT_STATE_CONNECTING s)
              (asked addr w) in
  let w2 := set_calls (calls w1 ++ [bt_le_scan_stop])
              (set_is_scanning false w1) in
  if stopped <? 0 then set_logged (logged w2 ++ [LOG_LEVEL_ERR]) w2 else w2.

(** The discovery [split_central_process_connection] asks for: the primary
    service with the split service's UUID, over all handles. *)
Definition service_discovery : bt_gatt_discover_params :=
  {| dp_uuid := Some ZMK_SPLIT_BT_SERVICE_UUID;
     dp_func := split_central_service_discovery_func_ptr;
     dp_start_handle := 1;
     dp_end_handle := 65535;
     dp_type := BT_GATT_DISCOVER_PRIMARY |}.

(** An element of advertising data is a list of 128-bit UUIDs. *)
Definition is_uuid128_list (d : bt_data) : bool :=
  (ad_type d =? BT_DATA_UUID128_SOME) || (ad_type d =? BT_DATA_UUID128_ALL).

(** Such a list whose length is not a multiple of 16. *)
Definition malformed (d : bt_data) : bool :=
  is_uuid128_list d && negb (length (ad_data d) mod 16 =? 0)%nat.

(** The [k]-th UUID of the list is the service's, for some [k]. *)
Definition lists_service (service_uuid : list Z) (rounds : nat)
    (data : list Z) : bool :=
  existsb (fun k => bool_decide (take 16 (drop (16 * k) data) = service_uuid))
          (seq 0 rounds).

(** A well-formed list of 128-bit UUIDs that lists the service. *)
Definition names_service (service_uuid : list Z) (d : bt_data) : bool :=
  is_uuid128_list d && (length (ad_data d) mod 16 =? 0)%nat &&
  lists_service service_uuid (length (ad_data d) / 16) (ad_data d).

(** The elements of an advertisement before the first that names the
    service, and the errors logged for the malformed ones among them. *)
Fixpoint before_service (service_uuid : list Z) (ad : list bt_data)
  : list bt_data :=
  match ad with
  | [] => []
  | d :: ad' =>
      if names_service service_uuid d then []
      else d :: before_service service_uuid ad'
  end.

Definition malformed_log (ds : list bt_data) : list log_level :=
  flat_map (fun d => if malformed d then [LOG_LEVEL_ERR] else []) ds.

(** The encoding of a service UUID, and an advertisement that lists another
    UUID and then this one. *)
Definition example_uuid : list Z := map Z.of_nat (seq 1 16).

Definition example_ad : list bt_data :=
  [{| ad_type := 1; ad_data := [6] |};
   {| ad_type := BT_DATA_UUID128_ALL; ad_data := [1; 2; 3] |};
   {| ad_type := BT_DATA_UUID128_ALL;
      ad_data := replicate 16 0 ++ example_uuid |};
   {| ad_type := BT_DATA_UUID128_SOME; ad_data := example_uuid |}].

(** The discovery the service callback asks for once the split service is
    found: its characteristics, over the handles of the service discovery. *)
Definition characteristic_discovery : bt_gatt_discover_params :=
  {| dp_uuid := None;
     dp_func := split_central_chrc_discovery_func_ptr;
     dp_start_handle := 1;
     dp_end_handle := 65535;
     dp_type := BT_GATT_DISCOVER_CHARACTERISTIC |}.

(** A slot whose service discovery is under way. *)
Definition searching_slot : peripheral_slot :=
  set_discover_params service_discovery
    (set_subscribe_params zero_subscribe_params
       (connected_slot 7 (replicate 16 0))).

Definition searching_world : world := world_of [searching_slot; open_slot].

(** ** Bits *)

Lemma BIT_pow2 (j : nat) : BIT j = 2 ^ Z.of_nat j.
Proof. unfold BIT. rewrite Z.shiftl_1_l. reflexivity. Qed.

Lemma bit_set_testbit (b : Z) (j : nat) :
  bit_set b j = Z.testbit b (Z.of_nat j).
Proof.
  unfold bit_set. rewrite BIT_pow2.
  destruct (Z.testbit b (Z.of_nat j)) eqn:Hb.
  - apply negb_true_iff, Z.eqb_neq. intros H0.
    assert (Ht : Z.testbit (Z.land b (2 ^ Z.of_nat j)) (Z.of_nat j) = true).
    { rewrite Z.land_spec, Hb, Z.pow2_bits_true by lia. reflexivity. }
    rewrite H0, Z.bits_0 in Ht. discriminate.
  - apply negb_false_iff, Z.eqb_eq. apply Z.bits_inj'. intros n Hn.
    rewrite Z.land_spec, Z.bits_0.
    destruct (Z.eq_dec n (Z.of_nat j)) as [->|Hne].
    + rewrite Hb. reflexivity.
    + rewrite Z.pow2_bits_false by lia. apply andb_false_r.
Qed.

Lemma bit_set_uint8_xor (d p : Z) (j : nat) :
  (j < 8)%nat ->
  bit_set (to_uint8 (Z.lxor d p)) j =
  xorb (Z.testbit d (Z.of_nat j)) (Z.testbit p (Z.of_nat j)).
Proof.
  intros Hj. rewrite bit_set_testbit. unfold to_uint8.
  change 256 with (2 ^ 8).
  rewrite Z.mod_pow2_bits_low by lia. apply Z.lxor_spec.
Qed.

(** ** The two nested loops over bytes and bits *)

Section BitLoops.

Context {E : Type} (P : nat -> nat -> bool) (f : nat -> E).

Lemma bits_of_byte (i m k : nat) :
  (k + m <= 8)%nat ->
  flat_map (fun j => if P i j then [f (i * 8 + j)%nat] else []) (seq k m) =
  map f (List.filter (fun p => P (p / 8)%nat (p mod 8)%nat)
                     (seq (i * 8 + k) m)).
Proof.
  revert k. induction m as [|m IH]; intros k Hk; [reflexivity|].
  cbn [seq flat_map List.filter].
  assert (Hd : ((i * 8 + k) / 8 = i)%nat).
  { symmetry. apply (Nat.div_unique _ 8 i k); lia. }
  assert (Hm : ((i * 8 + k) mod 8 = k)%nat).
  { symmetry. apply (Nat.mod_unique _ 8 i k); lia. }
  rewrite Hd, Hm.
  replace (S (i * 8 + k)) with (i * 8 + S k)%nat by lia.
  destruct (P i k); cbn [map app]; rewrite <- IH by lia; reflexivity.
Qed.

Lemma bits_of_bytes (n : nat) :
  flat_map (fun i =>
      flat_map (fun j => if P i j then [f (i * 8 + j)%nat] else []) (seq 0 8))
    (seq 0 n) =
  map f (List.filter (fun p => P (p / 8)%nat (p mod 8)%nat) (seq 0 (n * 8))).
Proof.
  induction n as [|n IH]; [reflexivity|].
  replace (S n * 8)%nat with (n * 8 + 8)%nat by lia.
  rewrite (seq_S n 0), flat_map_app, IH.
  rewrite seq_app, List.filter_app, map_app. f_equal.
  rewrite !Nat.add_0_l. cbn [flat_map]. rewrite app_nil_r.
  rewrite (bits_of_byte n 8 0) by lia.
  repeat f_equal; lia.
Qed.

End BitLoops.

(** ** Running the monad *)

Lemma bind_eq {A B} (m : M A) (k : A -> M B) (w w' : world) (a : A) :
  m w = Some (a, w') -> bind m k w = k a w'.
Proof. intros H. unfold bind. rewrite H. reflexivity. Qed.

Lemma load_slot_eq (i : nat) (s : peripheral_slot) (w : world) :
  peripherals w !! i = Some s -> load_slot i w = Some (s, w).
Proof. intros H. unfold load_slot, bind, gets. rewrite H. reflexivity. Qed.

Lemma update_slot_eq (i : nat) f (s s' : peripheral_slot) (w : world) :
  peripherals w !! i = Some s -> f s = Some s' ->
  update_slot i f w =
  Some (tt, set_peripherals (<[i := s']> (peripherals w)) w).
Proof.
  intros H Hf. unfold update_slot.
  rewrite (bind_eq _ _ _ _ _ (load_slot_eq _ _ _ H)).
  rewrite Hf. reflexivity.
Qed.

Lemma assign_slot_eq (i : nat) f (s : peripheral_slot) (w : world) :
  peripherals w !! i = Some s ->
  assign_slot i f w =
  Some (tt, set_peripherals (<[i := f s]> (peripherals w)) w).
Proof. intros H. apply (update_slot_eq _ _ _ _ _ H). reflexivity. Qed.

Lemma world_eta (w : world) :
  set_peripherals (peripherals w) w = w.
Proof. destruct w; reflexivity. Qed.

Lemma set_peripherals_twice (p q : list peripheral_slot) (w : world) :
  set_peripherals p (set_peripherals q w) = set_peripherals p w.
Proof. reflexivity. Qed.

(** A loop of assignments to one slot is one assignment of the folded
    value. *)
Lemma for_each_update_slot {A} (slot : nat) (f : A -> peripheral_slot ->
    option peripheral_slot) (l : list A) (s s' : peripheral_slot) (w : world) :
  peripherals w !! slot = Some s ->
  fold_update f l s = Some s' ->
  for_each l (fun x => update_slot slot (f x)) w =
  Some (tt, set_peripherals (<[slot := s']> (peripherals w)) w).
Proof.
  revert s w. induction l as [|x l IH]; intros s w Hs Hf; cbn in Hf.
  - injection Hf as <-. cbn. rewrite list_insert_id by exact Hs.
    rewrite world_eta. reflexivity.
  - destruct (f x s) as [s1|] eqn:Hx; [|discriminate].
    cbn [for_each].
    rewrite (bind_eq _ _ _ _ _ (update_slot_eq _ _ _ _ _ Hs Hx)).
    assert (Hlt : (slot < length (peripherals w))%nat)
      by (eapply lookup_lt_Some; exact Hs).
    rewrite (IH s1); [| |exact Hf].
    + cbn. rewrite list_insert_insert_eq. reflexivity.
    + cbn. apply list_lookup_insert_eq. exact Hlt.
Qed.

(** ** Raising events *)

Section Raising.

Context (cfg : config).

Lemma raise_positions_app (w : world) (e1 e2 : list zmk_position_state_changed) :
  raise_positions cfg w (e1 ++ e2) =
  raise_positions cfg (raise_positions cfg w e1) e2.
Proof. apply fold_left_app. Qed.

Lemma raise_positions_peripherals (evs : list zmk_position_state_changed)
    (w : world) :
  peripherals (raise_positions cfg w evs) = peripherals w.
Proof.
  unfold raise_positions. revert w.
  induction evs as [|e evs IH]; intros w; cbn [fold_left]; [reflexivity|].
  rewrite IH. reflexivity.
Qed.

Lemma raise_positions_k_uptime (evs : list zmk_position_state_changed)
    (w : world) :
  k_uptime (raise_positions cfg w evs) = k_uptime w.
Proof.
  unfold raise_positions. revert w.
  induction evs as [|e evs IH]; intros w; cbn [fold_left]; [reflexivity|].
  rewrite IH. reflexivity.
Qed.

Lemma raise_positions_is_scanning (evs : list zmk_position_state_changed)
    (w : world) :
  is_scanning (raise_positions cfg w evs) = is_scanning w.
Proof.
  unfold raise_positions. revert w.
  induction evs as [|e evs IH]; intros w; cbn [fold_left]; [reflexivity|].
  rewrite IH. reflexivity.
Qed.

Lemma raise_positions_logged (evs : list zmk_position_state_changed)
    (w : world) :
  logged (raise_positions cfg w evs) = logged w.
Proof.
  unfold raise_positions. revert w.
  induction evs as [|e evs IH]; intros w; cbn [fold_left]; [reflexivity|].
  rewrite IH. reflexivity.
Qed.

Lemma raise_positions_calls (evs : list zmk_position_state_changed)
    (w : world) :
  calls (raise_positions cfg w evs) = calls w ++ raise_calls evs.
Proof.
  unfold raise_positions. revert w.
  induction evs as [|e evs IH]; intros w; cbn [fold_left].
  - cbn. rewrite app_nil_r. reflexivity.
  - rewrite IH. cbn. rewrite <- !app_assoc. reflexivity.
Qed.

(** A queue with room takes all the raised events, in order. *)
Lemma raise_positions_queue (evs : list zmk_position_state_changed)
    (w : world) :
  (length (peripheral_event_msgq w) + length evs <=
   CONFIG_ZMK_SPLIT_BLE_CENTRAL_POSITION_QUEUE_SIZE cfg)%nat ->
  peripheral_event_msgq (raise_positions cfg w evs) =
  peripheral_event_msgq w ++ evs.
Proof.
  unfold raise_positions. revert w.
  induction evs as [|e evs IH]; intros w Hlen; cbn [fold_left].
  - rewrite app_nil_r. reflexivity.
  - cbn [length] in Hlen.
    assert (Hq : peripheral_event_msgq (raise_position cfg w e) =
                 peripheral_event_msgq w ++ [e]).
    { unfold raise_position, msgq_put. cbn.
      destruct (decide _) as [|Hn]; [reflexivity|]. exfalso. apply Hn. lia. }
    rewrite IH; rewrite Hq.
    + rewrite <- app_assoc. reflexivity.
    + rewrite length_app. cbn. lia.
Qed.

Lemma put_position_event_eq (ev : zmk_position_state_changed) (w : world) :
  (put_position_event cfg ev ;; extern (k_work_submit peripheral_event_work)) w
  = Some (tt, raise_position cfg w ev).
Proof.
  unfold put_position_event, raise_position, bind, extern, gets, modify, ret.
  cbn. destruct (msgq_put _ _ _ _). reflexivity.
Qed.

(** A loop whose every round raises events that depend only on the table and
    the clock raises their concatenation. *)
Lemma for_each_raise {A} (ps : list peripheral_slot) (t : Z) (l : list A)
    (body : A -> M unit) (evs : A -> list zmk_position_state_changed)
    (w : world) :
  (forall x w', In x l -> peripherals w' = ps -> k_uptime w' = t ->
                body x w' = Some (tt, raise_positions cfg w' (evs x))) ->
  peripherals w = ps -> k_uptime w = t ->
  for_each l body w = Some (tt, raise_positions cfg w (flat_map evs l)).
Proof.
  revert w. induction l as [|x l IH]; intros w Hbody Hps Ht; [reflexivity|].
  cbn [for_each flat_map].
  rewrite (bind_eq _ _ _ _ _ (Hbody x w (or_introl eq_refl) Hps Ht)).
  rewrite raise_positions_app. apply IH.
  - intros y w' Hy. apply Hbody. right. exact Hy.
  - rewrite raise_positions_peripherals. exact Hps.
  - rewrite raise_positions_k_uptime. exact Ht.
Qed.

End Raising.

(** ** Releasing a slot *)

Lemma raise_positions_set_peripherals cfg p evs w :
  raise_positions cfg (set_peripherals p w) evs =
  set_peripherals p (raise_positions cfg w evs).
Proof.
  unfold raise_positions. revert w.
  induction evs as [|e evs IH]; intros w; cbn [fold_left]; [reflexivity|].
  rewrite <- IH. reflexivity.
Qed.

Ltac list16 l H :=
  do 16 (destruct l as [|? l]; [discriminate H|]);
  destruct l; [|discriminate H].

Ltac take16 l H :=
  do 16 (destruct l as [|? l]; [cbn in H; lia|]).

Lemma small_position (i j : nat) :
  (i < 16)%nat -> (j < 8)%nat ->
  to_uint32 (Z.of_nat i * 8 + Z.of_nat j) = Z.of_nat (i * 8 + j).
Proof. intros Hi Hj. unfold to_uint32. rewrite Z.mod_small; lia. Qed.

Lemma byte_bit_bitmap_bit (bm : list Z) (i j : nat) :
  (j < 8)%nat -> byte_bit bm i j = bitmap_bit bm (i * 8 + j).
Proof.
  intros Hj. unfold bitmap_bit.
  rewrite <- (Nat.div_unique (i * 8 + j) 8 i j) by lia.
  rewrite <- (Nat.mod_unique (i * 8 + j) 8 i j) by lia.
  reflexivity.
Qed.

(** One round of the release loop. *)
Lemma release_position_eq cfg (w : world) (index : Z) (slot i j : nat)
    (s : peripheral_slot) :
  peripherals w !! slot = Some s ->
  (i < length (position_state s))%nat -> (i < 16)%nat -> (j < 8)%nat ->
  release_position cfg index slot i j w =
  Some (tt, raise_positions cfg w
              (if byte_bit (position_state s) i j then
                 [{| ev_source := to_uint8 index;
                     ev_position := Z.of_nat (i * 8 + j);
                     ev_state := false; ev_timestamp := k_uptime w |}]
               else [])).
Proof.
  intros Hs Hlen Hi Hj. unfold release_position.
  rewrite (bind_eq _ _ _ _ _ (load_slot_eq _ _ _ Hs)).
  destruct (lookup_lt_is_Some_2 _ _ Hlen) as [b Hb].
  unfold load_byte, byte_bit. rewrite Hb. cbn [of_option].
  rewrite (bind_eq _ _ w w b) by reflexivity.
  rewrite bit_set_testbit.
  destruct (Z.testbit b (Z.of_nat j)); [|reflexivity].
  rewrite (bind_eq _ _ w w (k_uptime w)) by reflexivity.
  rewrite put_position_event_eq, small_position by assumption.
  reflexivity.
Qed.

(** The clearing loop. *)
Lemma clear_positions_eq (s : peripheral_slot) :
  wf_slot s ->
  fold_update clear_position (seq 0 POSITION_STATE_DATA_LEN) s =
  Some (set_changed_positions (replicate POSITION_STATE_DATA_LEN 0)
          (set_position_state (replicate POSITION_STATE_DATA_LEN 0) s)).
Proof.
  intros [Hp Hc]. destruct s as [? ? ? ? ? ? ? ? ? ? ? ? ps cs].
  cbn in Hp, Hc. list16 ps Hp. list16 cs Hc. reflexivity.
Qed.

Lemma peripherals_set_peripherals p w :
  peripherals (set_peripherals p w) = p.
Proof. reflexivity. Qed.

Ltac assign_step Hlt :=
  erewrite bind_eq
    by (apply assign_slot_eq; rewrite peripherals_set_peripherals;
        apply list_lookup_insert_eq; exact Hlt);
  rewrite peripherals_set_peripherals, set_peripherals_twice,
    list_insert_insert_eq.

(** The whole run of [release_peripheral_slot] on a reserved slot. *)
Lemma release_run cfg (w : world) (index : Z) (s : peripheral_slot) :
  0 <= index < Z.of_nat (ZMK_SPLIT_BLE_PERIPHERAL_COUNT cfg) ->
  peripherals w !! Z.to_nat index = Some s ->
  wf_slot s ->
  state s <> PERIPHERAL_SLOT_STATE_OPEN ->
  release_peripheral_slot cfg index w =
  Some (0, set_peripherals (<[Z.to_nat index := released cfg s]> (peripherals w))
             (raise_positions cfg (set_calls (calls w ++ unref_calls s) w)
                (release_events (to_uint8 index) (k_uptime w) (position_state s)))).
Proof.
  intros Hidx Hs Hwf Hst.
  unfold release_peripheral_slot.
  replace ((index <? 0) || (index >=? _)) with false
    by (symmetry; apply orb_false_iff; split; lia).
  rewrite (bind_eq _ _ _ _ _ (load_slot_eq _ _ _ Hs)).
  rewrite bool_decide_eq_false_2 by exact Hst.
  set (slot := Z.to_nat index) in *.
  assert (Hlt : (slot < length (peripherals w))%nat)
    by (eapply lookup_lt_Some; exact Hs).
  set (s0 := set_conn NULL s).
  set (w0 := set_peripherals (<[slot := s0]> (peripherals w))
               (set_calls (calls w ++ unref_calls s) w)).
  assert (Hs0 : peripherals w0 !! slot = Some s0)
    by (apply list_lookup_insert_eq; exact Hlt).
  rewrite (bind_eq _ _ w w0 tt).
  2:{ unfold w0, s0, unref_calls. destruct (conn s =? NULL) eqn:Hn; cbn [negb].
      - apply Z.eqb_eq in Hn.
        replace (set_conn NULL s) with s
          by (destruct s; cbn in *; subst; reflexivity).
        rewrite list_insert_id by exact Hs.
        rewrite app_nil_r. destruct w; reflexivity.
      - rewrite (bind_eq _ _ w
                   (set_calls (calls w ++ [bt_conn_unref (conn s)]) w) tt)
          by reflexivity.
        rewrite (assign_slot_eq _ _ s) by exact Hs. reflexivity. }
  rewrite (bind_eq _ _ _ _ _ (assign_slot_eq _ _ _ _ Hs0)).
  cbn [peripherals set_peripherals w0]. rewrite list_insert_insert_eq.
  set (s1 := set_state PERIPHERAL_SLOT_STATE_OPEN s0).
  set (w1 := set_peripherals _ _).
  assert (Hs1 : peripherals w1 !! slot = Some s1)
    by (apply list_lookup_insert_eq; exact Hlt).
  assert (Hwf1 : wf_slot s1) by exact Hwf.
  set (evs := release_events (to_uint8 index) (k_uptime w) (position_state s)).
  rewrite (bind_eq _ _ w1 (raise_positions cfg w1 evs) tt).
  2:{ unfold for_range.
      replace evs with
        (flat_map (fun i => flat_map (fun j =>
           if byte_bit (position_state s) i j then
             [{| ev_source := to_uint8 index;
                 ev_position := Z.of_nat (i * 8 + j);
                 ev_state := false; ev_timestamp := k_uptime w |}]
           else []) (seq 0 8)) (seq 0 POSITION_STATE_DATA_LEN))
        by apply (bits_of_bytes (byte_bit (position_state s))
                   (fun p => {| ev_source := to_uint8 index;
                                ev_position := Z.of_nat p;
                                ev_state := false;
                                ev_timestamp := k_uptime w |}) 16).
      apply (for_each_raise cfg (peripherals w1) (k_uptime w));
        [|reflexivity|reflexivity].
      intros i w' Hi Hps Ht. apply in_seq in Hi.
      apply (for_each_raise cfg (peripherals w1) (k_uptime w));
        [|assumption|assumption].
      intros j w'' Hj Hps' Ht'. apply in_seq in Hj.
      rewrite (release_position_eq cfg w'' index slot i j s1).
      - rewrite Ht'. reflexivity.
      - rewrite Hps'. exact Hs1.
      - destruct Hwf1 as [-> _]. lia.
      - unfold POSITION_STATE_DATA_LEN in Hi. lia.
      - lia. }
  assert (Hs2 : peripherals (raise_positions cfg w1 evs) !! slot = Some s1)
    by (rewrite raise_positions_peripherals; exact Hs1).
  rewrite (bind_eq _ _ _ _ _
             (for_each_update_slot _ _ _ _ _ _ Hs2 (clear_positions_eq _ Hwf1))).
  rewrite raise_positions_peripherals.
  cbn [peripherals set_peripherals w1]. rewrite list_insert_insert_eq.
  assign_step Hlt. assign_step Hlt. assign_step Hlt.
  destruct (CONFIG_ZMK_SPLIT_PERIPHERAL_HID_INDICATORS cfg) eqn:Hcfg.
  - assign_step Hlt. assign_step Hlt.
    unfold w1, w0. rewrite !raise_positions_set_peripherals.
    rewrite !set_peripherals_twice. unfold ret. do 3 f_equal.
    unfold released. rewrite Hcfg. destruct s; reflexivity.
  - rewrite (bind_eq _ _ _ _ tt eq_refl).
    assign_step Hlt.
    unfold w1, w0. rewrite !raise_positions_set_peripherals.
    rewrite !set_peripherals_twice. unfold ret. do 3 f_equal.
    unfold released. rewrite Hcfg. destruct s; reflexivity.
Qed.

Lemma calls_set_peripherals p w : calls (set_peripherals p w) = calls w.
Proof. reflexivity. Qed.

(** C2: releasing a reserved slot of the table succeeds; it drops the
    connection reference if there is one, raises one position-changed event
    with [pressed = false] for each bit set in the slot's position bitmap as
    it was on entry, and leaves the slot Open with both bitmaps zero and the
    position-state, run-behavior, layout-select, layers and (where the build
    has them) indicators handles zero. *)
Theorem release_raises_set_bits_and_clears (cfg : config) (w : world)
    (index : Z) (s : peripheral_slot) :
  0 <= index < Z.of_nat (ZMK_SPLIT_BLE_PERIPHERAL_COUNT cfg) ->
  peripherals w !! Z.to_nat index = Some s ->
  wf_slot s ->
  state s <> PERIPHERAL_SLOT_STATE_OPEN ->
  exists w' s',
    release_peripheral_slot cfg index w = Some (0, w') /\
    calls w' =
      calls w ++ unref_calls s ++
      raise_calls (release_events (to_uint8 index) (k_uptime w)
                                  (position_state s)) /\
    peripherals w' !! Z.to_nat index = Some s' /\
    state s' = PERIPHERAL_SLOT_STATE_OPEN /\
    position_state s' = replicate POSITION_STATE_DATA_LEN 0 /\
    changed_positions s' = replicate POSITION_STATE_DATA_LEN 0 /\
    sp_value_handle (subscribe_params s') = 0 /\
    run_behavior_handle s' = 0 /\
    selected_physical_layout_handle s' = 0 /\
    update_layers_handle s' = 0 /\
    (CONFIG_ZMK_SPLIT_PERIPHERAL_HID_INDICATORS cfg = true ->
     update_hid_indicators s' = 0).
Proof.
  intros Hidx Hs Hwf Hst.
  eexists _, (released cfg s).
  split; [apply (release_run cfg w index s); assumption|].
  split.
  { rewrite calls_set_peripherals.
    rewrite raise_positions_calls. cbn [calls set_calls].
    rewrite <- app_assoc. reflexivity. }
  split.
  { apply list_lookup_insert_eq. eapply lookup_lt_Some. exact Hs. }
  unfold released;
    cbn [state position_state changed_positions subscribe_params
         sp_value_handle set_sp_value_handle run_behavior_handle
         selected_physical_layout_handle update_layers_handle
         update_hid_indicators].
  repeat split. intros ->. reflexivity.
Qed.

Lemma release_raises_set_bits_and_clears_witness :
  exists w' s',
    release_peripheral_slot example_cfg 0 held_world = Some (0, w') /\
    calls w' =
      calls held_world ++ unref_calls (connected_slot 7 bit5) ++
      raise_calls (release_events (to_uint8 0) (k_uptime held_world)
                                  (position_state (connected_slot 7 bit5))) /\
    peripherals w' !! Z.to_nat 0 = Some s' /\
    state s' = PERIPHERAL_SLOT_STATE_OPEN /\
    position_state s' = replicate POSITION_STATE_DATA_LEN 0 /\
    changed_positions s' = replicate POSITION_STATE_DATA_LEN 0 /\
    sp_value_handle (subscribe_params s') = 0 /\
    run_behavior_handle s' = 0 /\
    selected_physical_layout_handle s' = 0 /\
    update_layers_handle s' = 0 /\
    (CONFIG_ZMK_SPLIT_PERIPHERAL_HID_INDICATORS example_cfg = true ->
     update_hid_indicators s' = 0).
Proof.
  apply (release_raises_set_bits_and_clears example_cfg held_world 0
           (connected_slot 7 bit5)).
  - cbn. lia.
  - reflexivity.
  - split; reflexivity.
  - discriminate.
Defined.

(** Releasing slot 0 while position 5 is held. *)
Example release_of_position_5 :
  raise_calls (release_events (to_uint8 0) 1000 bit5) =
  [k_msgq_put_position {| ev_source := 0; ev_position := 5;
                          ev_state := false; ev_timestamp := 1000 |};
   k_work_submit peripheral_event_work].
Proof. reflexivity. Qed.

(** ** The slot of a connection *)

Section IndexForConn.
Context (cfg : config).

Lemma index_for_conn_from_eq (w : world) (c : Z) (slot : nat) (n i : nat) :
  slot_of_conn w c slot -> (i <= slot < i + n)%nat ->
  index_for_conn_from c i n w = Some (Z.of_nat slot, w).
Proof.
  intros [[s [Hs Hc]] Hfirst]. revert i.
  induction n as [|n IH]; intros i Hi; [lia|].
  cbn [index_for_conn_from].
  destruct (decide (i = slot)) as [->|Hne].
  - rewrite (bind_eq _ _ _ _ _ (load_slot_eq _ _ _ Hs)).
    rewrite Hc, Z.eqb_refl. reflexivity.
  - assert (Hlt : (i < length (peripherals w))%nat).
    { apply lookup_lt_Some in Hs. lia. }
    destruct (lookup_lt_is_Some_2 _ _ Hlt) as [si Hsi].
    rewrite (bind_eq _ _ _ _ _ (load_slot_eq _ _ _ Hsi)).
    assert (Hci : conn si <> c) by (apply (Hfirst i); [lia|exact Hsi]).
    apply Z.eqb_neq in Hci. rewrite Hci. apply IH. lia.
Qed.

Lemma index_for_conn_eq (w : world) (c : Z) (slot : nat) :
  length (peripherals w) = ZMK_SPLIT_BLE_PERIPHERAL_COUNT cfg ->
  slot_of_conn w c slot ->
  peripheral_slot_index_for_conn cfg c w = Some (Z.of_nat slot, w).
Proof.
  intros Hlen Hslot. apply index_for_conn_from_eq; [exact Hslot|].
  destruct Hslot as [[s [Hs _]] _]. apply lookup_lt_Some in Hs. lia.
Qed.

Lemma index_for_conn_from_none (w : world) (c : Z) (n i : nat) :
  no_slot_of_conn w c -> (i + n <= length (peripherals w))%nat ->
  index_for_conn_from c i n w = Some (- EINVAL, w).
Proof.
  intros Hno. revert i. induction n as [|n IH]; intros i Hi; [reflexivity|].
  cbn [index_for_conn_from].
  assert (Hlt : (i < length (peripherals w))%nat) by lia.
  destruct (lookup_lt_is_Some_2 _ _ Hlt) as [si Hsi].
  rewrite (bind_eq _ _ _ _ _ (load_slot_eq _ _ _ Hsi)).
  assert (Hci : conn si <> c) by (apply (Hno i); exact Hsi).
  apply Z.eqb_neq in Hci. rewrite Hci. apply IH. lia.
Qed.

Lemma slot_for_conn_eq (w : world) (c : Z) (slot : nat) :
  length (peripherals w) = ZMK_SPLIT_BLE_PERIPHERAL_COUNT cfg ->
  slot_of_conn w c slot ->
  peripheral_slot_for_conn cfg c w = Some (Some slot, w).
Proof.
  intros Hlen Hslot. unfold peripheral_slot_for_conn.
  rewrite (bind_eq _ _ _ _ _ (index_for_conn_eq _ _ _ Hlen Hslot)).
  replace (Z.of_nat slot <? 0) with false by (symmetry; apply Z.ltb_ge; lia).
  rewrite Nat2Z.id. reflexivity.
Qed.

(** Rewriting the slot of a connection without changing its connection keeps
    it that connection's slot. *)
Lemma slot_of_conn_insert (w w' : world) (c : Z) (slot : nat)
    (s s' : peripheral_slot) :
  slot_of_conn w c slot ->
  peripherals w !! slot = Some s ->
  conn s' = conn s ->
  peripherals w' = <[slot := s']> (peripherals w) ->
  slot_of_conn w' c slot.
Proof.
  intros [[s0 [Hs0 Hc]] Hfirst] Hs Hconn Hps.
  rewrite Hs in Hs0. injection Hs0 as <-.
  split.
  - exists s'. split; [|congruence].
    rewrite Hps. apply list_lookup_insert_eq. eapply lookup_lt_Some, Hs.
  - intros k sk Hk Hsk. rewrite Hps in Hsk.
    rewrite list_lookup_insert_ne in Hsk by lia. eapply Hfirst; eassumption.
Qed.

End IndexForConn.

(** ** Position notifications *)

(** The first loop of the handler. *)
Lemma diff_positions_eq (data : list Z) (s : peripheral_slot) :
  wf_slot s -> (POSITION_STATE_DATA_LEN <= length data)%nat ->
  fold_update (diff_position data) (seq 0 POSITION_STATE_DATA_LEN) s =
  Some (notified data s).
Proof.
  intros [Hp Hc] Hd. destruct s as [? ? ? ? ? ? ? ? ? ? ? ? ps cs].
  cbn in Hp, Hc. unfold POSITION_STATE_DATA_LEN in Hd.
  list16 ps Hp. list16 cs Hc. take16 data Hd. reflexivity.
Qed.

(** One round of the second loop of the handler, once the first has stored
    snapshot [b] over [a]. *)
Lemma notify_position_eq cfg (w : world) (c : Z) (slot i j : nat)
    (s : peripheral_slot) (a b : list Z) :
  length (peripherals w) = ZMK_SPLIT_BLE_PERIPHERAL_COUNT cfg ->
  slot_of_conn w c slot ->
  peripherals w !! slot = Some s ->
  changed_positions s = diff_bytes b a ->
  position_state s = b ->
  length a = POSITION_STATE_DATA_LEN -> length b = POSITION_STATE_DATA_LEN ->
  (i < 16)%nat -> (j < 8)%nat ->
  notify_position cfg c slot i j w =
  Some (tt, raise_positions cfg w
              (if xorb (byte_bit a i j) (byte_bit b i j) then
                 [{| ev_source := to_uint8 (Z.of_nat slot);
                     ev_position := Z.of_nat (i * 8 + j);
                     ev_state := bitmap_bit b (i * 8 + j);
                     ev_timestamp := k_uptime w |}]
               else [])).
Proof.
  intros Hlen Hslot Hs Hch Hpos Ha Hb Hi Hj. unfold notify_position.
  rewrite (bind_eq _ _ _ _ _ (load_slot_eq _ _ _ Hs)).
  destruct (lookup_lt_is_Some_2 a i) as [p Hp]; [rewrite Ha; exact Hi|].
  destruct (lookup_lt_is_Some_2 b i) as [d Hd]; [rewrite Hb; exact Hi|].
  assert (Hci : changed_positions s !! i = Some (to_uint8 (Z.lxor d p))).
  { rewrite Hch. unfold diff_bytes. rewrite lookup_zip_with, Hd, Hp.
    reflexivity. }
  unfold load_byte. rewrite Hci. cbn [of_option].
  rewrite (bind_eq _ _ w w _ eq_refl).
  rewrite bit_set_uint8_xor by exact Hj.
  rewrite <- byte_bit_bitmap_bit by exact Hj.
  unfold byte_bit. rewrite Hp, Hd, xorb_comm.
  destruct (xorb _ _); [|reflexivity].
  rewrite Hpos, Hd. cbn [of_option].
  rewrite (bind_eq _ _ w w _ eq_refl).
  rewrite (bind_eq _ _ _ _ _ (index_for_conn_eq cfg _ _ _ Hlen Hslot)).
  rewrite (bind_eq _ _ w w (k_uptime w) eq_refl).
  rewrite put_position_event_eq, small_position, bit_set_testbit by assumption.
  reflexivity.
Qed.

Lemma position_events_same (src t : Z) (b : list Z) :
  position_events src t b b = [].
Proof.
  unfold position_events.
  generalize (seq 0 128). intros l.
  induction l as [|p l IH]; [reflexivity|].
  cbn [List.filter]. rewrite xorb_nilpotent. exact IH.
Qed.

(** The whole run of [split_central_notify_func] where sixteen bytes can be
    read at [data]. *)
Lemma notify_run cfg (w : world) (c : Z) (params : subscribe_params_ptr)
    (slot : nat) (s : peripheral_slot) (data : list Z) (len : Z) :
  length (peripherals w) = ZMK_SPLIT_BLE_PERIPHERAL_COUNT cfg ->
  slot_of_conn w c slot ->
  peripherals w !! slot = Some s ->
  wf_slot s ->
  (POSITION_STATE_DATA_LEN <= length data)%nat ->
  split_central_notify_func cfg c params (Some data) len w =
  Some (BT_GATT_ITER_CONTINUE,
        raise_positions cfg
          (set_peripherals (<[slot := notified data s]> (peripherals w)) w)
          (position_events (to_uint8 (Z.of_nat slot)) (k_uptime w)
             (position_state s) (take POSITION_STATE_DATA_LEN data))).
Proof.
  intros Hlen Hslot Hs Hwf Hdata. unfold split_central_notify_func.
  rewrite (bind_eq _ _ _ _ _ (slot_for_conn_eq cfg _ _ _ Hlen Hslot)).
  unfold for_range.
  rewrite (bind_eq _ _ _ _ _
             (for_each_update_slot _ _ _ _ _ _ Hs (diff_positions_eq _ _ Hwf Hdata))).
  set (s1 := notified data s).
  set (w1 := set_peripherals _ w).
  set (b := take POSITION_STATE_DATA_LEN data).
  assert (Hlt : (slot < length (peripherals w))%nat)
    by (eapply lookup_lt_Some; exact Hs).
  assert (Hs1 : peripherals w1 !! slot = Some s1)
    by (apply list_lookup_insert_eq; exact Hlt).
  assert (Hb : length b = POSITION_STATE_DATA_LEN).
  { unfold b. rewrite length_take. lia. }
  assert (Hslot1 : slot_of_conn w1 c slot).
  { apply (slot_of_conn_insert w w1 c slot s s1 Hslot Hs); reflexivity. }
  assert (Hlen1 : length (peripherals w1) = ZMK_SPLIT_BLE_PERIPHERAL_COUNT cfg).
  { unfold w1. rewrite peripherals_set_peripherals, length_insert. exact Hlen. }
  set (evs := position_events _ _ _ _).
  rewrite (bind_eq _ _ w1 (raise_positions cfg w1 evs) tt); [reflexivity|].
  replace evs with
    (flat_map (fun i => flat_map (fun j =>
       if xorb (byte_bit (position_state s) i j) (byte_bit b i j) then
         [{| ev_source := to_uint8 (Z.of_nat slot);
             ev_position := Z.of_nat (i * 8 + j);
             ev_state := bitmap_bit b (i * 8 + j);
             ev_timestamp := k_uptime w |}]
       else []) (seq 0 8)) (seq 0 POSITION_STATE_DATA_LEN))
    by apply (bits_of_bytes
                (fun i j => xorb (byte_bit (position_state s) i j)
                                 (byte_bit b i j))
                (fun p => {| ev_source := to_uint8 (Z.of_nat slot);
                             ev_position := Z.of_nat p;
                             ev_state := bitmap_bit b p;
                             ev_timestamp := k_uptime w |}) 16).
  apply (for_each_raise cfg (peripherals w1) (k_uptime w));
    [|reflexivity|reflexivity].
  intros i w' Hi Hps Ht. apply in_seq in Hi.
  apply (for_each_raise cfg (peripherals w1) (k_uptime w));
    [|assumption|assumption].
  intros j w'' Hj Hps' Ht'. apply in_seq in Hj.
  rewrite (notify_position_eq cfg w'' c slot i j s1 (position_state s) b).
  - rewrite Ht'. reflexivity.
  - rewrite Hps'. exact Hlen1.
  - destruct Hslot1 as [H1 H2]. split; rewrite Hps'; assumption.
  - rewrite Hps'. exact Hs1.
  - reflexivity.
  - reflexivity.
  - apply Hwf.
  - exact Hb.
  - unfold POSITION_STATE_DATA_LEN in Hi. lia.
  - lia.
Qed.

(** The events between two snapshots are exactly the positions whose bit
    differs, each once. *)
Lemma position_events_in (src t : Z) (a b : list Z)
    (ev : zmk_position_state_changed) :
  In ev (position_events src t a b) <->
  exists p, (p < 128)%nat /\ bitmap_bit a p <> bitmap_bit b p /\
            ev = {| ev_source := src; ev_position := Z.of_nat p;
                    ev_state := bitmap_bit b p; ev_timestamp := t |}.
Proof.
  unfold position_events. rewrite in_map_iff. split.
  - intros [p [<- Hp]]. apply filter_In in Hp. destruct Hp as [Hp Hx].
    apply in_seq in Hp. exists p. split; [lia|]. split; [|reflexivity].
    destruct (bitmap_bit a p), (bitmap_bit b p); cbn in Hx; congruence.
  - intros [p [Hp [Hx ->]]]. exists p. split; [reflexivity|].
    apply filter_In. split; [apply in_seq; lia|].
    destruct (bitmap_bit a p), (bitmap_bit b p); cbn; congruence.
Qed.

Lemma position_events_NoDup (src t : Z) (a b : list Z) :
  List.NoDup (map ev_position (position_events src t a b)).
Proof.
  unfold position_events. rewrite map_map. cbn [ev_position].
  apply Finite.Injective_map_NoDup; [intros x y; apply Nat2Z.inj|].
  apply List.NoDup_filter, seq_NoDup.
Qed.

(** C1: a 16-byte snapshot [b] arriving for a slot whose previous snapshot is
    [position_state s] raises one position-changed event for each of the 128
    positions whose bit differs between the two, and none for the others;
    the event carries [pressed] = the bit in [b] and [position] = byte index
    * 8 + bit index; [b] becomes the stored snapshot, and delivering [b] once
    more raises nothing. *)
Theorem notify_raises_exactly_the_changed_positions (cfg : config) (w : world)
    (c : Z) (params : subscribe_params_ptr) (slot : nat) (s : peripheral_slot)
    (b : list Z) :
  wf_world cfg w ->
  slot_of_conn w c slot ->
  peripherals w !! slot = Some s ->
  length b = POSITION_STATE_DATA_LEN ->
  exists w' s' w'',
    split_central_notify_func cfg c params (Some b) 16 w =
      Some (BT_GATT_ITER_CONTINUE, w') /\
    calls w' =
      calls w ++
      raise_calls (position_events (to_uint8 (Z.of_nat slot)) (k_uptime w)
                                   (position_state s) b) /\
    peripherals w' !! slot = Some s' /\
    position_state s' = b /\
    split_central_notify_func cfg c params (Some b) 16 w' =
      Some (BT_GATT_ITER_CONTINUE, w'') /\
    calls w'' = calls w'.
Proof.
  intros [Hlen [Hall _]] Hslot Hs Hb.
  assert (Hwf : wf_slot s) by exact (Forall_lookup_1 _ _ _ _ Hall Hs).
  assert (Htake : take POSITION_STATE_DATA_LEN b = b)
    by (apply take_ge; lia).
  assert (Hlt : (slot < length (peripherals w))%nat)
    by (eapply lookup_lt_Some; exact Hs).
  pose proof (notify_run cfg w c params slot s b 16 Hlen Hslot Hs Hwf
                ltac:(lia)) as Hrun.
  rewrite Htake in Hrun.
  set (w1 := set_peripherals (<[slot := notified b s]> (peripherals w)) w)
    in *.
  set (evs := position_events _ _ (position_state s) b) in *.
  assert (Hs1 : peripherals (raise_positions cfg w1 evs) !! slot =
                Some (notified b s)).
  { rewrite raise_positions_peripherals. apply list_lookup_insert_eq, Hlt. }
  assert (Hwf1 : wf_slot (notified b s)).
  { unfold notified, wf_slot, diff_bytes.
    cbn [position_state changed_positions set_position_state
         set_changed_positions].
    rewrite Htake, length_zip_with. destruct Hwf as [Hp _]. lia. }
  assert (Hpos1 : position_state (notified b s) = b) by exact Htake.
  pose proof (notify_run cfg (raise_positions cfg w1 evs) c params slot
                (notified b s) b 16) as Hrun2.
  rewrite Htake, Hpos1, position_events_same in Hrun2.
  eexists _, (notified b s), _.
  split; [exact Hrun|].
  split; [rewrite raise_positions_calls; reflexivity|].
  split; [exact Hs1|].
  split; [exact Hpos1|].
  split.
  - apply Hrun2.
    + rewrite raise_positions_peripherals. unfold w1.
      rewrite peripherals_set_peripherals, length_insert. exact Hlen.
    + apply (slot_of_conn_insert w _ c slot s (notified b s) Hslot Hs);
        [reflexivity|].
      rewrite raise_positions_peripherals. reflexivity.
    + exact Hs1.
    + exact Hwf1.
    + lia.
  - rewrite (raise_positions_calls cfg []), calls_set_peripherals.
    apply app_nil_r.
Qed.

Lemma idle_world_wf : wf_world example_cfg idle_world.
Proof. repeat split; repeat constructor. Defined.

Lemma idle_world_slot_of_conn : slot_of_conn idle_world 7 0.
Proof.
  split.
  - eexists. split; reflexivity.
  - intros k s Hk. exfalso. lia.
Defined.

Lemma notify_raises_exactly_the_changed_positions_witness :
  exists w' s' w'',
    split_central_notify_func example_cfg 7 (ptr_subscribe_params 0)
      (Some bit0) 16 idle_world = Some (BT_GATT_ITER_CONTINUE, w') /\
    calls w' =
      calls idle_world ++
      raise_calls (position_events (to_uint8 (Z.of_nat 0))
                     (k_uptime idle_world)
                     (position_state (connected_slot 7 (replicate 16 0)))
                     bit0) /\
    peripherals w' !! 0%nat = Some s' /\
    position_state s' = bit0 /\
    split_central_notify_func example_cfg 7 (ptr_subscribe_params 0)
      (Some bit0) 16 w' = Some (BT_GATT_ITER_CONTINUE, w'') /\
    calls w'' = calls w'.
Proof.
  apply (notify_raises_exactly_the_changed_positions example_cfg idle_world 7
           (ptr_subscribe_params 0) 0 (connected_slot 7 (replicate 16 0))
           bit0).
  - exact idle_world_wf.
  - exact idle_world_slot_of_conn.
  - reflexivity.
  - reflexivity.
Defined.

(** Position 0 pressed, then released. *)
Example press_of_position_0 :
  raise_calls (position_events 0 1000 (replicate 16 0) bit0) =
  [k_msgq_put_position {| ev_source := 0; ev_position := 0;
                          ev_state := true; ev_timestamp := 1000 |};
   k_work_submit peripheral_event_work].
Proof. reflexivity. Qed.

Example release_of_position_0 :
  raise_calls (position_events 0 1000 bit0 (replicate 16 0)) =
  [k_msgq_put_position {| ev_source := 0; ev_position := 0;
                          ev_state := false; ev_timestamp := 1000 |};
   k_work_submit peripheral_event_work].
Proof. reflexivity. Qed.

Example notify_press_of_position_0 :
  option_map (fun r => (fst r, calls (snd r), peripheral_event_msgq (snd r)))
    (split_central_notify_func example_cfg 7 (ptr_subscribe_params 0)
       (Some bit0) 16 idle_world) =
  Some (BT_GATT_ITER_CONTINUE,
        [k_msgq_put_position {| ev_source := 0; ev_position := 0;
                                ev_state := true; ev_timestamp := 1000 |};
         k_work_submit peripheral_event_work],
        [{| ev_source := 0; ev_position := 0;
            ev_state := true; ev_timestamp := 1000 |}]).
Proof. vm_compute. reflexivity. Qed.

(** A notification for a connection without a slot is logged as an error and
    changes nothing else. *)
Lemma notify_without_slot (cfg : config) (w : world) (c : Z)
    (params : subscribe_params_ptr) (data : option (list Z)) (len : Z) :
  length (peripherals w) = ZMK_SPLIT_BLE_PERIPHERAL_COUNT cfg ->
  no_slot_of_conn w c ->
  split_central_notify_func cfg c params data len w =
  Some (BT_GATT_ITER_CONTINUE, set_logged (logged w ++ [LOG_LEVEL_ERR]) w).
Proof.
  intros Hlen Hno.
  assert (Hslot : peripheral_slot_for_conn cfg c w = Some (None, w)).
  { unfold peripheral_slot_for_conn, peripheral_slot_index_for_conn.
    rewrite (bind_eq _ _ _ _ _
               (index_for_conn_from_none w c
                  (ZMK_SPLIT_BLE_PERIPHERAL_COUNT cfg) 0 Hno ltac:(lia))).
    reflexivity. }
  unfold split_central_notify_func.
  rewrite (bind_eq _ _ _ _ _ Hslot). reflexivity.
Qed.

(** ** Short position notifications *)

(** The position handler does not look at [length]. *)
Lemma notify_ignores_length (cfg : config) (c : Z)
    (params : subscribe_params_ptr) (data : option (list Z)) (len len' : Z)
    (w : world) :
  split_central_notify_func cfg c params data len w =
  split_central_notify_func cfg c params data len' w.
Proof. reflexivity. Qed.

(** C8: a notification whose payload is the single byte [0x01], for a slot
    with nothing held.  The handler reads sixteen bytes at [data] whatever
    [length] says, so the payload is decoded together with the fifteen bytes
    [rest] that follow it in the receive buffer, whatever they are: position
    0 is raised as pressed and the stored bitmap is overwritten. *)
Theorem short_position_notification_is_decoded (rest : list Z) (len : Z) :
  length rest = 15%nat ->
  exists w' s',
    split_central_notify_func example_cfg 7 (ptr_subscribe_params 0)
      (Some (1 :: rest)) len idle_world = Some (BT_GATT_ITER_CONTINUE, w') /\
    In (k_msgq_put_position {| ev_source := 0; ev_position := 0;
                               ev_state := true; ev_timestamp := 1000 |})
       (calls w') /\
    peripherals w' !! 0%nat = Some s' /\
    position_state s' = 1 :: rest.
Proof.
  intros Hrest.
  assert (Htake : take POSITION_STATE_DATA_LEN (1 :: rest) = 1 :: rest)
    by (apply take_ge; cbn [length]; rewrite Hrest; reflexivity).
  pose proof (notify_run example_cfg idle_world 7 (ptr_subscribe_params 0) 0
                (connected_slot 7 (replicate 16 0)) (1 :: rest) len eq_refl
                idle_world_slot_of_conn eq_refl (conj eq_refl eq_refl)) as Hrun.
  rewrite Htake in Hrun.
  eexists _, _.
  split; [apply Hrun; cbn [length]; rewrite Hrest;
          unfold POSITION_STATE_DATA_LEN; lia|].
  split; [|split].
  - rewrite raise_positions_calls, calls_set_peripherals.
    apply in_or_app. right. unfold raise_calls. apply in_flat_map.
    eexists. split; [|left; reflexivity].
    apply position_events_in. exists 0%nat.
    split; [lia|]. split; [discriminate|reflexivity].
  - rewrite raise_positions_peripherals. reflexivity.
  - exact Htake.
Qed.

Lemma short_position_notification_is_decoded_witness :
  exists w' s',
    split_central_notify_func example_cfg 7 (ptr_subscribe_params 0)
      (Some (1 :: replicate 15 0)) 1 idle_world =
      Some (BT_GATT_ITER_CONTINUE, w') /\
    In (k_msgq_put_position {| ev_source := 0; ev_position := 0;
                               ev_state := true; ev_timestamp := 1000 |})
       (calls w') /\
    peripherals w' !! 0%nat = Some s' /\
    position_state s' = 1 :: replicate 15 0.
Proof.
  apply (short_position_notification_is_decoded (replicate 15 0) 1).
  reflexivity.
Defined.

(** The same handler at lengths 1 and 0 in front of zero bytes, and where only
    the payload byte can be read. *)
Example short_position_notifications :
  option_map (fun r => (fst r, calls (snd r),
                        position_state <$> peripherals (snd r) !! 0%nat))
    (split_central_notify_func example_cfg 7 (ptr_subscribe_params 0)
       (Some bit0) 1 idle_world) =
  Some (BT_GATT_ITER_CONTINUE,
        [k_msgq_put_position {| ev_source := 0; ev_position := 0;
                                ev_state := true; ev_timestamp := 1000 |};
         k_work_submit peripheral_event_work],
        Some bit0) /\
  split_central_notify_func example_cfg 7 (ptr_subscribe_params 0)
    (Some bit0) 0 idle_world =
  split_central_notify_func example_cfg 7 (ptr_subscribe_params 0)
    (Some bit0) 1 idle_world /\
  split_central_notify_func example_cfg 7 (ptr_subscribe_params 0)
    (Some [1]) 1 idle_world = None.
Proof. split; [|split]; vm_compute; reflexivity. Qed.

(** ** The battery level query *)

(** C10: the query answers [-EINVAL] for a source at or past the table size
    without touching the table, [-ENOTCONN] for a slot that is not
    Connected, and otherwise 0 with the stored level of that source; on a
    table of the declared size no access leaves an array. *)
Theorem battery_level_query (cfg : config) (w : world) (source : Z) :
  wf_world cfg w ->
  0 <= source < 256 ->
  (forall w0 : world,
     Z.of_nat (ZMK_SPLIT_BLE_PERIPHERAL_COUNT cfg) <= source ->
     zmk_split_get_peripheral_battery_level cfg source w0 =
     Some ((- EINVAL, None), w0)) /\
  (source < Z.of_nat (ZMK_SPLIT_BLE_PERIPHERAL_COUNT cfg) ->
   exists s l,
     peripherals w !! Z.to_nat source = Some s /\
     peripheral_battery_levels w !! Z.to_nat source = Some l /\
     zmk_split_get_peripheral_battery_level cfg source w =
     Some (if bool_decide (state s = PERIPHERAL_SLOT_STATE_CONNECTED)
           then (0, Some l) else (- ENOTCONN, None), w)).
Proof.
  intros [Hlen [_ Hlev]] Hsrc. split.
  - intros w0 Hge. unfold zmk_split_get_peripheral_battery_level.
    replace (source >=? _) with true by (symmetry; apply Z.geb_le; lia).
    reflexivity.
  - intros Hlt.
    assert (Hn : (Z.to_nat source < ZMK_SPLIT_BLE_PERIPHERAL_COUNT cfg)%nat)
      by lia.
    destruct (lookup_lt_is_Some_2 (peripherals w) (Z.to_nat source))
      as [s Hs]; [lia|].
    destruct (lookup_lt_is_Some_2 (peripheral_battery_levels w)
                (Z.to_nat source)) as [l Hl]; [lia|].
    exists s, l. split; [exact Hs|]. split; [exact Hl|].
    unfold zmk_split_get_peripheral_battery_level.
    replace (source >=? _) with false
      by (symmetry; rewrite Z.geb_leb; apply Z.leb_gt; lia).
    rewrite (bind_eq _ _ _ _ _ (load_slot_eq _ _ _ Hs)).
    destruct (bool_decide _); cbn [negb]; [|reflexivity].
    rewrite (bind_eq _ _ w w _ eq_refl).
    unfold load_byte. rewrite Hl. reflexivity.
Qed.

Lemma battery_level_query_witness :
  (forall w0 : world,
     Z.of_nat (ZMK_SPLIT_BLE_PERIPHERAL_COUNT example_cfg) <= 0 ->
     zmk_split_get_peripheral_battery_level example_cfg 0 w0 =
     Some ((- EINVAL, None), w0)) /\
  (0 < Z.of_nat (ZMK_SPLIT_BLE_PERIPHERAL_COUNT example_cfg) ->
   exists s l,
     peripherals idle_world !! Z.to_nat 0 = Some s /\
     peripheral_battery_levels idle_world !! Z.to_nat 0 = Some l /\
     zmk_split_get_peripheral_battery_level example_cfg 0 idle_world =
     Some (if bool_decide (state s = PERIPHERAL_SLOT_STATE_CONNECTED)
           then (0, Some l) else (- ENOTCONN, None), idle_world)).
Proof.
  apply (battery_level_query example_cfg idle_world 0).
  - exact idle_world_wf.
  - lia.
Defined.

Example battery_level_queries :
  fst <$> zmk_split_get_peripheral_battery_level example_cfg 0 idle_world =
    Some (0, Some 0) /\
  fst <$> zmk_split_get_peripheral_battery_level example_cfg 1 idle_world =
    Some (- ENOTCONN, None) /\
  fst <$> zmk_split_get_peripheral_battery_level example_cfg 2 idle_world =
    Some (- EINVAL, None) /\
  fst <$> zmk_split_get_peripheral_battery_level example_cfg 255 idle_world =
    Some (- EINVAL, None).
Proof. vm_compute. repeat split. Qed.

(** ** Reserving a slot *)

Lemma release_open_slot (cfg : config) (w : world) (index : Z)
    (s : peripheral_slot) :
  peripherals w !! Z.to_nat index = Some s ->
  state s = PERIPHERAL_SLOT_STATE_OPEN ->
  release_peripheral_slot cfg index w = Some (- EINVAL, w).
Proof.
  intros Hs Hst. unfold release_peripheral_slot.
  destruct (_ || _); [reflexivity|].
  rewrite (bind_eq _ _ _ _ _ (load_slot_eq _ _ _ Hs)).
  rewrite bool_decide_eq_true_2 by exact Hst. reflexivity.
Qed.

(** C3, as the code has it: [reserve_peripheral_slot] asks the identity
    store for the index and takes the slot only if it is Open, setting it to
    Connecting and returning the index; its call of [release_peripheral_slot]
    on that Open slot changes nothing.  When the store has no binding, and
    when the slot it names is not Open, the result is [-ENOMEM] and the table
    is untouched: no release is made.  Releasing an Open slot returns
    [-EINVAL] and changes nothing. *)
Theorem reserve_takes_open_slots_only (cfg : config) (bt : bt_host)
    (w : world) (addr : Z) :
  let i := zmk_ble_put_peripheral_addr_ret bt addr in
  let w1 := set_calls (calls w ++ [zmk_ble_put_peripheral_addr addr]) w in
  (i < 0 -> reserve_peripheral_slot cfg bt addr w = Some (- ENOMEM, w1)) /\
  (forall s, 0 <= i -> peripherals w !! Z.to_nat i = Some s ->
     state s <> PERIPHERAL_SLOT_STATE_OPEN ->
     reserve_peripheral_slot cfg bt addr w = Some (- ENOMEM, w1)) /\
  (forall s, 0 <= i -> peripherals w !! Z.to_nat i = Some s ->
     state s = PERIPHERAL_SLOT_STATE_OPEN ->
     reserve_peripheral_slot cfg bt addr w =
     Some (i, set_peripherals
                (<[Z.to_nat i := set_state PERIPHERAL_SLOT_STATE_CONNECTING s]>
                   (peripherals w)) w1)) /\
  (forall index s, peripherals w !! Z.to_nat index = Some s ->
     state s = PERIPHERAL_SLOT_STATE_OPEN ->
     release_peripheral_slot cfg index w = Some (- EINVAL, w)).
Proof.
  intros i w1. unfold reserve_peripheral_slot. fold i.
  rewrite (bind_eq (extern (zmk_ble_put_peripheral_addr addr)) _ w w1 tt
             eq_refl).
  split; [|split; [|split]].
  - intros Hi. replace (i >=? 0) with false
      by (symmetry; rewrite Z.geb_leb; apply Z.leb_gt; lia).
    reflexivity.
  - intros s Hi Hs Hst.
    replace (i >=? 0) with true by (symmetry; apply Z.geb_le; lia).
    rewrite (bind_eq _ _ w1 w1 s) by (apply load_slot_eq; exact Hs).
    rewrite bool_decide_eq_false_2 by exact Hst. reflexivity.
  - intros s Hi Hs Hst.
    replace (i >=? 0) with true by (symmetry; apply Z.geb_le; lia).
    rewrite (bind_eq _ _ w1 w1 s) by (apply load_slot_eq; exact Hs).
    rewrite bool_decide_eq_true_2 by exact Hst.
    rewrite (bind_eq _ _ w1 w1 (- EINVAL))
      by (apply (release_open_slot cfg w1 i s); assumption).
    rewrite (bind_eq _ _ _ _ _ (assign_slot_eq _ _ s w1 Hs)).
    reflexivity.
  - intros index s. apply release_open_slot.
Qed.

(** The store binds the address to slot 0, which is Connected with position
    5 held: the reservation is refused, and the slot is neither released nor
    taken. *)
Lemma reserve_of_a_busy_slot_is_refused :
  zmk_ble_put_peripheral_addr_ret (example_host 2 0) 99 = 0 /\
  state <$> peripherals held_world !! 0%nat =
    Some PERIPHERAL_SLOT_STATE_CONNECTED /\
  reserve_peripheral_slot example_cfg (example_host 2 0) 99 held_world =
    Some (- ENOMEM, set_calls [zmk_ble_put_peripheral_addr 99] held_world) /\
  ~ (exists w' s',
       reserve_peripheral_slot example_cfg (example_host 2 0) 99 held_world =
         Some (0, w') /\
       peripherals w' !! 0%nat = Some s' /\
       state s' = PERIPHERAL_SLOT_STATE_CONNECTING).
Proof.
  split; [reflexivity|]. split; [reflexivity|].
  assert (H : reserve_peripheral_slot example_cfg (example_host 2 0) 99
                held_world =
              Some (- ENOMEM,
                    set_calls [zmk_ble_put_peripheral_addr 99] held_world))
    by (vm_compute; reflexivity).
  split; [exact H|].
  intros [w' [s' [Hr _]]]. rewrite H in Hr. discriminate Hr.
Qed.

Lemma reserve_takes_open_slots_only_witness :
  reserve_peripheral_slot example_cfg (example_host 2 (-1)) 99 held_world =
    Some (- ENOMEM, set_calls [zmk_ble_put_peripheral_addr 99] held_world) /\
  reserve_peripheral_slot example_cfg (example_host 2 0) 99 held_world =
    Some (- ENOMEM, set_calls [zmk_ble_put_peripheral_addr 99] held_world) /\
  reserve_peripheral_slot example_cfg (example_host 2 1) 99 held_world =
    Some (1, set_peripherals
               [connected_slot 7 bit5;
                set_state PERIPHERAL_SLOT_STATE_CONNECTING open_slot]
               (set_calls [zmk_ble_put_peripheral_addr 99] held_world)) /\
  release_peripheral_slot example_cfg 1 held_world = Some (- EINVAL, held_world).
Proof.
  split; [|split; [|split]].
  - apply (reserve_takes_open_slots_only example_cfg (example_host 2 (-1))
             held_world 99). cbn. lia.
  - apply (proj1 (proj2 (reserve_takes_open_slots_only example_cfg
             (example_host 2 0) held_world 99)) (connected_slot 7 bit5)).
    + cbn. lia.
    + reflexivity.
    + discriminate.
  - apply (proj1 (proj2 (proj2 (reserve_takes_open_slots_only example_cfg
             (example_host 2 1) held_world 99))) open_slot).
    + cbn. lia.
    + reflexivity.
    + reflexivity.
  - apply (proj2 (proj2 (proj2 (reserve_takes_open_slots_only example_cfg
             (example_host 2 1) held_world 99))) 1 open_slot); reflexivity.
Defined.

(** ** The broadcast writes *)

Lemma logged_calls_nil (w : world) : logged_calls [] [] w = w.
Proof. destruct w. unfold logged_calls. cbn. rewrite !app_nil_r. reflexivity. Qed.

Lemma logged_calls_app (c1 c2 : list call) (l1 l2 : list log_level)
    (w : world) :
  logged_calls c2 l2 (logged_calls c1 l1 w) =
  logged_calls (c1 ++ c2) (l1 ++ l2) w.
Proof. unfold logged_calls. cbn. rewrite !app_assoc. reflexivity. Qed.

Lemma peripherals_logged_calls (cs : list call) (ls : list log_level)
    (w : world) :
  peripherals (logged_calls cs ls w) = peripherals w.
Proof. reflexivity. Qed.

Lemma calls_logged_calls (cs : list call) (ls : list log_level) (w : world) :
  calls (logged_calls cs ls w) = calls w ++ cs.
Proof. reflexivity. Qed.

(** A loop over the table whose every round only calls out and logs,
    depending on the slot it visits. *)
Lemma for_each_slot_calls (body : nat -> M unit)
    (cs : peripheral_slot -> list call) (ls : peripheral_slot -> list log_level)
    (table pre ps : list peripheral_slot) (w : world) :
  (forall i s w', peripherals w' = table -> table !! i = Some s ->
     body i w' = Some (tt, logged_calls (cs s) (ls s) w')) ->
  table = pre ++ ps ->
  peripherals w = table ->
  for_each (seq (length pre) (length ps)) body w =
  Some (tt, logged_calls (flat_map cs ps) (flat_map ls ps) w).
Proof.
  intros Hbody. revert pre w.
  induction ps as [|s ps IH]; intros pre w Htable Hw.
  - cbn. rewrite logged_calls_nil. reflexivity.
  - cbn [length seq for_each flat_map].
    assert (Hs : table !! length pre = Some s)
      by (rewrite Htable; apply list_lookup_middle; reflexivity).
    rewrite (bind_eq _ _ _ _ _ (Hbody _ _ _ Hw Hs)).
    replace (S (length pre)) with (length (pre ++ [s]))
      by (rewrite length_app; cbn; lia).
    rewrite (IH (pre ++ [s])).
    + rewrite logged_calls_app. reflexivity.
    + rewrite Htable, <- app_assoc. reflexivity.
    + rewrite peripherals_logged_calls. exact Hw.
Qed.

Lemma update_peripheral_selected_layout_eq (bt : bt_host) (slot : nat)
    (layout_idx : Z) (s : peripheral_slot) (w : world) :
  peripherals w !! slot = Some s ->
  exists r,
    update_peripheral_selected_layout bt slot layout_idx w =
    Some (r, logged_calls (layout_write bt layout_idx s)
               (layout_write_log bt s) w).
Proof.
  intros Hs. unfold update_peripheral_selected_layout, layout_write,
    layout_write_log.
  rewrite (bind_eq _ _ _ _ _ (load_slot_eq _ _ _ Hs)).
  destruct (bool_decide _); cbn [negb andb];
    [|eexists; rewrite logged_calls_nil; reflexivity].
  destruct (_ =? 0); cbn [negb andb];
    [eexists; rewrite logged_calls_nil; reflexivity|].
  destruct (_ <? BT_SECURITY_L2); cbn [negb andb];
    [eexists; rewrite logged_calls_nil; reflexivity|].
  unfold gatt_write_without_response, bind, extern, modify, ret, log.
  destruct (_ <? 0); eexists; [reflexivity|].
  unfold logged_calls. cbn. rewrite app_nil_r. destruct w; reflexivity.
Qed.

Lemma layout_write_security (bt : bt_host) (layout_idx : Z)
    (ps : list peripheral_slot) (c h : Z) (v : gatt_value) :
  In (bt_gatt_write_without_response c h v)
     (flat_map (layout_write bt layout_idx) ps) ->
  BT_SECURITY_L2 <= bt_conn_get_security bt c.
Proof.
  rewrite in_flat_map. intros [s [_ Hin]]. unfold layout_write in Hin.
  destruct (bool_decide _); cbn [andb] in Hin; [|destruct Hin].
  destruct (_ =? 0); cbn [negb andb] in Hin; [destruct Hin|].
  destruct (Z.ltb_spec (bt_conn_get_security bt (conn s)) BT_SECURITY_L2)
    as [Hlt|Hge]; cbn [negb] in Hin; [destruct Hin|].
  destruct Hin as [Heq|[]]. injection Heq as <- _ _. exact Hge.
Qed.

(** C6, as the code has it.  A layout-selection write to a Connected slot
    whose link is below [BT_SECURITY_L2] returns [-EAGAIN] and changes
    nothing; the layout broadcast writes exactly to the slots that are
    Connected, have the layout handle resolved and a link at
    [BT_SECURITY_L2] or above, so none of its writes goes over a link below
    that level.  The indicators broadcast has no such check: it writes to
    every Connected slot whose indicators handle is resolved. *)
Theorem layout_writes_wait_for_security (cfg : config) (bt : bt_host)
    (w : world) :
  length (peripherals w) = ZMK_SPLIT_BLE_PERIPHERAL_COUNT cfg ->
  (forall slot s layout_idx,
     peripherals w !! slot = Some s ->
     state s = PERIPHERAL_SLOT_STATE_CONNECTED ->
     bt_conn_get_security bt (conn s) < BT_SECURITY_L2 ->
     update_peripheral_selected_layout bt slot layout_idx w =
     Some (- EAGAIN, w)) /\
  (exists w',
     update_peripherals_selected_physical_layout cfg bt w = Some (tt, w') /\
     peripherals w' = peripherals w /\
     calls w' =
       calls w ++
       flat_map (layout_write bt
                   (to_uint8 (zmk_physical_layouts_get_selected bt)))
                (peripherals w) /\
     forall c h v,
       In (bt_gatt_write_without_response c h v)
          (flat_map (layout_write bt
                       (to_uint8 (zmk_physical_layouts_get_selected bt)))
                    (peripherals w)) ->
       BT_SECURITY_L2 <= bt_conn_get_security bt c) /\
  (exists w',
     split_central_update_indicators_callback cfg bt w = Some (tt, w') /\
     peripherals w' = peripherals w /\
     calls w' =
       calls w ++
       flat_map (indicators_write (hid_indicators w)) (peripherals w)).
Proof.
  intros Hlen. split; [|split].
  - intros slot s layout_idx Hs Hst Hsec.
    unfold update_peripheral_selected_layout.
    rewrite (bind_eq _ _ _ _ _ (load_slot_eq _ _ _ Hs)).
    rewrite bool_decide_eq_true_2 by exact Hst. cbn [negb].
    destruct (_ =? 0); [reflexivity|].
    apply Z.ltb_lt in Hsec. rewrite Hsec. reflexivity.
  - eexists. split; [|split; [|split]].
    + unfold update_peripherals_selected_physical_layout, for_range.
      rewrite <- Hlen.
      apply (for_each_slot_calls _
               (layout_write bt
                  (to_uint8 (zmk_physical_layouts_get_selected bt)))
               (layout_write_log bt) (peripherals w) [] (peripherals w) w);
        [|reflexivity|reflexivity].
      intros i s w' Hw' Hs. rewrite <- Hw' in Hs.
      rewrite (bind_eq _ _ _ _ _ (load_slot_eq _ _ _ Hs)).
      destruct (bool_decide (state s = PERIPHERAL_SLOT_STATE_CONNECTED))
        eqn:Hst; cbn [negb].
      * destruct (update_peripheral_selected_layout_eq bt i
                    (to_uint8 (zmk_physical_layouts_get_selected bt)) s w' Hs)
          as [r Hr].
        rewrite (bind_eq _ _ _ _ _ Hr). reflexivity.
      * unfold layout_write, layout_write_log. rewrite Hst.
        cbn [andb]. rewrite logged_calls_nil. reflexivity.
    + reflexivity.
    + reflexivity.
    + apply layout_write_security.
  - eexists. split; [|split].
    + unfold split_central_update_indicators_callback, for_range.
      rewrite (bind_eq _ _ w w (hid_indicators w) eq_refl).
      rewrite <- Hlen.
      apply (for_each_slot_calls _ (indicators_write (hid_indicators w))
               (indicators_write_log bt) (peripherals w) [] (peripherals w) w);
        [|reflexivity|reflexivity].
      intros i s w' Hw' Hs. rewrite <- Hw' in Hs.
      rewrite (bind_eq _ _ _ _ _ (load_slot_eq _ _ _ Hs)).
      unfold indicators_write, indicators_write_log.
      destruct (bool_decide _); cbn [negb andb];
        [|rewrite logged_calls_nil; reflexivity].
      destruct (update_hid_indicators s =? 0); cbn [negb andb];
        [rewrite logged_calls_nil; reflexivity|].
      unfold gatt_write_without_response, bind, extern, modify, ret, log.
      destruct (_ =? 0); cbn [negb]; [|reflexivity].
      unfold logged_calls. cbn. rewrite app_nil_r. destruct w'; reflexivity.
    + reflexivity.
    + reflexivity.
Qed.

(** A Connected slot with the indicators handle resolved, on a link at
    security level 1: the indicators broadcast writes to it. *)
Lemma indicators_are_written_below_the_security_level :
  state <$> peripherals idle_world !! 0%nat =
    Some PERIPHERAL_SLOT_STATE_CONNECTED /\
  bt_conn_get_security (example_host 1 0) 7 < BT_SECURITY_L2 /\
  (fun r => calls (snd r)) <$>
    split_central_update_indicators_callback example_cfg (example_host 1 0)
      idle_world =
  Some [bt_gatt_write_without_response 7 30 (indicators_value 2)].
Proof. split; [reflexivity|]. split; [reflexivity|]. vm_compute. reflexivity. Qed.

Lemma layout_writes_wait_for_security_witness :
  update_peripheral_selected_layout (example_host 1 0) 0 1 idle_world =
    Some (- EAGAIN, idle_world) /\
  (exists w',
     update_peripherals_selected_physical_layout example_cfg
       (example_host 1 0) idle_world = Some (tt, w') /\
     calls w' = []) /\
  (exists w',
     split_central_update_indicators_callback example_cfg (example_host 1 0)
       idle_world = Some (tt, w') /\
     calls w' = [bt_gatt_write_without_response 7 30 (indicators_value 2)]).
Proof.
  destruct (layout_writes_wait_for_security example_cfg (example_host 1 0)
              idle_world eq_refl) as [Hone [Hlayout Hind]].
  split; [|split].
  - apply (Hone 0%nat (connected_slot 7 (replicate 16 0)) 1).
    + reflexivity.
    + reflexivity.
    + reflexivity.
  - destruct Hlayout as [w' [Hrun [_ [Hcalls _]]]].
    exists w'. split; [exact Hrun|]. rewrite Hcalls. reflexivity.
  - destruct Hind as [w' [Hrun [_ Hcalls]]].
    exists w'. split; [exact Hrun|]. rewrite Hcalls. reflexivity.
Defined.

(** At [BT_SECURITY_L2] the layout broadcast does write. *)
Example layout_is_written_at_level_2 :
  (fun r => calls (snd r)) <$>
    update_peripherals_selected_physical_layout example_cfg (example_host 2 0)
      idle_world =
  Some [bt_gatt_write_without_response 7 27 (layout_idx_value 1)].
Proof. vm_compute. reflexivity. Qed.

(** ** Invoking a behavior on a full queue *)

Lemma put_split_run_full (cfg : config)
    (pw : zmk_split_run_behavior_payload_wrapper) (w : world)
    (q : list zmk_split_run_behavior_payload_wrapper) :
  zmk_split_central_split_run_msgq w = q ->
  (CONFIG_ZMK_SPLIT_BLE_CENTRAL_SPLIT_RUN_QUEUE_SIZE cfg <= length q)%nat ->
  put_split_run cfg pw w =
  Some (- EAGAIN, set_calls (calls w ++ [k_msgq_put_split_run pw]) w).
Proof.
  intros Hq Hfull.
  unfold put_split_run, bind, extern, gets, modify, ret, msgq_put.
  cbn [zmk_split_central_split_run_msgq set_calls]. rewrite Hq.
  destruct (decide _) as [Hlt|_]; [lia|].
  destruct w; cbn in *; subst; reflexivity.
Qed.

Lemma put_split_run_room (cfg : config)
    (pw : zmk_split_run_behavior_payload_wrapper) (w : world)
    (q : list zmk_split_run_behavior_payload_wrapper) :
  zmk_split_central_split_run_msgq w = q ->
  (length q < CONFIG_ZMK_SPLIT_BLE_CENTRAL_SPLIT_RUN_QUEUE_SIZE cfg)%nat ->
  put_split_run cfg pw w =
  Some (0, set_zmk_split_central_split_run_msgq (q ++ [pw])
             (set_calls (calls w ++ [k_msgq_put_split_run pw]) w)).
Proof.
  intros Hq Hroom.
  unfold put_split_run, bind, extern, gets, modify, ret, msgq_put.
  cbn [zmk_split_central_split_run_msgq set_calls]. rewrite Hq.
  destruct (decide _) as [_|Hge]; [reflexivity|lia].
Qed.

Lemma get_split_run_eq (w : world)
    (x : zmk_split_run_behavior_payload_wrapper)
    (q : list zmk_split_run_behavior_payload_wrapper) :
  zmk_split_central_split_run_msgq w = x :: q ->
  get_split_run w =
  Some (Some x, set_zmk_split_central_split_run_msgq q
                  (set_calls (calls w ++ [k_msgq_get_split_run]) w)).
Proof.
  intros Hq. unfold get_split_run, bind, extern, gets, modify, ret.
  cbn [zmk_split_central_split_run_msgq set_calls]. rewrite Hq. reflexivity.
Qed.

(** C7: when the outbound queue is full (and holds at least one command),
    [split_bt_invoke_behavior_payload] fails its first [k_msgq_put], logs a
    warning, takes the oldest command off the queue, calls itself once, and
    in that call enqueues the new command and submits the worker once; it
    returns 0.  Two levels of the recursion are all it uses, so any larger
    budget gives the same result. *)
Theorem invoke_on_a_full_queue (cfg : config) (w : world) (fuel : nat)
    (payload_wrapper oldest : zmk_split_run_behavior_payload_wrapper)
    (pending : list zmk_split_run_behavior_payload_wrapper) :
  zmk_split_central_split_run_msgq w = oldest :: pending ->
  length (oldest :: pending) =
    CONFIG_ZMK_SPLIT_BLE_CENTRAL_SPLIT_RUN_QUEUE_SIZE cfg ->
  (2 <= fuel)%nat ->
  exists w',
    split_bt_invoke_behavior_payload cfg fuel payload_wrapper w =
      Some (0, w') /\
    zmk_split_central_split_run_msgq w' = pending ++ [payload_wrapper] /\
    calls w' =
      calls w ++
      [k_msgq_put_split_run payload_wrapper;
       k_msgq_get_split_run;
       k_msgq_put_split_run payload_wrapper;
       k_work_submit_to_queue split_central_split_run_work] /\
    logged w' = logged w ++ [LOG_LEVEL_WRN] /\
    peripherals w' = peripherals w.
Proof.
  intros Hq Hfull Hfuel.
  destruct fuel as [|[|fuel]]; [lia|lia|].
  cbn [length] in Hfull.
  cbn [split_bt_invoke_behavior_payload].
  erewrite bind_eq
    by (apply (put_split_run_full cfg _ _ (oldest :: pending) Hq);
        cbn [length]; lia).
  change (- EAGAIN =? 0) with false.
  change (- EAGAIN =? - EAGAIN) with true. cbn [negb].
  rewrite (bind_eq (log LOG_LEVEL_WRN) _ _ _ tt eq_refl).
  erewrite bind_eq by (apply (get_split_run_eq _ oldest pending); exact Hq).
  erewrite bind_eq
    by (apply (put_split_run_room cfg _ _ pending); [reflexivity|cbn; lia]).
  change (0 =? 0) with true. cbn [negb].
  eexists. split; [reflexivity|].
  cbn [zmk_split_central_split_run_msgq calls logged peripherals set_calls
       set_zmk_split_central_split_run_msgq set_logged].
  rewrite <- !app_assoc. repeat split.
Qed.

Lemma invoke_on_a_full_queue_witness :
  exists w',
    split_bt_invoke_behavior_payload example_cfg 2
      {| wrapper_source := 0; payload := [3] |}
      (set_zmk_split_central_split_run_msgq
         [{| wrapper_source := 0; payload := [1] |};
          {| wrapper_source := 0; payload := [2] |}] idle_world) =
      Some (0, w') /\
    zmk_split_central_split_run_msgq w' =
      [{| wrapper_source := 0; payload := [2] |}] ++
      [{| wrapper_source := 0; payload := [3] |}] /\
    calls w' =
      [] ++
      [k_msgq_put_split_run {| wrapper_source := 0; payload := [3] |};
       k_msgq_get_split_run;
       k_msgq_put_split_run {| wrapper_source := 0; payload := [3] |};
       k_work_submit_to_queue split_central_split_run_work] /\
    logged w' = [] ++ [LOG_LEVEL_WRN] /\
    peripherals w' = peripherals idle_world.
Proof.
  apply (invoke_on_a_full_queue example_cfg
           (set_zmk_split_central_split_run_msgq
              [{| wrapper_source := 0; payload := [1] |};
               {| wrapper_source := 0; payload := [2] |}] idle_world)
           2 {| wrapper_source := 0; payload := [3] |}
           {| wrapper_source := 0; payload := [1] |}
           [{| wrapper_source := 0; payload := [2] |}]).
  - reflexivity.
  - reflexivity.
  - lia.
Defined.

(** A queue of capacity zero is always full and never holds a command to
    discard: on it the recursion exhausts any budget. *)
Lemma invoke_without_capacity (cfg : config) (fuel : nat)
    (payload_wrapper : zmk_split_run_behavior_payload_wrapper) (w : world) :
  CONFIG_ZMK_SPLIT_BLE_CENTRAL_SPLIT_RUN_QUEUE_SIZE cfg = 0%nat ->
  split_bt_invoke_behavior_payload cfg fuel payload_wrapper w = None.
Proof.
  intros Hcap. revert w. induction fuel as [|fuel IH]; intros w; [reflexivity|].
  cbn [split_bt_invoke_behavior_payload].
  erewrite bind_eq
    by (apply (put_split_run_full cfg _ _ _ eq_refl); rewrite Hcap; lia).
  change (- EAGAIN =? 0) with false.
  change (- EAGAIN =? - EAGAIN) with true. cbn [negb].
  rewrite (bind_eq (log LOG_LEVEL_WRN) _ _ _ tt eq_refl).
  unfold bind at 1. destruct (get_split_run _) as [[x w']|]; [apply IH|].
  reflexivity.
Qed.

(** One level of the recursion is not enough on a full queue. *)
Example invoke_on_a_full_queue_needs_the_retry :
  split_bt_invoke_behavior_payload example_cfg 1
    {| wrapper_source := 0; payload := [3] |}
    (set_zmk_split_central_split_run_msgq
       [{| wrapper_source := 0; payload := [1] |};
        {| wrapper_source := 0; payload := [2] |}] idle_world) = None.
Proof. vm_compute. reflexivity. Qed.

(** ** Sensor notifications *)

(** A payload shorter than the header is dropped with a warning. *)
Lemma sensor_notify_short (cfg : config) (frame : nat -> Z)
    (params : subscribe_params_ptr) (data : list Z) (len : Z) (w : world) :
  len < Z.of_nat sensor_event_channel_data_offset ->
  split_central_sensor_notify_func cfg frame params (Some data) len w =
  Some (BT_GATT_ITER_STOP, set_logged (logged w ++ [LOG_LEVEL_WRN]) w).
Proof.
  intros Hlen. unfold split_central_sensor_notify_func.
  apply Z.ltb_lt in Hlen. rewrite Hlen. reflexivity.
Qed.

(** An accepted payload raises one sensor event.  Its channel count is the
    reported one cut down to the maximum, but the number of bytes copied
    into its channel data is the size of a channel times the reported
    count. *)
Lemma sensor_notify_accepted (cfg : config) (frame : nat -> Z)
    (params : subscribe_params_ptr) (data : list Z) (len : Z) (w : world)
    (index count : Z) :
  Z.of_nat sensor_event_channel_data_offset <= len ->
  (Z.to_nat (Z.min len (Z.of_nat (sizeof_sensor_event cfg))) <= length data)%nat ->
  data !! 0%nat = Some index ->
  data !! 1%nat = Some count ->
  exists ev w',
    split_central_sensor_notify_func cfg frame params (Some data) len w =
      Some (BT_GATT_ITER_CONTINUE, w') /\
    calls w' = calls w ++ [k_msgq_put_sensor ev;
                           k_work_submit peripheral_sensor_event_work] /\
    sensor_index ev = index /\
    channel_data_size ev =
      Z.min count (Z.of_nat (ZMK_SENSOR_EVENT_MAX_CHANNELS cfg)) /\
    length (channel_data ev) =
      (sizeof_zmk_sensor_channel_data cfg * Z.to_nat count)%nat.
Proof.
  intros Hlen Hread H0 H1. unfold split_central_sensor_notify_func.
  replace (len <? _) with false by (symmetry; apply Z.ltb_ge; exact Hlen).
  set (n := Z.to_nat _) in *.
  destruct (decide (n <= length data)%nat) as [_|Hn]; [|lia].
  assert (Hn2 : (2 <= n)%nat).
  { unfold n, sizeof_sensor_event, sensor_event_channel_data_offset in *. lia. }
  rewrite (bind_eq (ret (take n data)) _ w w _ eq_refl).
  rewrite (bind_eq _ _ w w (k_uptime w) eq_refl).
  assert (Hi : sensor_event_bytes frame (take n data) 0 = index)
    by (unfold sensor_event_bytes; rewrite lookup_take_lt, H0 by lia;
        reflexivity).
  assert (Hc : sensor_event_bytes frame (take n data) 1 = count)
    by (unfold sensor_event_bytes; rewrite lookup_take_lt, H1 by lia;
        reflexivity).
  rewrite Hi, Hc.
  unfold put_sensor_event, bind, extern, gets, modify, ret.
  destruct (msgq_put _ _ _ _) as [r q].
  eexists _, _. split; [reflexivity|].
  cbn [calls set_calls set_peripheral_sensor_event_msgq].
  split; [rewrite <- app_assoc; reflexivity|].
  cbn [sensor_index channel_data_size channel_data].
  rewrite length_map, length_seq.
  repeat split.
Qed.

(** C9 at a payload that reports two channels to a build with one: the
    event's channel count is cut to 1, yet 24 bytes are copied into its
    channel data, which has room for 12: the 12 that reached the local
    [sensor_event] and 12 more read past its end. *)
Theorem sensor_copy_uses_the_reported_count :
  (ZMK_SENSOR_EVENT_MAX_CHANNELS example_cfg *
   sizeof_zmk_sensor_channel_data example_cfg = 12)%nat /\
  (fun r => (fst r, calls (snd r))) <$>
    split_central_sensor_notify_func example_cfg stale_frame
      (ptr_sensor_subscribe_params 0) (Some two_channel_payload) 26
      idle_world =
  Some (BT_GATT_ITER_CONTINUE,
        [k_msgq_put_sensor
           {| sensor_index := 0;
              channel_data_size := 1;
              channel_data := map Z.of_nat (seq 1 12) ++ replicate 12 170;
              sensor_timestamp := 1000 |};
         k_work_submit peripheral_sensor_event_work]).
Proof. split; [reflexivity|]. vm_compute. reflexivity. Qed.

(** ** Characteristic discovery *)

(** Steps on a world written as the start world with one slot replaced and
    some calls and log lines added. *)
Section SlotNormalForm.

Context (slot : nat) (w : world).
Hypothesis Hlt : (slot < length (peripherals w))%nat.

Lemma put_slot_start (s : peripheral_slot) :
  peripherals w !! slot = Some s ->
  w = put_slot slot s (logged_calls [] [] w).
Proof.
  intros Hs. rewrite logged_calls_nil. unfold put_slot.
  rewrite list_insert_id by exact Hs. destruct w; reflexivity.
Qed.

Lemma put_slot_lookup (s : peripheral_slot) (cs : list call)
    (ls : list log_level) :
  peripherals (put_slot slot s (logged_calls cs ls w)) !! slot = Some s.
Proof. apply list_lookup_insert_eq. exact Hlt. Qed.

Lemma load_slot_nf (s : peripheral_slot) (cs : list call)
    (ls : list log_level) :
  load_slot slot (put_slot slot s (logged_calls cs ls w)) =
  Some (s, put_slot slot s (logged_calls cs ls w)).
Proof. apply load_slot_eq, put_slot_lookup. Qed.

Lemma assign_slot_nf (f : peripheral_slot -> peripheral_slot)
    (s : peripheral_slot) (cs : list call) (ls : list log_level) :
  assign_slot slot f (put_slot slot s (logged_calls cs ls w)) =
  Some (tt, put_slot slot (f s) (logged_calls cs ls w)).
Proof.
  rewrite (assign_slot_eq _ _ _ _ (put_slot_lookup s cs ls)).
  unfold put_slot. rewrite peripherals_set_peripherals, list_insert_insert_eq.
  reflexivity.
Qed.

Lemma extern_nf (c : call) (s : peripheral_slot) (cs : list call)
    (ls : list log_level) :
  extern c (put_slot slot s (logged_calls cs ls w)) =
  Some (tt, put_slot slot s (logged_calls (cs ++ [c]) ls w)).
Proof.
  unfold extern, modify, put_slot, logged_calls. cbn.
  rewrite <- app_assoc. reflexivity.
Qed.

Lemma log_nf (l : log_level) (s : peripheral_slot) (cs : list call)
    (ls : list log_level) :
  log l (put_slot slot s (logged_calls cs ls w)) =
  Some (tt, put_slot slot s (logged_calls cs (ls ++ [l]) w)).
Proof.
  unfold log, modify, put_slot, logged_calls. cbn.
  rewrite <- app_assoc. reflexivity.
Qed.

Lemma split_central_subscribe_nf (bt : bt_host) (c : Z)
    (p : bt_gatt_subscribe_params) (s : peripheral_slot) (cs : list call)
    (ls : list log_level) :
  split_central_subscribe bt c p (put_slot slot s (logged_calls cs ls w)) =
  Some (bt_gatt_subscribe_ret bt c p,
        put_slot slot s
          (logged_calls (cs ++ [bt_gatt_subscribe c p])
                        (ls ++ subscribe_log bt c p) w)).
Proof.
  unfold split_central_subscribe, subscribe_log.
  rewrite (bind_eq _ _ _ _ _ (extern_nf _ _ _ _)).
  destruct (_ || _).
  - rewrite app_nil_r. reflexivity.
  - rewrite (bind_eq _ _ _ _ _ (log_nf _ _ _ _)). reflexivity.
Qed.

End SlotNormalForm.

Ltac nf_step Hlt :=
  match goal with
  | |- bind (assign_slot _ _) _ _ = _ =>
      rewrite (bind_eq _ _ _ _ _ (assign_slot_nf _ _ Hlt _ _ _ _))
  | |- bind (load_slot _) _ _ = _ =>
      rewrite (bind_eq _ _ _ _ _ (load_slot_nf _ _ Hlt _ _ _))
  | |- bind (extern _) _ _ = _ =>
      rewrite (bind_eq _ _ _ _ _ (extern_nf _ _ _ _ _ _))
  | |- bind (split_central_subscribe _ _ _) _ _ = _ =>
      rewrite (bind_eq _ _ _ _ _ (split_central_subscribe_nf _ _ _ _ _ _ _ _))
  | |- assign_slot _ _ _ = _ => rewrite (assign_slot_nf _ _ Hlt)
  | |- extern _ _ = _ => rewrite extern_nf
  end.

Ltac eval_uuid_eq :=
  repeat match goal with
  | |- context [bt_uuid_eq ?a ?b] =>
      let v := eval vm_compute in (bt_uuid_eq a b) in
      change (bt_uuid_eq a b) with v
  end.

(** Whatever the declaration and the build, matching it rewrites the slot
    and calls out, and resolves the handle its UUID names. *)
Lemma match_characteristic_nf (cfg : config) (bt : bt_host) (c : Z)
    (slot : nat) (w : world) (attr : bt_gatt_attr) (uuid : bt_uuid)
    (s : peripheral_slot) (cs : list call) (ls : list log_level) :
  (slot < length (peripherals w))%nat ->
  exists s' cs' ls',
    match_characteristic cfg bt c slot attr uuid
      (put_slot slot s (logged_calls cs ls w)) =
    Some (tt, put_slot slot s' (logged_calls cs' ls' w)) /\
    sp_value_handle (subscribe_params s') =
      resolved true uuid ZMK_SPLIT_BT_CHAR_POSITION_STATE_UUID attr
        (sp_value_handle (subscribe_params s)) /\
    run_behavior_handle s' =
      resolved true uuid ZMK_SPLIT_BT_CHAR_RUN_BEHAVIOR_UUID attr
        (run_behavior_handle s) /\
    selected_physical_layout_handle s' =
      resolved true uuid ZMK_SPLIT_BT_SELECT_PHYS_LAYOUT_UUID attr
        (selected_physical_layout_handle s) /\
    update_layers_handle s' =
      resolved true uuid ZMK_SPLIT_BT_UPDATE_LAYERS_UUID attr
        (update_layers_handle s) /\
    sp_value_handle (sensor_subscribe_params s') =
      resolved (ZMK_KEYMAP_HAS_SENSORS cfg) uuid
        ZMK_SPLIT_BT_CHAR_SENSOR_STATE_UUID attr
        (sp_value_handle (sensor_subscribe_params s)) /\
    update_hid_indicators s' =
      resolved (CONFIG_ZMK_SPLIT_PERIPHERAL_HID_INDICATORS cfg) uuid
        ZMK_SPLIT_BT_UPDATE_HID_INDICATORS_UUID attr
        (update_hid_indicators s) /\
    sp_value_handle (batt_lvl_subscribe_params s') =
      resolved (CONFIG_ZMK_SPLIT_BLE_CENTRAL_BATTERY_LEVEL_FETCHING cfg) uuid
        BT_UUID_BAS_BATTERY_LEVEL attr
        (sp_value_handle (batt_lvl_subscribe_params s)).
Proof.
  intros Hlt. unfold match_characteristic, resolved.
  destruct (ZMK_KEYMAP_HAS_SENSORS cfg),
    (CONFIG_ZMK_SPLIT_PERIPHERAL_HID_INDICATORS cfg),
    (CONFIG_ZMK_SPLIT_BLE_CENTRAL_BATTERY_LEVEL_FETCHING cfg);
  destruct uuid; eval_uuid_eq; cbn [andb];
  eexists _, _, _;
  (split; [repeat nf_step Hlt; reflexivity|]);
  cbn; repeat split.
Qed.

Lemma subscribed_complete (cfg : config) (s : peripheral_slot) :
  subscribed cfg s = true <-> complete cfg s.
Proof.
  unfold subscribed, complete.
  destruct (ZMK_KEYMAP_HAS_SENSORS cfg),
    (CONFIG_ZMK_SPLIT_PERIPHERAL_HID_INDICATORS cfg),
    (CONFIG_ZMK_SPLIT_BLE_CENTRAL_BATTERY_LEVEL_FETCHING cfg);
  rewrite ?andb_true_iff, ?negb_true_iff, ?Z.eqb_neq;
  intuition congruence.
Qed.

(** C4: for a characteristic declaration of a connection that has a slot,
    the callback first resolves the handle the declaration's UUID names (an
    optional one only where the build enables it), then returns
    [BT_GATT_ITER_STOP] exactly when every mandatory handle and every handle
    of an enabled option is non-zero in the slot, and
    [BT_GATT_ITER_CONTINUE] otherwise.  In a build without battery fetching
    the battery handle plays no part: the other handles being non-zero is
    enough to stop. *)
Theorem chrc_discovery_stops_exactly_when_complete (cfg : config)
    (bt : bt_host) (w : world) (c : Z) (attr : bt_gatt_attr) (uuid : bt_uuid)
    (slot : nat) (s : peripheral_slot) :
  length (peripherals w) = ZMK_SPLIT_BLE_PERIPHERAL_COUNT cfg ->
  slot_of_conn w c slot ->
  peripherals w !! slot = Some s ->
  user_data attr = Some uuid ->
  exists r w' s',
    split_central_chrc_discovery_func cfg bt c (Some attr) w = Some (r, w') /\
    peripherals w' !! slot = Some s' /\
    sp_value_handle (subscribe_params s') =
      resolved true uuid ZMK_SPLIT_BT_CHAR_POSITION_STATE_UUID attr
        (sp_value_handle (subscribe_params s)) /\
    run_behavior_handle s' =
      resolved true uuid ZMK_SPLIT_BT_CHAR_RUN_BEHAVIOR_UUID attr
        (run_behavior_handle s) /\
    selected_physical_layout_handle s' =
      resolved true uuid ZMK_SPLIT_BT_SELECT_PHYS_LAYOUT_UUID attr
        (selected_physical_layout_handle s) /\
    update_layers_handle s' =
      resolved true uuid ZMK_SPLIT_BT_UPDATE_LAYERS_UUID attr
        (update_layers_handle s) /\
    sp_value_handle (sensor_subscribe_params s') =
      resolved (ZMK_KEYMAP_HAS_SENSORS cfg) uuid
        ZMK_SPLIT_BT_CHAR_SENSOR_STATE_UUID attr
        (sp_value_handle (sensor_subscribe_params s)) /\
    update_hid_indicators s' =
      resolved (CONFIG_ZMK_SPLIT_PERIPHERAL_HID_INDICATORS cfg) uuid
        ZMK_SPLIT_BT_UPDATE_HID_INDICATORS_UUID attr
        (update_hid_indicators s) /\
    sp_value_handle (batt_lvl_subscribe_params s') =
      resolved (CONFIG_ZMK_SPLIT_BLE_CENTRAL_BATTERY_LEVEL_FETCHING cfg) uuid
        BT_UUID_BAS_BATTERY_LEVEL attr
        (sp_value_handle (batt_lvl_subscribe_params s)) /\
    (r = BT_GATT_ITER_STOP <-> complete cfg s') /\
    (r = BT_GATT_ITER_CONTINUE <-> ~ complete cfg s') /\
    (CONFIG_ZMK_SPLIT_BLE_CENTRAL_BATTERY_LEVEL_FETCHING cfg = false ->
     sp_value_handle (subscribe_params s') <> 0 ->
     run_behavior_handle s' <> 0 ->
     selected_physical_layout_handle s' <> 0 ->
     update_layers_handle s' <> 0 ->
     (ZMK_KEYMAP_HAS_SENSORS cfg = true ->
      sp_value_handle (sensor_subscribe_params s') <> 0) ->
     (CONFIG_ZMK_SPLIT_PERIPHERAL_HID_INDICATORS cfg = true ->
      update_hid_indicators s' <> 0) ->
     r = BT_GATT_ITER_STOP).
Proof.
  intros Hlen Hslot Hs Hud.
  assert (Hlt : (slot < length (peripherals w))%nat)
    by (eapply lookup_lt_Some; exact Hs).
  destruct (match_characteristic_nf cfg bt c slot w attr uuid s [] [] Hlt)
    as [s' [cs' [ls' [Hrun Hhandles]]]].
  rewrite <- (put_slot_start slot w Hlt s Hs) in Hrun.
  assert (Hfunc :
    split_central_chrc_discovery_func cfg bt c (Some attr) w =
    Some (if subscribed cfg s' then BT_GATT_ITER_STOP
          else BT_GATT_ITER_CONTINUE,
          put_slot slot s' (logged_calls cs' ls' w))).
  { unfold split_central_chrc_discovery_func. rewrite Hud.
    rewrite (bind_eq _ _ _ _ _ (slot_for_conn_eq cfg _ _ _ Hlen Hslot)).
    rewrite (bind_eq _ _ _ _ _ Hrun).
    rewrite (bind_eq _ _ _ _ _ (load_slot_nf _ _ Hlt _ _ _)).
    destruct (subscribed cfg s'); reflexivity. }
  pose proof (subscribed_complete cfg s') as Hcomplete.
  eexists _, _, s'. split; [exact Hfunc|].
  split; [apply put_slot_lookup; exact Hlt|].
  destruct Hhandles as [H1 [H2 [H3 [H4 [H5 [H6 H7]]]]]].
  do 7 (split; [assumption|]).
  destruct (subscribed cfg s').
  - split; [|split].
    + split; [intros _; apply Hcomplete; reflexivity|reflexivity].
    + split; [discriminate|].
      intros Hn. exfalso. apply Hn, Hcomplete. reflexivity.
    + reflexivity.
  - assert (Hno : ~ complete cfg s')
      by (intros Hc; apply Hcomplete in Hc; discriminate).
    split; [|split].
    + split; [discriminate|]. intros Hc. exfalso. exact (Hno Hc).
    + split; [intros _; exact Hno|reflexivity].
    + intros Hb Hp Hr Hl Hu Hsens Hhid. exfalso. apply Hno.
      unfold complete. rewrite Hb. repeat split; try assumption.
      discriminate.
Qed.

Lemma discovering_world_slot_of_conn : slot_of_conn discovering_world 7 0.
Proof.
  split.
  - eexists. split; reflexivity.
  - intros k s Hk. exfalso. lia.
Defined.

Lemma chrc_discovery_stops_exactly_when_complete_witness :
  exists r w',
    split_central_chrc_discovery_func no_battery_cfg (example_host 2 0) 7
      (Some layers_attr) discovering_world = Some (r, w') /\
    r = BT_GATT_ITER_STOP.
Proof.
  destruct (chrc_discovery_stops_exactly_when_complete no_battery_cfg
              (example_host 2 0) discovering_world 7 layers_attr
              ZMK_SPLIT_BT_UPDATE_LAYERS_UUID 0 discovering_slot
              eq_refl discovering_world_slot_of_conn eq_refl eq_refl)
    as [r [w' [s' [Hrun [_ [H1 [H2 [H3 [H4 [H5 [H6 [_ [_ [_ Hstop]]]]]]]]]]]]]].
  exists r, w'. split; [exact Hrun|].
  apply Hstop.
  - reflexivity.
  - rewrite H1. discriminate.
  - rewrite H2. discriminate.
  - rewrite H3. discriminate.
  - rewrite H4. discriminate.
  - intros _. rewrite H5. discriminate.
  - intros _. rewrite H6. discriminate.
Defined.

(** Without battery fetching the layers declaration
    completes the slot and stops the iteration; with it, the same
    declaration leaves the battery handle missing and the iteration goes
    on. *)
Example discovery_without_battery_stops :
  fst <$> split_central_chrc_discovery_func no_battery_cfg (example_host 2 0)
            7 (Some layers_attr) discovering_world =
    Some BT_GATT_ITER_STOP /\
  fst <$> split_central_chrc_discovery_func example_cfg (example_host 2 0)
            7 (Some layers_attr) discovering_world =
    Some BT_GATT_ITER_CONTINUE.
Proof. split; vm_compute; reflexivity. Qed.

(** ** Disconnection *)

Lemma put_batt_lvl_event_eq (cfg : config)
    (ev : zmk_peripheral_battery_state_changed) (w : world) :
  (put_batt_lvl_event cfg ev ;; extern (k_work_submit peripheral_batt_lvl_work))
    w = Some (tt, raise_battery cfg w ev).
Proof.
  unfold put_batt_lvl_event, raise_battery, bind, extern, gets, modify, ret.
  cbn. destruct (msgq_put _ _ _ _). reflexivity.
Qed.

Lemma has_unconnected_from_true (w : world) (k : nat) (sk : peripheral_slot) :
  peripherals w !! k = Some sk -> conn sk = NULL ->
  forall n i, (i <= k < i + n)%nat ->
  has_unconnected_from i n w = Some (true, w).
Proof.
  intros Hk Hnull. induction n as [|n IH]; intros i Hi; [lia|].
  cbn [has_unconnected_from].
  assert (Hlt : (i < length (peripherals w))%nat).
  { apply lookup_lt_Some in Hk. lia. }
  destruct (lookup_lt_is_Some_2 _ _ Hlt) as [si Hsi].
  rewrite (bind_eq _ _ _ _ _ (load_slot_eq _ _ _ Hsi)).
  destruct (conn si =? NULL) eqn:Hc; [reflexivity|].
  apply IH. destruct (decide (i = k)) as [->|Hne]; [|lia].
  rewrite Hk in Hsi. injection Hsi as <-.
  rewrite Hnull in Hc. discriminate Hc.
Qed.

Lemma start_scanning_run (cfg : config) (bt : bt_host) (w : world) (k : nat)
    (sk : peripheral_slot) :
  peripherals w !! k = Some sk -> conn sk = NULL ->
  (k < CONFIG_ZMK_SPLIT_BLE_CENTRAL_PERIPHERALS cfg)%nat ->
  exists r w',
    start_scanning cfg bt w = Some (r, w') /\
    peripherals w' = peripherals w /\
    is_scanning w' = true /\
    calls w' = calls w ++ (if is_scanning w then [] else [bt_le_scan_start]).
Proof.
  intros Hk Hnull Hlt. unfold start_scanning.
  rewrite (bind_eq _ _ w w (is_scanning w) eq_refl).
  destruct (is_scanning w) eqn:Hscan.
  - eexists _, w. split; [reflexivity|]. rewrite app_nil_r. repeat split.
    exact Hscan.
  - rewrite (bind_eq _ _ _ _ _
               (has_unconnected_from_true w k sk Hk Hnull
                  (CONFIG_ZMK_SPLIT_BLE_CENTRAL_PERIPHERALS cfg) 0 ltac:(lia))).
    cbn [negb].
    unfold bind, modify, extern, ret, log.
    destruct (_ <? 0); eexists _, _; (split; [reflexivity|]); repeat split.
Qed.

Lemma is_scanning_set_peripherals p w :
  is_scanning (set_peripherals p w) = is_scanning w.
Proof. reflexivity. Qed.

(** C5: on a disconnect of a connection that has a slot, a build that
    fetches battery levels first offers a battery event with level 0 for the
    slot to the battery queue and submits its worker.  Then the slot is
    released.  If it was not Open, the release drops the connection
    reference and raises one released event per held position, the slot is
    left as a release leaves it, and [start_scanning] runs: scanning is on
    afterwards, started by a [bt_le_scan_start] unless it was on already.
    If the slot was already Open the release fails, nothing but the battery
    event happens, and scanning is left as it was. *)
Theorem disconnect_releases_then_scans (cfg : config) (bt : bt_host)
    (w : world) (c reason : Z) (slot : nat) (s : peripheral_slot) :
  wf_world cfg w ->
  slot_of_conn w c slot ->
  peripherals w !! slot = Some s ->
  exists w',
    split_central_disconnected cfg bt c reason w = Some (tt, w') /\
    (state s <> PERIPHERAL_SLOT_STATE_OPEN ->
     calls w' =
       calls w ++
       battery_gone_calls cfg (to_uint8 (Z.of_nat slot)) ++
       unref_calls s ++
       raise_calls (release_events (to_uint8 (Z.of_nat slot)) (k_uptime w)
                                   (position_state s)) ++
       (if is_scanning w then [] else [bt_le_scan_start]) /\
     peripherals w' = <[slot := released cfg s]> (peripherals w) /\
     is_scanning w' = true) /\
    (state s = PERIPHERAL_SLOT_STATE_OPEN ->
     calls w' =
       calls w ++ battery_gone_calls cfg (to_uint8 (Z.of_nat slot)) /\
     peripherals w' = peripherals w /\
     is_scanning w' = is_scanning w).
Proof.
  intros [Hlen [Hall _]] Hslot Hs.
  assert (Hwf : wf_slot s) by exact (Forall_lookup_1 _ _ _ _ Hall Hs).
  assert (Hlt : (slot < length (peripherals w))%nat)
    by (eapply lookup_lt_Some; exact Hs).
  unfold split_central_disconnected.
  (* the battery event *)
  assert (Hbatt : exists wb,
    (if CONFIG_ZMK_SPLIT_BLE_CENTRAL_BATTERY_LEVEL_FETCHING cfg then
       src <- peripheral_slot_index_for_conn cfg c ;;
       put_batt_lvl_event cfg
         {| batt_source := to_uint8 src; state_of_charge := 0 |} ;;
       extern (k_work_submit peripheral_batt_lvl_work)
     else ret tt) w = Some (tt, wb) /\
    peripherals wb = peripherals w /\
    k_uptime wb = k_uptime w /\
    is_scanning wb = is_scanning w /\
    calls wb = calls w ++ battery_gone_calls cfg (to_uint8 (Z.of_nat slot))).
  { unfold battery_gone_calls.
    destruct (CONFIG_ZMK_SPLIT_BLE_CENTRAL_BATTERY_LEVEL_FETCHING cfg).
    - rewrite (bind_eq _ _ _ _ _ (index_for_conn_eq cfg _ _ _ Hlen Hslot)).
      rewrite put_batt_lvl_event_eq. eexists. split; [reflexivity|].
      unfold raise_battery. cbn. rewrite <- app_assoc. repeat split.
    - exists w. rewrite app_nil_r. repeat split. }
  destruct Hbatt as [wb [Hrunb [Hpb [Htb [Hscb Hcb]]]]].
  rewrite (bind_eq _ _ _ _ _ Hrunb).
  assert (Hslotb : slot_of_conn wb c slot).
  { destruct Hslot as [H1 H2]. split; rewrite Hpb; assumption. }
  assert (Hlenb : length (peripherals wb) = ZMK_SPLIT_BLE_PERIPHERAL_COUNT cfg)
    by (rewrite Hpb; exact Hlen).
  assert (Hsb : peripherals wb !! Z.to_nat (Z.of_nat slot) = Some s)
    by (rewrite Nat2Z.id, Hpb; exact Hs).
  assert (Hrel : release_peripheral_slot_for_conn cfg c wb =
                 release_peripheral_slot cfg (Z.of_nat slot) wb).
  { unfold release_peripheral_slot_for_conn.
    rewrite (bind_eq _ _ _ _ _ (index_for_conn_eq cfg _ _ _ Hlenb Hslotb)).
    replace (Z.of_nat slot <? 0) with false
      by (symmetry; apply Z.ltb_ge; lia).
    reflexivity. }
  destruct (decide (state s = PERIPHERAL_SLOT_STATE_OPEN)) as [Hopen|Hres].
  - rewrite (release_open_slot cfg wb _ s Hsb Hopen) in Hrel.
    rewrite (bind_eq _ _ _ _ _ Hrel).
    change (- EINVAL <? 0) with true. cbn iota.
    exists wb. split; [reflexivity|]. split; [intros Hn; contradiction|].
    intros _. repeat split; assumption.
  - assert (Hidx : 0 <= Z.of_nat slot <
                   Z.of_nat (ZMK_SPLIT_BLE_PERIPHERAL_COUNT cfg)) by lia.
    rewrite (release_run cfg wb _ s Hidx Hsb Hwf Hres) in Hrel.
    rewrite Nat2Z.id, Hpb, Htb in Hrel.
    rewrite (bind_eq _ _ _ _ _ Hrel).
    change (0 <? 0) with false. cbn iota.
    set (wr := set_peripherals _ _) in *.
    assert (Hpr : peripherals wr = <[slot := released cfg s]> (peripherals w))
      by reflexivity.
    assert (Hcr : calls wr =
              (calls wb ++ unref_calls s) ++
              raise_calls (release_events (to_uint8 (Z.of_nat slot))
                             (k_uptime w) (position_state s))).
    { unfold wr. rewrite calls_set_peripherals, raise_positions_calls.
      reflexivity. }
    assert (Hscr : is_scanning wr = is_scanning w).
    { unfold wr. rewrite is_scanning_set_peripherals,
        raise_positions_is_scanning. exact Hscb. }
    destruct (start_scanning_run cfg bt wr slot (released cfg s))
      as [r [w' [Hstart [Hp' [Hsc' Hc']]]]].
    + rewrite Hpr. apply list_lookup_insert_eq. exact Hlt.
    + reflexivity.
    + unfold ZMK_SPLIT_BLE_PERIPHERAL_COUNT in Hlen. lia.
    + rewrite (bind_eq _ _ _ _ _ Hstart).
      exists w'. split; [reflexivity|]. split; [|intros Ho; contradiction].
      intros _. split; [|split].
      * rewrite Hc', Hcr, Hcb, Hscr, <- !app_assoc. reflexivity.
      * rewrite Hp', Hpr. reflexivity.
      * exact Hsc'.
Qed.

Lemma held_world_wf : wf_world example_cfg held_world.
Proof. repeat split; repeat constructor. Defined.

Lemma held_world_slot_of_conn : slot_of_conn held_world 7 0.
Proof.
  split.
  - eexists. split; reflexivity.
  - intros k s Hk. exfalso. lia.
Defined.

Lemma held_world_slot_of_null : slot_of_conn held_world NULL 1.
Proof.
  split.
  - eexists. split; reflexivity.
  - intros k s Hk Hs. assert (k = 0%nat) as -> by lia.
    injection Hs as <-. discriminate.
Defined.

(** The link of slot 0 goes down while position 5 is held; and a disconnect
    whose connection matches the Open slot 1. *)
Lemma disconnect_releases_then_scans_witness :
  (exists w',
     split_central_disconnected example_cfg (example_host 2 0) 7 19
       held_world = Some (tt, w') /\
     calls w' =
       [k_msgq_put_batt_lvl {| batt_source := 0; state_of_charge := 0 |};
        k_work_submit peripheral_batt_lvl_work;
        bt_conn_unref 7;
        k_msgq_put_position {| ev_source := 0; ev_position := 5;
                               ev_state := false; ev_timestamp := 1000 |};
        k_work_submit peripheral_event_work;
        bt_le_scan_start] /\
     is_scanning w' = true) /\
  (exists w',
     split_central_disconnected example_cfg (example_host 2 0) NULL 19
       held_world = Some (tt, w') /\
     calls w' =
       [k_msgq_put_batt_lvl {| batt_source := 1; state_of_charge := 0 |};
        k_work_submit peripheral_batt_lvl_work] /\
     is_scanning w' = false).
Proof.
  split.
  - destruct (disconnect_releases_then_scans example_cfg (example_host 2 0)
                held_world 7 19 0 (connected_slot 7 bit5)
                held_world_wf held_world_slot_of_conn eq_refl)
      as [w' [Hrun [Hreserved _]]].
    destruct Hreserved as [Hcalls [_ Hscan]]; [discriminate|].
    exists w'. split; [exact Hrun|]. split; [|exact Hscan].
    rewrite Hcalls. vm_compute. reflexivity.
  - destruct (disconnect_releases_then_scans example_cfg (example_host 2 0)
                held_world NULL 19 1 open_slot
                held_world_wf held_world_slot_of_null eq_refl)
      as [w' [Hrun [_ Hopen]]].
    destruct Hopen as [Hcalls [_ Hscan]]; [reflexivity|].
    exists w'. split; [exact Hrun|]. split; [|exact Hscan].
    rewrite Hcalls. vm_compute. reflexivity.
Defined.

(** ** The position queue *)

(** When the position queue has room for them, the events a snapshot raises
    are the ones it gains, in order; past its capacity [k_msgq_put] with
    [K_NO_WAIT] drops them. *)
Lemma notify_fills_the_queue (cfg : config) (w : world) (c : Z)
    (params : subscribe_params_ptr) (slot : nat) (s : peripheral_slot)
    (b : list Z) :
  wf_world cfg w ->
  slot_of_conn w c slot ->
  peripherals w !! slot = Some s ->
  length b = POSITION_STATE_DATA_LEN ->
  (length (peripheral_event_msgq w) +
   length (position_events (to_uint8 (Z.of_nat slot)) (k_uptime w)
             (position_state s) b) <=
   CONFIG_ZMK_SPLIT_BLE_CENTRAL_POSITION_QUEUE_SIZE cfg)%nat ->
  exists w',
    split_central_notify_func cfg c params (Some b) 16 w =
      Some (BT_GATT_ITER_CONTINUE, w') /\
    peripheral_event_msgq w' =
      peripheral_event_msgq w ++
      position_events (to_uint8 (Z.of_nat slot)) (k_uptime w)
        (position_state s) b.
Proof.
  intros [Hlen [Hall _]] Hslot Hs Hb Hroom.
  assert (Hwf : wf_slot s) by exact (Forall_lookup_1 _ _ _ _ Hall Hs).
  pose proof (notify_run cfg w c params slot s b 16 Hlen Hslot Hs Hwf
                ltac:(lia)) as Hrun.
  rewrite (take_ge b) in Hrun by lia.
  eexists. split; [exact Hrun|].
  rewrite raise_positions_queue; [reflexivity|exact Hroom].
Qed.

Example full_position_queue_drops :
  (fun r => peripheral_event_msgq (snd r)) <$>
    split_central_notify_func example_cfg 7 (ptr_subscribe_params 0)
      (Some bit0) 16
      (set_peripheral_event_msgq
         (replicate 20 {| ev_source := 1; ev_position := 9;
                          ev_state := true; ev_timestamp := 0 |})
         idle_world) =
  Some (replicate 20 {| ev_source := 1; ev_position := 9;
                        ev_state := true; ev_timestamp := 0 |}).
Proof. vm_compute. reflexivity. Qed.

(** * Further properties *)

(** ** Keeping a property through a computation *)

Section Preserves.

Context (P : world -> Prop).

Lemma preserves_ret {A} (a : A) : preserves P (ret a).
Proof. intros w a' w' HP H. injection H as _ <-. exact HP. Qed.

Lemma preserves_bind {A B} (m : M A) (k : A -> M B) :
  preserves P m -> (forall a, preserves P (k a)) -> preserves P (bind m k).
Proof.
  intros Hm Hk w b w' HP H. unfold bind in H.
  destruct (m w) as [[a w1]|] eqn:Hmw; [|discriminate].
  exact (Hk a w1 b w' (Hm w a w1 HP Hmw) H).
Qed.

Lemma preserves_gets {A} (f : world -> A) : preserves P (gets f).
Proof. intros w a w' HP H. injection H as _ <-. exact HP. Qed.

Lemma preserves_none {A} : preserves P (fun _ => None : option (A * world)).
Proof. intros w a w' _ H. discriminate H. Qed.

Lemma preserves_of_option {A} (o : option A) : preserves P (of_option o).
Proof. destruct o; [apply preserves_ret|apply preserves_none]. Qed.

Lemma preserves_modify (f : world -> world) :
  (forall w, P w -> P (f w)) -> preserves P (modify f).
Proof. intros Hf w a w' HP H. injection H as _ <-. exact (Hf w HP). Qed.

Lemma preserves_for_each {A} (l : list A) (body : A -> M unit) :
  (forall x, preserves P (body x)) -> preserves P (for_each l body).
Proof.
  intros Hb. induction l as [|x l IH]; cbn [for_each].
  - apply preserves_ret.
  - apply preserves_bind; [apply Hb|intros _; exact IH].
Qed.

Lemma preserves_for_each_collect {A B} (l : list A) (body : A -> M (list B)) :
  (forall x, preserves P (body x)) -> preserves P (for_each_collect l body).
Proof.
  intros Hb. induction l as [|x l IH]; cbn [for_each_collect].
  - apply preserves_ret.
  - apply preserves_bind; [apply Hb|intros o].
    apply preserves_bind; [exact IH|intros os; apply preserves_ret].
Qed.

Lemma preserves_load_slot (i : nat) : preserves P (load_slot i).
Proof.
  unfold load_slot. apply preserves_bind; [apply preserves_gets|].
  intros ps. apply preserves_of_option.
Qed.

Lemma preserves_load_byte (a : list Z) (i : nat) : preserves P (load_byte a i).
Proof. apply preserves_of_option. Qed.

Lemma preserves_k_uptime_get : preserves P k_uptime_get.
Proof. apply preserves_gets. Qed.

End Preserves.

(** The steps of a proof that a computation keeps a property: split binds,
    take branches apart, and leave the writes. *)
Ltac preserves_step :=
  match goal with
  | |- preserves _ (bind _ _) => apply preserves_bind; [|intros ?]
  | |- preserves _ (ret _) => apply preserves_ret
  | |- preserves _ (gets _) => apply preserves_gets
  | |- preserves _ (fun _ => None) => apply preserves_none
  | |- preserves _ out_of_bounds => apply preserves_none
  | |- preserves _ (of_option _) => apply preserves_of_option
  | |- preserves _ (load_slot _) => apply preserves_load_slot
  | |- preserves _ (load_byte _ _) => apply preserves_load_byte
  | |- preserves _ k_uptime_get => apply preserves_k_uptime_get
  | |- preserves _ (for_each _ _) => apply preserves_for_each; intros ?
  | |- preserves _ (for_range _ _) => apply preserves_for_each; intros ?
  | |- preserves _ (for_each_collect _ _) =>
      apply preserves_for_each_collect; intros ?
  | |- preserves _ (if ?b then _ else _) => destruct b
  | |- preserves _ (match ?x with _ => _ end) => destruct x
  | |- preserves _ (let '(_, _) := ?x in _) => destruct x
  end.

(** ** The declared sizes are kept *)

Create HintDb wf_kept discriminated.
Create HintDb central_fns.

Section WfKept.

Context (cfg : config).

Lemma wf_modify (f : world -> world) :
  (forall w, peripherals (f w) = peripherals w) ->
  (forall w, peripheral_battery_levels (f w) = peripheral_battery_levels w) ->
  preserves (wf_world cfg) (modify f).
Proof.
  intros Hp Hl. apply preserves_modify. intros w [H1 [H2 H3]].
  unfold wf_world. rewrite Hp, Hl. auto.
Qed.

Lemma wf_extern (c : call) : preserves (wf_world cfg) (extern c).
Proof. apply wf_modify; reflexivity. Qed.

Lemma wf_log (l : log_level) : preserves (wf_world cfg) (log l).
Proof. apply wf_modify; reflexivity. Qed.

Lemma wf_update_slot (i : nat) (f : peripheral_slot -> option peripheral_slot) :
  (forall s s', wf_slot s -> f s = Some s' -> wf_slot s') ->
  preserves (wf_world cfg) (update_slot i f).
Proof.
  intros Hf w a w' [H1 [H2 H3]] H. unfold update_slot, load_slot, bind, gets,
    modify in H.
  destruct (peripherals w !! i) as [s|] eqn:Hs; [|discriminate]. cbn in H.
  destruct (f s) as [s'|] eqn:Hfs; [|discriminate]. cbn in H.
  injection H as _ <-. unfold wf_world.
  rewrite peripherals_set_peripherals, length_insert.
  split; [exact H1|]. split; [|exact H3].
  apply Forall_insert; [exact H2|].
  exact (Hf s s' (Forall_lookup_1 _ _ _ _ H2 Hs) Hfs).
Qed.

Lemma wf_assign_slot (i : nat) (f : peripheral_slot -> peripheral_slot) :
  (forall s, wf_slot s -> wf_slot (f s)) ->
  preserves (wf_world cfg) (assign_slot i f).
Proof.
  intros Hf. apply wf_update_slot. intros s s' Hs H. injection H as <-.
  exact (Hf s Hs).
Qed.

Lemma store_byte_length (a a' : list Z) (i : nat) (x : Z) :
  store_byte a i x = Some a' -> length a' = length a.
Proof.
  unfold store_byte. destruct (decide _); [|discriminate].
  intros H. injection H as <-. apply length_insert.
Qed.

Lemma wf_clear_position (i : nat) (s s' : peripheral_slot) :
  wf_slot s -> clear_position i s = Some s' -> wf_slot s'.
Proof.
  intros [Hp Hc] H. unfold clear_position in H.
  destruct (store_byte (position_state s) i 0) as [p|] eqn:H1; [|discriminate].
  cbn in H.
  destruct (store_byte (changed_positions s) i 0) as [c|] eqn:H2;
    [|discriminate].
  injection H as <-. apply store_byte_length in H1, H2.
  split; cbn; congruence.
Qed.

Lemma wf_diff_position (data : list Z) (i : nat) (s s' : peripheral_slot) :
  wf_slot s -> diff_position data i s = Some s' -> wf_slot s'.
Proof.
  intros [Hp Hc] H. unfold diff_position in H.
  destruct (data !! i) as [d|]; [|discriminate].
  destruct (position_state s !! i) as [p|]; [|discriminate].
  destruct (store_byte (changed_positions s) i _) as [c|] eqn:H1;
    [|discriminate].
  cbn in H.
  destruct (store_byte (position_state s) i d) as [p'|] eqn:H2;
    [|discriminate].
  injection H as <-. apply store_byte_length in H1, H2.
  split; cbn; congruence.
Qed.

Lemma wf_index_for_conn_from (c : Z) (n i : nat) :
  preserves (wf_world cfg) (index_for_conn_from c i n).
Proof.
  revert i. induction n as [|n IH]; intros i; cbn [index_for_conn_from];
    repeat preserves_step. apply IH.
Qed.

Lemma wf_has_unconnected_from (n i : nat) :
  preserves (wf_world cfg) (has_unconnected_from i n).
Proof.
  revert i. induction n as [|n IH]; intros i; cbn [has_unconnected_from];
    repeat preserves_step. apply IH.
Qed.

End WfKept.

#[local] Hint Resolve wf_extern wf_log wf_index_for_conn_from
  wf_has_unconnected_from : wf_kept.

#[local] Hint Unfold peripheral_slot_index_for_conn peripheral_slot_for_conn
  put_position_event put_sensor_event put_batt_lvl_event put_split_run
  get_split_run release_position notify_position clear_value_handle
  gatt_write_without_response split_central_subscribe match_characteristic
  release_peripheral_slot reserve_peripheral_slot
  release_peripheral_slot_for_conn confirm_peripheral_slot_conn
  split_central_sensor_notify_func split_central_notify_func
  zmk_split_get_peripheral_battery_level update_peripheral_selected_layout
  update_peripherals_selected_physical_layout
  split_central_update_indicators_callback split_central_chrc_discovery_func
  start_scanning split_central_disconnected
  split_central_battery_level_notify_func
  split_central_battery_level_read_func zmk_split_bt_update_hid_indicator
  split_central_update_layers_callback zmk_split_bt_update_layers
  split_central_service_discovery_func split_central_process_connection
  stop_scanning split_central_eir_found split_central_eir_parse
  split_central_device_found split_central_connected
  split_central_security_changed : central_fns.

Ltac wf_kept :=
  repeat first
    [ solve [auto with wf_kept nocore]
    | preserves_step
    | apply wf_modify; reflexivity
    | apply wf_assign_slot; let H := fresh in intros ? H; exact H
    | apply wf_update_slot; intros ? ? ? ?;
        first [eapply wf_clear_position; eassumption
              |eapply wf_diff_position; eassumption]
    | progress autounfold with central_fns ].

Section WfKeptFunctions.

Context (cfg : config) (bt : bt_host).

Lemma wf_release (index : Z) :
  preserves (wf_world cfg) (release_peripheral_slot cfg index).
Proof. wf_kept. Qed.






Lemma wf_eir_found (addr stopped created new_conn : Z) :
  preserves (wf_world cfg)
    (split_central_eir_found cfg bt addr stopped created new_conn).
Proof. wf_kept. Qed.

Lemma wf_eir_parse_uuids (service_uuid : list Z) (rounds : nat)
    (data : list Z) (addr stopped created new_conn : Z) :
  preserves (wf_world cfg)
    (eir_parse_uuids cfg bt service_uuid rounds data addr stopped created
       new_conn).
Proof.
  revert data. induction rounds as [|rounds IH]; intros data;
    cbn [eir_parse_uuids]; [apply preserves_ret|].
  destruct (bool_decide _); [|apply IH].
  apply preserves_bind; [apply wf_eir_found|intros r; apply preserves_ret].
Qed.

Lemma wf_bt_data_parse (service_uuid : list Z) (ad : list bt_data)
    (addr stopped created new_conn : Z) :
  preserves (wf_world cfg)
    (bt_data_parse cfg bt service_uuid ad addr stopped created new_conn).
Proof.
  induction ad as [|data ad IH]; cbn [bt_data_parse]; [apply preserves_ret|].
  apply preserves_bind.
  - unfold split_central_eir_parse. repeat preserves_step;
      try apply wf_log; apply wf_eir_parse_uuids.
  - intros r. destruct (fst r); [|apply preserves_ret].
    apply preserves_bind; [exact IH|intros rs; apply preserves_ret].
Qed.

End WfKeptFunctions.

#[local] Hint Resolve wf_eir_found wf_eir_parse_uuids wf_bt_data_parse
  : wf_kept.


(** ** Who leaves the slot table alone *)

Create HintDb table_kept discriminated.

Section TableKept.

Context (ps : list peripheral_slot).

Let untouched : world -> Prop := fun w => peripherals w = ps.

Lemma table_modify (f : world -> world) :
  (forall w, peripherals (f w) = peripherals w) ->
  preserves untouched (modify f).
Proof.
  intros Hp. apply preserves_modify. intros w Hw. unfold untouched.
  rewrite Hp. exact Hw.
Qed.

Lemma table_extern (c : call) : preserves untouched (extern c).
Proof. apply table_modify; reflexivity. Qed.

Lemma table_log (l : log_level) : preserves untouched (log l).
Proof. apply table_modify; reflexivity. Qed.

Lemma table_index_for_conn_from (c : Z) (n i : nat) :
  preserves untouched (index_for_conn_from c i n).
Proof.
  revert i. induction n as [|n IH]; intros i; cbn [index_for_conn_from];
    repeat preserves_step. apply IH.
Qed.

Lemma table_has_unconnected_from (n i : nat) :
  preserves untouched (has_unconnected_from i n).
Proof.
  revert i. induction n as [|n IH]; intros i; cbn [has_unconnected_from];
    repeat preserves_step. apply IH.
Qed.

End TableKept.

#[local] Hint Resolve table_extern table_log table_index_for_conn_from
  table_has_unconnected_from : table_kept.



(** ** The registry *)

Lemma first_slot_with_conn (c : Z) (ps : list peripheral_slot) :
  (forall k s, ps !! k = Some s -> conn s <> c) \/
  (exists slot s, ps !! slot = Some s /\ conn s = c /\
     forall k s', (k < slot)%nat -> ps !! k = Some s' -> conn s' <> c).
Proof.
  induction ps as [|x ps IH].
  - left. intros k s H. destruct k; discriminate H.
  - destruct (Z.eq_dec (conn x) c) as [Hx|Hx].
    + right. exists 0%nat, x. split; [reflexivity|]. split; [exact Hx|].
      intros k s' Hk. lia.
    + destruct IH as [Hnone|[slot [s [Hs [Hc Hfirst]]]]].
      * left. intros [|k] s H; [injection H as <-; exact Hx|].
        exact (Hnone k s H).
      * right. exists (S slot), s. split; [exact Hs|]. split; [exact Hc|].
        intros [|k] s' Hk H; [injection H as <-; exact Hx|].
        apply (Hfirst k s'); [lia|exact H].
Qed.

(** The lookup of a connection never changes the world; it answers the
    index of the first slot that holds the connection, and [-EINVAL] exactly
    when no slot holds it. *)
Theorem slot_lookup_is_exact (cfg : config) (w : world) (c : Z) :
  length (peripherals w) = ZMK_SPLIT_BLE_PERIPHERAL_COUNT cfg ->
  exists r,
    peripheral_slot_index_for_conn cfg c w = Some (r, w) /\
    ((r = - EINVAL /\ no_slot_of_conn w c) \/
     (exists slot, r = Z.of_nat slot /\ slot_of_conn w c slot)).
Proof.
  intros Hlen.
  destruct (first_slot_with_conn c (peripherals w))
    as [Hnone|[slot [s [Hs [Hc Hfirst]]]]].
  - exists (- EINVAL). split; [|left; split; [reflexivity|exact Hnone]].
    apply index_for_conn_from_none; [exact Hnone|lia].
  - assert (Hslot : slot_of_conn w c slot).
    { split; [exists s; split; assumption|exact Hfirst]. }
    exists (Z.of_nat slot). split; [|right; exists slot; split; auto].
    apply index_for_conn_eq; assumption.
Qed.

Lemma slot_lookup_is_exact_witness :
  exists r,
    peripheral_slot_index_for_conn example_cfg 7 held_world =
      Some (r, held_world) /\
    ((r = - EINVAL /\ no_slot_of_conn held_world 7) \/
     (exists slot, r = Z.of_nat slot /\ slot_of_conn held_world 7 slot)).
Proof. apply (slot_lookup_is_exact example_cfg held_world 7). reflexivity. Defined.

(** A release that succeeded cannot be repeated: the second one returns
    [-EINVAL], raises nothing and changes nothing. *)
Theorem release_twice (cfg : config) (w : world) (index : Z)
    (s : peripheral_slot) :
  0 <= index < Z.of_nat (ZMK_SPLIT_BLE_PERIPHERAL_COUNT cfg) ->
  peripherals w !! Z.to_nat index = Some s ->
  wf_slot s ->
  state s <> PERIPHERAL_SLOT_STATE_OPEN ->
  exists w1,
    release_peripheral_slot cfg index w = Some (0, w1) /\
    release_peripheral_slot cfg index w1 = Some (- EINVAL, w1).
Proof.
  intros Hidx Hs Hwf Hst. eexists.
  split; [apply (release_run cfg w index s); assumption|].
  apply (release_open_slot cfg _ index (released cfg s)); [|reflexivity].
  rewrite peripherals_set_peripherals.
  apply list_lookup_insert_eq. eapply lookup_lt_Some. exact Hs.
Qed.

Lemma release_twice_witness :
  exists w1,
    release_peripheral_slot example_cfg 0 held_world = Some (0, w1) /\
    release_peripheral_slot example_cfg 0 w1 = Some (- EINVAL, w1).
Proof.
  apply (release_twice example_cfg held_world 0 (connected_slot 7 bit5)).
  - cbn. lia.
  - reflexivity.
  - split; reflexivity.
  - discriminate.
Defined.

(** What a release raises after a snapshot: once snapshot [b] has been
    decoded for a slot, releasing the slot raises one released event for
    each position that [b] reports as pressed, and no other, whatever the
    slot held before. *)
Theorem release_after_a_snapshot (cfg : config) (w : world) (c : Z)
    (params : subscribe_params_ptr) (slot : nat) (s : peripheral_slot)
    (b : list Z) :
  wf_world cfg w ->
  slot_of_conn w c slot ->
  peripherals w !! slot = Some s ->
  state s <> PERIPHERAL_SLOT_STATE_OPEN ->
  length b = POSITION_STATE_DATA_LEN ->
  exists w1 w2,
    split_central_notify_func cfg c params (Some b) 16 w =
      Some (BT_GATT_ITER_CONTINUE, w1) /\
    release_peripheral_slot cfg (Z.of_nat slot) w1 = Some (0, w2) /\
    calls w2 =
      calls w1 ++ unref_calls s ++
      raise_calls (release_events (to_uint8 (Z.of_nat slot)) (k_uptime w) b).
Proof.
  intros [Hlen [Hall _]] Hslot Hs Hst Hb.
  assert (Hwf : wf_slot s) by exact (Forall_lookup_1 _ _ _ _ Hall Hs).
  assert (Hlt : (slot < length (peripherals w))%nat)
    by (eapply lookup_lt_Some; exact Hs).
  assert (Htake : take POSITION_STATE_DATA_LEN b = b) by (apply take_ge; lia).
  pose proof (notify_run cfg w c params slot s b 16 Hlen Hslot Hs Hwf
                ltac:(lia)) as Hrun.
  rewrite Htake in Hrun.
  set (w1 := raise_positions cfg _ _) in Hrun.
  assert (Hs1 : peripherals w1 !! Z.to_nat (Z.of_nat slot) =
                Some (notified b s)).
  { rewrite Nat2Z.id. unfold w1.
    rewrite raise_positions_peripherals, peripherals_set_peripherals.
    apply list_lookup_insert_eq, Hlt. }
  assert (Hwf1 : wf_slot (notified b s)).
  { unfold notified, wf_slot, diff_bytes.
    cbn [position_state changed_positions set_position_state
         set_changed_positions].
    rewrite Htake, length_zip_with. destruct Hwf as [Hp _]. lia. }
  assert (Hidx : 0 <= Z.of_nat slot <
                 Z.of_nat (ZMK_SPLIT_BLE_PERIPHERAL_COUNT cfg)) by lia.
  pose proof (release_run cfg w1 (Z.of_nat slot) (notified b s) Hidx Hs1 Hwf1
                Hst) as Hrel.
  exists w1. eexists. split; [exact Hrun|]. split; [exact Hrel|].
  rewrite calls_set_peripherals, raise_positions_calls.
  cbn [calls set_calls].
  replace (position_state (notified b s)) with b by (symmetry; exact Htake).
  replace (k_uptime w1) with (k_uptime w)
    by (unfold w1; rewrite raise_positions_k_uptime; reflexivity).
  rewrite <- app_assoc. reflexivity.
Qed.

Lemma release_after_a_snapshot_witness :
  exists w1 w2,
    split_central_notify_func example_cfg 7 (ptr_subscribe_params 0)
      (Some bit0) 16 held_world = Some (BT_GATT_ITER_CONTINUE, w1) /\
    release_peripheral_slot example_cfg (Z.of_nat 0) w1 = Some (0, w2) /\
    calls w2 =
      calls w1 ++ unref_calls (connected_slot 7 bit5) ++
      raise_calls (release_events (to_uint8 (Z.of_nat 0))
                     (k_uptime held_world) bit0).
Proof.
  apply (release_after_a_snapshot example_cfg held_world 7
           (ptr_subscribe_params 0) 0 (connected_slot 7 bit5) bit0).
  - exact held_world_wf.
  - exact held_world_slot_of_conn.
  - reflexivity.
  - discriminate.
  - reflexivity.
Defined.

(** ** The inbound queues and their workers *)

Lemma position_worker_run (q : list zmk_position_state_changed) :
  forall (w : world) (fuel : nat),
    peripheral_event_msgq w = q -> (length q < fuel)%nat ->
    peripheral_event_work_callback fuel w =
    Some (q, set_peripheral_event_msgq [] w).
Proof.
  induction q as [|ev q IH]; intros w fuel Hq Hfuel;
    (destruct fuel as [|fuel]; [cbn in Hfuel; lia|]);
    cbn [peripheral_event_work_callback];
    unfold bind at 1, gets at 1; rewrite Hq; cbn [msgq_get].
  - destruct w; cbn in Hq; subst. reflexivity.
  - unfold bind at 1, modify at 1.
    rewrite (bind_eq _ _ _ _ _
               (IH (set_peripheral_event_msgq q w) fuel eq_refl
                   ltac:(cbn in Hfuel; lia))).
    reflexivity.
Qed.

(** The position worker hands the queued events to the event manager
    oldest first and leaves the queue empty; a budget of one round more
    than there are events is enough. *)
Theorem position_worker_publishes_in_order (w : world) (fuel : nat) :
  (length (peripheral_event_msgq w) < fuel)%nat ->
  peripheral_event_work_callback fuel w =
  Some (peripheral_event_msgq w, set_peripheral_event_msgq [] w).
Proof. intros Hfuel. apply position_worker_run; [reflexivity|exact Hfuel]. Qed.

Lemma position_worker_publishes_in_order_witness :
  peripheral_event_work_callback 3
    (set_peripheral_event_msgq
       [{| ev_source := 0; ev_position := 4; ev_state := true;
           ev_timestamp := 7 |};
        {| ev_source := 0; ev_position := 4; ev_state := false;
           ev_timestamp := 9 |}] idle_world) =
  Some ([{| ev_source := 0; ev_position := 4; ev_state := true;
            ev_timestamp := 7 |};
         {| ev_source := 0; ev_position := 4; ev_state := false;
            ev_timestamp := 9 |}], set_peripheral_event_msgq [] idle_world).
Proof.
  apply (position_worker_publishes_in_order
           (set_peripheral_event_msgq
              [{| ev_source := 0; ev_position := 4; ev_state := true;
                  ev_timestamp := 7 |};
               {| ev_source := 0; ev_position := 4; ev_state := false;
                  ev_timestamp := 9 |}] idle_world) 3).
  cbn. lia.
Defined.

(** What the queue keeps of the events raised into it: as many of the
    first as it has room for. *)
Lemma raise_positions_keeps (cfg : config)
    (evs : list zmk_position_state_changed) (w : world) :
  peripheral_event_msgq (raise_positions cfg w evs) =
  peripheral_event_msgq w ++
  take (CONFIG_ZMK_SPLIT_BLE_CENTRAL_POSITION_QUEUE_SIZE cfg -
        length (peripheral_event_msgq w)) evs.
Proof.
  unfold raise_positions. revert w.
  induction evs as [|e evs IH]; intros w; cbn [fold_left].
  - rewrite take_nil, app_nil_r. reflexivity.
  - rewrite IH. unfold raise_position, msgq_put.
    cbn [peripheral_event_msgq set_calls set_peripheral_event_msgq].
    destruct (decide _) as [Hlt|Hge]; cbn [snd].
    + rewrite length_app. cbn [length].
      replace (CONFIG_ZMK_SPLIT_BLE_CENTRAL_POSITION_QUEUE_SIZE cfg -
               length (peripheral_event_msgq w))%nat
        with (S (CONFIG_ZMK_SPLIT_BLE_CENTRAL_POSITION_QUEUE_SIZE cfg -
                 (length (peripheral_event_msgq w) + 1))) by lia.
      cbn [take]. rewrite <- app_assoc. reflexivity.
    + replace (CONFIG_ZMK_SPLIT_BLE_CENTRAL_POSITION_QUEUE_SIZE cfg -
               length (peripheral_event_msgq w))%nat with 0%nat by lia.
      rewrite !take_0. reflexivity.
Qed.

(** A snapshot never blocks on the position queue and never displaces what
    is queued: the queue keeps its events and gains the first of the new
    ones up to its capacity; the later ones are lost. *)
Theorem position_queue_drops_the_newest (cfg : config) (w : world) (c : Z)
    (params : subscribe_params_ptr) (slot : nat) (s : peripheral_slot)
    (b : list Z) :
  wf_world cfg w ->
  slot_of_conn w c slot ->
  peripherals w !! slot = Some s ->
  length b = POSITION_STATE_DATA_LEN ->
  exists w',
    split_central_notify_func cfg c params (Some b) 16 w =
      Some (BT_GATT_ITER_CONTINUE, w') /\
    peripheral_event_msgq w' =
      peripheral_event_msgq w ++
      take (CONFIG_ZMK_SPLIT_BLE_CENTRAL_POSITION_QUEUE_SIZE cfg -
            length (peripheral_event_msgq w))
           (position_events (to_uint8 (Z.of_nat slot)) (k_uptime w)
              (position_state s) b) /\
    (length (peripheral_event_msgq w) <=
     CONFIG_ZMK_SPLIT_BLE_CENTRAL_POSITION_QUEUE_SIZE cfg ->
     length (peripheral_event_msgq w') <=
     CONFIG_ZMK_SPLIT_BLE_CENTRAL_POSITION_QUEUE_SIZE cfg)%nat.
Proof.
  intros [Hlen [Hall _]] Hslot Hs Hb.
  assert (Hwf : wf_slot s) by exact (Forall_lookup_1 _ _ _ _ Hall Hs).
  pose proof (notify_run cfg w c params slot s b 16 Hlen Hslot Hs Hwf
                ltac:(lia)) as Hrun.
  rewrite (take_ge b) in Hrun by lia.
  eexists. split; [exact Hrun|].
  rewrite raise_positions_keeps.
  change (peripheral_event_msgq (set_peripherals ?p w))
    with (peripheral_event_msgq w).
  split; [reflexivity|].
  intros Hcap. rewrite length_app, length_take. lia.
Qed.

Lemma position_queue_drops_the_newest_witness :
  exists w',
    split_central_notify_func example_cfg 7 (ptr_subscribe_params 0)
      (Some bit0) 16 idle_world = Some (BT_GATT_ITER_CONTINUE, w') /\
    peripheral_event_msgq w' =
      peripheral_event_msgq idle_world ++
      take (CONFIG_ZMK_SPLIT_BLE_CENTRAL_POSITION_QUEUE_SIZE example_cfg -
            length (peripheral_event_msgq idle_world))
           (position_events (to_uint8 (Z.of_nat 0)) (k_uptime idle_world)
              (position_state (connected_slot 7 (replicate 16 0))) bit0) /\
    (length (peripheral_event_msgq idle_world) <=
     CONFIG_ZMK_SPLIT_BLE_CENTRAL_POSITION_QUEUE_SIZE example_cfg ->
     length (peripheral_event_msgq w') <=
     CONFIG_ZMK_SPLIT_BLE_CENTRAL_POSITION_QUEUE_SIZE example_cfg)%nat.
Proof.
  apply (position_queue_drops_the_newest example_cfg idle_world 7
           (ptr_subscribe_params 0) 0 (connected_slot 7 (replicate 16 0))
           bit0).
  - exact idle_world_wf.
  - exact idle_world_slot_of_conn.
  - reflexivity.
  - reflexivity.
Defined.

(** From the radio to the event manager: when the position queue has room,
    a snapshot followed by a run of the worker hands the event manager what
    was queued before and then exactly the changes of the snapshot, in
    order of position. *)
Theorem changes_reach_the_event_manager (cfg : config) (w : world) (c : Z)
    (params : subscribe_params_ptr) (slot : nat) (s : peripheral_slot)
    (b : list Z) (fuel : nat) :
  wf_world cfg w ->
  slot_of_conn w c slot ->
  peripherals w !! slot = Some s ->
  length b = POSITION_STATE_DATA_LEN ->
  (length (peripheral_event_msgq w) +
   length (position_events (to_uint8 (Z.of_nat slot)) (k_uptime w)
             (position_state s) b) <=
   CONFIG_ZMK_SPLIT_BLE_CENTRAL_POSITION_QUEUE_SIZE cfg)%nat ->
  (CONFIG_ZMK_SPLIT_BLE_CENTRAL_POSITION_QUEUE_SIZE cfg < fuel)%nat ->
  exists w1 w2,
    split_central_notify_func cfg c params (Some b) 16 w =
      Some (BT_GATT_ITER_CONTINUE, w1) /\
    peripheral_event_work_callback fuel w1 =
      Some (peripheral_event_msgq w ++
            position_events (to_uint8 (Z.of_nat slot)) (k_uptime w)
              (position_state s) b, w2) /\
    peripheral_event_msgq w2 = [].
Proof.
  intros [Hlen [Hall _]] Hslot Hs Hb Hroom Hfuel.
  assert (Hwf : wf_slot s) by exact (Forall_lookup_1 _ _ _ _ Hall Hs).
  pose proof (notify_run cfg w c params slot s b 16 Hlen Hslot Hs Hwf
                ltac:(lia)) as Hrun.
  rewrite (take_ge b) in Hrun by lia.
  eexists _, _. split; [exact Hrun|]. split.
  - apply position_worker_run.
    + rewrite raise_positions_queue; [reflexivity|exact Hroom].
    + rewrite length_app. lia.
  - reflexivity.
Qed.

Lemma changes_reach_the_event_manager_witness :
  exists w1 w2,
    split_central_notify_func example_cfg 7 (ptr_subscribe_params 0)
      (Some bit0) 16 idle_world = Some (BT_GATT_ITER_CONTINUE, w1) /\
    peripheral_event_work_callback 21 w1 =
      Some (peripheral_event_msgq idle_world ++
            position_events (to_uint8 (Z.of_nat 0)) (k_uptime idle_world)
              (position_state (connected_slot 7 (replicate 16 0))) bit0,
            w2) /\
    peripheral_event_msgq w2 = [].
Proof.
  apply (changes_reach_the_event_manager example_cfg idle_world 7
           (ptr_subscribe_params 0) 0 (connected_slot 7 (replicate 16 0))
           bit0 21).
  - exact idle_world_wf.
  - exact idle_world_slot_of_conn.
  - reflexivity.
  - reflexivity.
  - vm_compute. lia.
  - cbn. lia.
Defined.

(** ** Battery levels *)



Lemma battery_worker_run (q : list zmk_peripheral_battery_state_changed) :
  forall (w : world) (fuel : nat),
    peripheral_batt_lvl_msgq w = q ->
    Forall (fun ev => (Z.to_nat (batt_source ev) <
                       length (peripheral_battery_levels w))%nat) q ->
    (length q < fuel)%nat ->
    peripheral_batt_lvl_change_callback fuel w =
    Some (q, set_peripheral_battery_levels
               (stored_levels (peripheral_battery_levels w) q)
               (set_peripheral_batt_lvl_msgq [] w)).
Proof.
  induction q as [|ev q IH]; intros w fuel Hq Hin Hfuel;
    (destruct fuel as [|fuel]; [cbn in Hfuel; lia|]);
    cbn [peripheral_batt_lvl_change_callback];
    unfold bind at 1, gets at 1; rewrite Hq; cbn [msgq_get].
  - destruct w; cbn in Hq; subst. reflexivity.
  - apply Forall_cons in Hin. destruct Hin as [Hev Hin].
    unfold bind at 1, modify at 1.
    unfold bind at 1, gets at 1.
    cbn [peripheral_battery_levels set_peripheral_batt_lvl_msgq].
    unfold store_byte. destruct (decide _) as [_|Hn]; [|contradiction].
    cbn [of_option]. unfold bind at 1, ret at 1.
    unfold bind at 1, modify at 1.
    set (w1 := set_peripheral_battery_levels _ _).
    rewrite (bind_eq _ _ _ _ _ (IH w1 fuel eq_refl
               ltac:(cbn [peripheral_battery_levels w1
                          set_peripheral_battery_levels];
                     rewrite length_insert; exact Hin)
               ltac:(cbn in Hfuel; lia))).
    reflexivity.
Qed.

(** The battery worker stores the level of every queued event at its
    source, oldest first, hands the events to the event manager in that
    order and leaves the queue empty, when every source lies inside the
    array. *)
Theorem battery_worker_stores_the_levels (w : world) (fuel : nat) :
  Forall (fun ev => (Z.to_nat (batt_source ev) <
                     length (peripheral_battery_levels w))%nat)
         (peripheral_batt_lvl_msgq w) ->
  (length (peripheral_batt_lvl_msgq w) < fuel)%nat ->
  peripheral_batt_lvl_change_callback fuel w =
  Some (peripheral_batt_lvl_msgq w,
        set_peripheral_battery_levels
          (stored_levels (peripheral_battery_levels w)
                         (peripheral_batt_lvl_msgq w))
          (set_peripheral_batt_lvl_msgq [] w)).
Proof. intros Hin Hfuel. apply battery_worker_run; auto. Qed.

Lemma battery_worker_stores_the_levels_witness :
  peripheral_batt_lvl_change_callback 3
    (set_peripheral_batt_lvl_msgq
       [{| batt_source := 0; state_of_charge := 90 |};
        {| batt_source := 1; state_of_charge := 55 |}] idle_world) =
  Some ([{| batt_source := 0; state_of_charge := 90 |};
         {| batt_source := 1; state_of_charge := 55 |}],
        set_peripheral_battery_levels [90; 55]
          (set_peripheral_batt_lvl_msgq [] idle_world)).
Proof.
  apply (battery_worker_stores_the_levels
           (set_peripheral_batt_lvl_msgq
              [{| batt_source := 0; state_of_charge := 90 |};
               {| batt_source := 1; state_of_charge := 55 |}] idle_world) 3).
  - repeat constructor.
  - cbn. lia.
Defined.




(** The disconnect handler does not ask whether the connection has a slot
    before it raises the battery event.  For a connection without one the
    event's source is [-EINVAL] cut to a byte, 234; nothing is released and
    the scanner is not touched.  When the worker takes this event from the
    queue, its store at [peripheral_battery_levels[234]] lies outside the
    array in every build with fewer than 235 peripherals. *)
Theorem disconnect_of_a_connection_without_slot (cfg : config) (bt : bt_host)
    (w : world) (c reason : Z) (fuel : nat) :
  wf_world cfg w ->
  no_slot_of_conn w c ->
  CONFIG_ZMK_SPLIT_BLE_CENTRAL_BATTERY_LEVEL_FETCHING cfg = true ->
  split_central_disconnected cfg bt c reason w =
    Some (tt, raise_battery cfg w
                {| batt_source := 234; state_of_charge := 0 |}) /\
  (peripheral_batt_lvl_msgq w = [] ->
   (0 < CONFIG_ZMK_SPLIT_BLE_CENTRAL_BATTERY_LEVEL_QUEUE_SIZE cfg)%nat ->
   (ZMK_SPLIT_BLE_PERIPHERAL_COUNT cfg <= 234)%nat ->
   peripheral_batt_lvl_change_callback fuel
     (raise_battery cfg w {| batt_source := 234; state_of_charge := 0 |}) =
   None).
Proof.
  intros [Hlen [_ Hlev]] Hno Hbatt.
  assert (Hidx : peripheral_slot_index_for_conn cfg c w = Some (- EINVAL, w))
    by (apply index_for_conn_from_none; [exact Hno|lia]).
  split.
  - unfold split_central_disconnected. rewrite Hbatt.
    assert (Hb : (src <- peripheral_slot_index_for_conn cfg c ;;
                  put_batt_lvl_event cfg
                    {| batt_source := to_uint8 src; state_of_charge := 0 |} ;;
                  extern (k_work_submit peripheral_batt_lvl_work)) w =
                 Some (tt, raise_battery cfg w
                             {| batt_source := 234; state_of_charge := 0 |})).
    { rewrite (bind_eq _ _ _ _ _ Hidx). apply put_batt_lvl_event_eq. }
    rewrite (bind_eq _ _ _ _ _ Hb).
    assert (Hrel : release_peripheral_slot_for_conn cfg c
                     (raise_battery cfg w
                        {| batt_source := 234; state_of_charge := 0 |}) =
                   Some (- EINVAL,
                         raise_battery cfg w
                           {| batt_source := 234; state_of_charge := 0 |})).
    { unfold release_peripheral_slot_for_conn.
      assert (Hidx' : peripheral_slot_index_for_conn cfg c
                        (raise_battery cfg w
                           {| batt_source := 234; state_of_charge := 0 |}) =
                      Some (- EINVAL,
                            raise_battery cfg w
                              {| batt_source := 234; state_of_charge := 0 |})).
      { apply index_for_conn_from_none; [exact Hno|].
        change (peripherals (raise_battery cfg w ?e)) with (peripherals w).
        lia. }
      rewrite (bind_eq _ _ _ _ _ Hidx'). reflexivity. }
    rewrite (bind_eq _ _ _ _ _ Hrel). reflexivity.
  - intros Hq Hcap Hcount. destruct fuel as [|fuel]; [reflexivity|].
    cbn [peripheral_batt_lvl_change_callback].
    unfold bind at 1, gets at 1.
    unfold raise_battery at 1, msgq_put.
    cbn [peripheral_batt_lvl_msgq set_calls set_peripheral_batt_lvl_msgq].
    rewrite Hq. destruct (decide _) as [_|Hn]; [|cbn in Hn; lia].
    cbn [snd app msgq_get].
    unfold bind at 1, modify at 1. unfold bind at 1, gets at 1.
    cbn [peripheral_battery_levels set_peripheral_batt_lvl_msgq raise_battery
         set_calls batt_source].
    unfold store_byte.
    destruct (decide _) as [Hin|_]; [|reflexivity].
    exfalso. rewrite Hlev in Hin. change (Z.to_nat 234) with 234%nat in Hin.
    lia.
Qed.

Lemma disconnect_of_a_connection_without_slot_witness :
  split_central_disconnected example_cfg (example_host 2 0) 99 19 idle_world =
    Some (tt, raise_battery example_cfg idle_world
                {| batt_source := 234; state_of_charge := 0 |}) /\
  peripheral_batt_lvl_change_callback 5
    (raise_battery example_cfg idle_world
       {| batt_source := 234; state_of_charge := 0 |}) = None.
Proof.
  assert (Hno : no_slot_of_conn idle_world 99).
  { intros [|[|k]] s Hs; [injection Hs as <-; discriminate
                         |injection Hs as <-; discriminate|discriminate Hs]. }
  destruct (disconnect_of_a_connection_without_slot example_cfg
              (example_host 2 0) idle_world 99 19 5 idle_world_wf Hno eq_refl)
    as [Hrun Hworker].
  split; [exact Hrun|].
  apply Hworker; [reflexivity|cbn; lia|cbn; lia].
Defined.

(** ** The outbound queue and its worker *)

(** Whatever the outbound queue holds, an invocation ends with the command
    queued last and the worker submitted once: with room the command is
    appended, on a full queue the oldest command makes way for it.  The
    queue never grows past its capacity. *)
Theorem invoke_always_enqueues (cfg : config) (w : world) (fuel : nat)
    (payload_wrapper : zmk_split_run_behavior_payload_wrapper) :
  (1 <= CONFIG_ZMK_SPLIT_BLE_CENTRAL_SPLIT_RUN_QUEUE_SIZE cfg)%nat ->
  (length (zmk_split_central_split_run_msgq w) <=
   CONFIG_ZMK_SPLIT_BLE_CENTRAL_SPLIT_RUN_QUEUE_SIZE cfg)%nat ->
  (2 <= fuel)%nat ->
  exists w',
    split_bt_invoke_behavior_payload cfg fuel payload_wrapper w =
      Some (0, w') /\
    zmk_split_central_split_run_msgq w' =
      (if decide (length (zmk_split_central_split_run_msgq w) <
                  CONFIG_ZMK_SPLIT_BLE_CENTRAL_SPLIT_RUN_QUEUE_SIZE cfg)%nat
       then zmk_split_central_split_run_msgq w
       else tail (zmk_split_central_split_run_msgq w)) ++ [payload_wrapper] /\
    (length (zmk_split_central_split_run_msgq w') <=
     CONFIG_ZMK_SPLIT_BLE_CENTRAL_SPLIT_RUN_QUEUE_SIZE cfg)%nat /\
    calls w' =
      calls w ++
      (if decide (length (zmk_split_central_split_run_msgq w) <
                  CONFIG_ZMK_SPLIT_BLE_CENTRAL_SPLIT_RUN_QUEUE_SIZE cfg)%nat
       then [k_msgq_put_split_run payload_wrapper;
             k_work_submit_to_queue split_central_split_run_work]
       else [k_msgq_put_split_run payload_wrapper;
             k_msgq_get_split_run;
             k_msgq_put_split_run payload_wrapper;
             k_work_submit_to_queue split_central_split_run_work]).
Proof.
  intros Hcap Hlen Hfuel.
  destruct fuel as [|[|fuel]]; [lia|lia|].
  destruct (decide _) as [Hroom|Hfull].
  - cbn [split_bt_invoke_behavior_payload].
    erewrite bind_eq by (apply (put_split_run_room cfg _ _ _ eq_refl Hroom)).
    change (0 =? 0) with true. cbn [negb].
    eexists. split; [reflexivity|].
    cbn [zmk_split_central_split_run_msgq calls set_calls
         set_zmk_split_central_split_run_msgq].
    split; [reflexivity|]. split; [rewrite length_app; cbn [length]; lia|].
    rewrite <- app_assoc. reflexivity.
  - destruct (zmk_split_central_split_run_msgq w) as [|oldest pending] eqn:Hq;
      [cbn [length] in Hfull; lia|].
    cbn [length] in Hfull, Hlen.
    cbn [split_bt_invoke_behavior_payload].
    erewrite bind_eq
      by (apply (put_split_run_full cfg _ _ (oldest :: pending) Hq);
          cbn [length]; lia).
    change (- EAGAIN =? 0) with false.
    change (- EAGAIN =? - EAGAIN) with true. cbn [negb].
    rewrite (bind_eq (log LOG_LEVEL_WRN) _ _ _ tt eq_refl).
    erewrite bind_eq by (apply (get_split_run_eq _ oldest pending); exact Hq).
    erewrite bind_eq
      by (apply (put_split_run_room cfg _ _ pending); [reflexivity|cbn; lia]).
    change (0 =? 0) with true. cbn [negb].
    eexists. split; [reflexivity|].
    cbn [zmk_split_central_split_run_msgq calls set_calls tail
         set_zmk_split_central_split_run_msgq set_logged].
    split; [reflexivity|]. split; [rewrite length_app; cbn [length]; lia|].
    rewrite <- !app_assoc. reflexivity.
Qed.

Lemma invoke_always_enqueues_witness :
  exists w',
    split_bt_invoke_behavior_payload example_cfg 2
      {| wrapper_source := 0; payload := [3] |} idle_world = Some (0, w') /\
    zmk_split_central_split_run_msgq w' =
      (if decide (length (zmk_split_central_split_run_msgq idle_world) <
                  CONFIG_ZMK_SPLIT_BLE_CENTRAL_SPLIT_RUN_QUEUE_SIZE
                    example_cfg)%nat
       then zmk_split_central_split_run_msgq idle_world
       else tail (zmk_split_central_split_run_msgq idle_world)) ++
      [{| wrapper_source := 0; payload := [3] |}] /\
    (length (zmk_split_central_split_run_msgq w') <=
     CONFIG_ZMK_SPLIT_BLE_CENTRAL_SPLIT_RUN_QUEUE_SIZE example_cfg)%nat /\
    calls w' =
      calls idle_world ++
      (if decide (length (zmk_split_central_split_run_msgq idle_world) <
                  CONFIG_ZMK_SPLIT_BLE_CENTRAL_SPLIT_RUN_QUEUE_SIZE
                    example_cfg)%nat
       then [k_msgq_put_split_run {| wrapper_source := 0; payload := [3] |};
             k_work_submit_to_queue split_central_split_run_work]
       else [k_msgq_put_split_run {| wrapper_source := 0; payload := [3] |};
             k_msgq_get_split_run;
             k_msgq_put_split_run {| wrapper_source := 0; payload := [3] |};
             k_work_submit_to_queue split_central_split_run_work]).
Proof.
  apply (invoke_always_enqueues example_cfg idle_world 2
           {| wrapper_source := 0; payload := [3] |}); cbn; lia.
Defined.

(** One command of the outbound worker: the slot it names is looked up and
    written to, or the command is skipped with an error. *)
Lemma run_command_eq (bt : bt_host) (w : world)
    (pw : zmk_split_run_behavior_payload_wrapper) (s : peripheral_slot)
    (k : M unit) :
  peripherals w !! Z.to_nat (wrapper_source pw) = Some s ->
  exists w1,
    (s <- load_slot (Z.to_nat (wrapper_source pw)) ;;
     (if negb (bool_decide (state s = PERIPHERAL_SLOT_STATE_CONNECTED))
      then log LOG_LEVEL_ERR
      else if run_behavior_handle s =? 0 then log LOG_LEVEL_ERR
      else
        err <- gatt_write_without_response bt (conn s)
                 (run_behavior_handle s) (run_behavior_value (payload pw)) ;;
        if negb (err =? 0) then log LOG_LEVEL_ERR else ret tt) ;;
     k) w = k w1 /\
    peripherals w1 = peripherals w /\
    zmk_split_central_split_run_msgq w1 = zmk_split_central_split_run_msgq w /\
    calls w1 = calls w ++ run_write (peripherals w) pw.
Proof.
  intros Hs. rewrite (bind_eq _ _ _ _ _ (load_slot_eq _ _ _ Hs)).
  unfold run_write. rewrite Hs.
  destruct (bool_decide _); cbn [negb andb].
  - destruct (_ =? 0); cbn [negb].
    + eexists. split; [reflexivity|]. cbn. rewrite app_nil_r. auto.
    + unfold gatt_write_without_response, bind, extern, modify, ret, log.
      destruct (_ =? 0); cbn [negb]; eexists; (split; [reflexivity|]);
        cbn; auto.
  - eexists. split; [reflexivity|]. cbn. rewrite app_nil_r. auto.
Qed.

Lemma run_worker_run (bt : bt_host) (ps : list peripheral_slot)
    (q : list zmk_split_run_behavior_payload_wrapper) :
  forall (w : world) (fuel : nat),
    zmk_split_central_split_run_msgq w = q ->
    peripherals w = ps ->
    Forall (fun pw => (Z.to_nat (wrapper_source pw) < length ps)%nat) q ->
    (length q < fuel)%nat ->
    exists w',
      split_central_split_run_callback bt fuel w = Some (tt, w') /\
      zmk_split_central_split_run_msgq w' = [] /\
      peripherals w' = ps /\
      calls w' = calls w ++ run_worker_calls ps q.
Proof.
  induction q as [|pw q IH]; intros w fuel Hq Hps Hin Hfuel;
    (destruct fuel as [|fuel]; [cbn in Hfuel; lia|]);
    cbn [split_central_split_run_callback].
  - unfold get_split_run, bind, extern, gets, modify, ret.
    cbn [zmk_split_central_split_run_msgq set_calls]. rewrite Hq.
    cbn [msgq_get]. eexists. split; [reflexivity|]. cbn. auto.
  - apply Forall_cons in Hin. destruct Hin as [Hpw Hin].
    rewrite (bind_eq _ _ _ _ _ (get_split_run_eq _ pw q Hq)).
    set (w0 := set_zmk_split_central_split_run_msgq q _).
    destruct (lookup_lt_is_Some_2 ps _ Hpw) as [s Hs].
    destruct (run_command_eq bt w0 pw s
                (split_central_split_run_callback bt fuel))
      as [w1 [Hrun [Hp1 [Hq1 Hc1]]]].
    { unfold w0. cbn [peripherals set_zmk_split_central_split_run_msgq
                      set_calls]. rewrite Hps. exact Hs. }
    rewrite Hrun.
    destruct (IH w1 fuel) as [w' [Hrun' [Hq' [Hp' Hc']]]].
    + rewrite Hq1. reflexivity.
    + rewrite Hp1. exact Hps.
    + exact Hin.
    + cbn in Hfuel. lia.
    + exists w'. split; [exact Hrun'|]. split; [exact Hq'|].
      split; [exact Hp'|].
      rewrite Hc', Hc1. unfold w0, run_worker_calls.
      cbn [calls set_zmk_split_central_split_run_msgq set_calls peripherals
           flat_map].
      rewrite Hps, <- !app_assoc. reflexivity.
Qed.

(** The outbound worker empties the queue, oldest command first.  A command
    is written to the run-behavior handle of the slot it names when that
    slot is Connected and the handle is resolved, and is skipped otherwise;
    these are all the writes the run makes, and the table is as before. *)
Theorem run_worker_writes_the_commands (bt : bt_host) (w : world)
    (fuel : nat) :
  Forall (fun pw => (Z.to_nat (wrapper_source pw) <
                     length (peripherals w))%nat)
         (zmk_split_central_split_run_msgq w) ->
  (length (zmk_split_central_split_run_msgq w) < fuel)%nat ->
  exists w',
    split_central_split_run_callback bt fuel w = Some (tt, w') /\
    zmk_split_central_split_run_msgq w' = [] /\
    peripherals w' = peripherals w /\
    calls w' =
      calls w ++
      run_worker_calls (peripherals w) (zmk_split_central_split_run_msgq w).
Proof. intros Hin Hfuel. apply run_worker_run; auto. Qed.

Lemma run_worker_writes_the_commands_witness :
  exists w',
    split_central_split_run_callback (example_host 2 0) 3
      (set_zmk_split_central_split_run_msgq
         [{| wrapper_source := 0; payload := [1] |};
          {| wrapper_source := 1; payload := [2] |}] idle_world) =
      Some (tt, w') /\
    zmk_split_central_split_run_msgq w' = [] /\
    peripherals w' = peripherals idle_world /\
    calls w' =
      [k_msgq_get_split_run;
       bt_gatt_write_without_response 7 24 (run_behavior_value [1]);
       k_msgq_get_split_run;
       k_msgq_get_split_run].
Proof.
  destruct (run_worker_writes_the_commands (example_host 2 0)
              (set_zmk_split_central_split_run_msgq
                 [{| wrapper_source := 0; payload := [1] |};
                  {| wrapper_source := 1; payload := [2] |}] idle_world) 3)
    as [w' [Hrun [Hq [Hp Hc]]]].
  - repeat constructor.
  - cbn. lia.
  - exists w'. split; [exact Hrun|]. split; [exact Hq|]. split; [exact Hp|].
    rewrite Hc. vm_compute. reflexivity.
Defined.

(** The worker indexes the table with the source of a command as it finds
    it in the queue: a command whose source is not a slot of the table makes
    the worker read outside the table. *)
Theorem run_worker_trusts_the_source (bt : bt_host) (w : world) (fuel : nat)
    (pw : zmk_split_run_behavior_payload_wrapper)
    (q : list zmk_split_run_behavior_payload_wrapper) :
  zmk_split_central_split_run_msgq w = pw :: q ->
  (length (peripherals w) <= Z.to_nat (wrapper_source pw))%nat ->
  split_central_split_run_callback bt fuel w = None.
Proof.
  intros Hq Hsrc. destruct fuel as [|fuel]; [reflexivity|].
  cbn [split_central_split_run_callback].
  rewrite (bind_eq _ _ _ _ _ (get_split_run_eq _ pw q Hq)).
  unfold bind at 1, load_slot, bind, gets.
  cbn [peripherals set_zmk_split_central_split_run_msgq set_calls].
  rewrite (lookup_ge_None_2 _ _ Hsrc). reflexivity.
Qed.

Lemma run_worker_trusts_the_source_witness :
  split_central_split_run_callback (example_host 2 0) 3
    (set_zmk_split_central_split_run_msgq
       [{| wrapper_source := 2; payload := [1] |}] idle_world) = None.
Proof.
  apply (run_worker_trusts_the_source (example_host 2 0) _ 3
           {| wrapper_source := 2; payload := [1] |} []).
  - reflexivity.
  - cbn. lia.
Defined.

(** ** The layers and indicators broadcasts *)

(** A collecting loop over the table whose every round only calls out and
    logs, depending on the slot it visits. *)
Lemma for_each_collect_slot_calls {B} (body : nat -> M (list B))
    (os : peripheral_slot -> list B)
    (cs : peripheral_slot -> list call) (ls : peripheral_slot -> list log_level)
    (table pre ps : list peripheral_slot) (w : world) :
  (forall i s w', peripherals w' = table -> table !! i = Some s ->
     body i w' = Some (os s, logged_calls (cs s) (ls s) w')) ->
  table = pre ++ ps ->
  peripherals w = table ->
  for_each_collect (seq (length pre) (length ps)) body w =
  Some (flat_map os ps, logged_calls (flat_map cs ps) (flat_map ls ps) w).
Proof.
  intros Hbody. revert pre w.
  induction ps as [|s ps IH]; intros pre w Htable Hw.
  - cbn. rewrite logged_calls_nil. reflexivity.
  - cbn [length seq for_each_collect flat_map].
    assert (Hs : table !! length pre = Some s)
      by (rewrite Htable; apply list_lookup_middle; reflexivity).
    rewrite (bind_eq _ _ _ _ _ (Hbody _ _ _ Hw Hs)).
    replace (S (length pre)) with (length (pre ++ [s]))
      by (rewrite length_app; cbn; lia).
    rewrite (bind_eq _ _ _ _ _ (IH (pre ++ [s]) _
               ltac:(rewrite Htable, <- app_assoc; reflexivity)
               ltac:(rewrite peripherals_logged_calls; exact Hw))).
    rewrite logged_calls_app. reflexivity.
Qed.

(** A layers update followed by its worker: the new mask is written to
    every Connected slot whose layers handle is resolved, in table order,
    whatever mask was stored before; a layer-changed event is raised once
    for each write the host accepted, not once for the update. *)
Theorem layers_update_reaches_the_peripherals (cfg : config) (bt : bt_host)
    (w : world) (new_layers submitted : Z) :
  length (peripherals w) = ZMK_SPLIT_BLE_PERIPHERAL_COUNT cfg ->
  exists w',
    (zmk_split_bt_update_layers new_layers submitted ;;
     split_central_update_layers_callback cfg bt) w =
      Some (flat_map (layers_raised bt new_layers) (peripherals w), w') /\
    layers_for_peripheral w' = new_layers /\
    peripherals w' = peripherals w /\
    calls w' =
      calls w ++
      k_work_submit_to_queue split_central_update_layers ::
      flat_map (layers_write new_layers) (peripherals w).
Proof.
  intros Hlen.
  set (w1 := set_calls
               (calls w ++ [k_work_submit_to_queue split_central_update_layers])
               (set_layers_for_peripheral new_layers w)).
  rewrite (bind_eq (zmk_split_bt_update_layers new_layers submitted) _
             w w1 submitted eq_refl).
  unfold split_central_update_layers_callback.
  rewrite (bind_eq _ _ w1 w1 new_layers eq_refl).
  rewrite <- Hlen.
  erewrite (for_each_collect_slot_calls _ (layers_raised bt new_layers)
              (layers_write new_layers) (layers_write_log bt)
              (peripherals w) [] (peripherals w) w1);
    [|intros i s w' Hw' Hs|reflexivity|reflexivity].
  - eexists. split; [reflexivity|]. split; [reflexivity|].
    split; [reflexivity|]. rewrite calls_logged_calls. unfold w1.
    cbn [calls set_calls]. rewrite <- app_assoc. reflexivity.
  - rewrite <- Hw' in Hs.
    rewrite (bind_eq _ _ _ _ _ (load_slot_eq _ _ _ Hs)).
    unfold layers_raised, layers_write, layers_write_log.
    destruct (bool_decide _); cbn [negb andb];
      [|rewrite logged_calls_nil; reflexivity].
    destruct (update_layers_handle s =? 0); cbn [negb andb];
      [rewrite logged_calls_nil; reflexivity|].
    unfold gatt_write_without_response, bind, extern, modify, ret, log.
    destruct (_ =? 0); cbn [negb]; [|reflexivity].
    unfold logged_calls. cbn. rewrite app_nil_r. destruct w'; reflexivity.
Qed.

Lemma layers_update_reaches_the_peripherals_witness :
  exists w',
    (zmk_split_bt_update_layers 5 0 ;;
     split_central_update_layers_callback example_cfg (example_host 2 0))
      idle_world =
      Some (flat_map (layers_raised (example_host 2 0) 5)
              (peripherals idle_world), w') /\
    layers_for_peripheral w' = 5 /\
    peripherals w' = peripherals idle_world /\
    calls w' =
      calls idle_world ++
      k_work_submit_to_queue split_central_update_layers ::
      flat_map (layers_write 5) (peripherals idle_world).
Proof.
  apply (layers_update_reaches_the_peripherals example_cfg (example_host 2 0)
           idle_world 5 0).
  reflexivity.
Defined.

(** An indicators update followed by its worker: the new indicators are
    written to every Connected slot whose indicators handle is resolved, in
    table order, whatever was stored before. *)
Theorem indicators_update_reaches_the_peripherals (cfg : config)
    (bt : bt_host) (w : world) (indicators submitted : Z) :
  length (peripherals w) = ZMK_SPLIT_BLE_PERIPHERAL_COUNT cfg ->
  exists w',
    (zmk_split_bt_update_hid_indicator indicators submitted ;;
     split_central_update_indicators_callback cfg bt) w = Some (tt, w') /\
    hid_indicators w' = indicators /\
    peripherals w' = peripherals w /\
    calls w' =
      calls w ++
      k_work_submit_to_queue split_central_update_indicators ::
      flat_map (indicators_write indicators) (peripherals w).
Proof.
  intros Hlen.
  set (w1 := set_calls
               (calls w ++
                [k_work_submit_to_queue split_central_update_indicators])
               (set_hid_indicators indicators w)).
  rewrite (bind_eq (zmk_split_bt_update_hid_indicator indicators submitted) _
             w w1 submitted eq_refl).
  unfold split_central_update_indicators_callback, for_range.
  rewrite (bind_eq _ _ w1 w1 indicators eq_refl).
  rewrite <- Hlen.
  erewrite (for_each_slot_calls _ (indicators_write indicators)
              (indicators_write_log bt)
              (peripherals w) [] (peripherals w) w1);
    [|intros i s w' Hw' Hs|reflexivity|reflexivity].
  - eexists. split; [reflexivity|]. split; [reflexivity|].
    split; [reflexivity|]. rewrite calls_logged_calls. unfold w1.
    cbn [calls set_calls]. rewrite <- app_assoc. reflexivity.
  - rewrite <- Hw' in Hs.
    rewrite (bind_eq _ _ _ _ _ (load_slot_eq _ _ _ Hs)).
    unfold indicators_write, indicators_write_log.
    destruct (bool_decide _); cbn [negb andb];
      [|rewrite logged_calls_nil; reflexivity].
    destruct (update_hid_indicators s =? 0); cbn [negb andb];
      [rewrite logged_calls_nil; reflexivity|].
    unfold gatt_write_without_response, bind, extern, modify, ret, log.
    destruct (_ =? 0); cbn [negb]; [|reflexivity].
    unfold logged_calls. cbn. rewrite app_nil_r. destruct w'; reflexivity.
Qed.

Lemma indicators_update_reaches_the_peripherals_witness :
  exists w',
    (zmk_split_bt_update_hid_indicator 2 0 ;;
     split_central_update_indicators_callback example_cfg (example_host 2 0))
      idle_world = Some (tt, w') /\
    hid_indicators w' = 2 /\
    peripherals w' = peripherals idle_world /\
    calls w' =
      calls idle_world ++
      k_work_submit_to_queue split_central_update_indicators ::
      flat_map (indicators_write 2) (peripherals idle_world).
Proof.
  apply (indicators_update_reaches_the_peripherals example_cfg
           (example_host 2 0) idle_world 2 0).
  reflexivity.
Defined.

(** ** Scanning *)

Lemma has_unconnected_from_eq (w : world) (ps : list peripheral_slot) :
  forall pre, peripherals w = pre ++ ps ->
  has_unconnected_from (length pre) (length ps) w =
  Some (has_unconnected ps, w).
Proof.
  induction ps as [|s ps IH]; intros pre Hw; [reflexivity|].
  cbn [length has_unconnected_from has_unconnected existsb].
  assert (Hs : peripherals w !! length pre = Some s)
    by (rewrite Hw; apply list_lookup_middle; reflexivity).
  rewrite (bind_eq _ _ _ _ _ (load_slot_eq _ _ _ Hs)).
  destruct (conn s =? NULL); [reflexivity|]. cbn [orb].
  replace (S (length pre)) with (length (pre ++ [s]))
    by (rewrite length_app; cbn; lia).
  apply IH. rewrite Hw, <- app_assoc. reflexivity.
Qed.

Lemma start_scanning_eq (cfg : config) (bt : bt_host) (w : world) :
  length (peripherals w) = CONFIG_ZMK_SPLIT_BLE_CENTRAL_PERIPHERALS cfg ->
  start_scanning cfg bt w =
  if is_scanning w || negb (has_unconnected (peripherals w))
  then Some (0, w)
  else Some (Z.min 0 (bt_le_scan_start_ret bt), scan_started bt w).
Proof.
  intros Hlen. unfold start_scanning.
  rewrite (bind_eq _ _ w w (is_scanning w) eq_refl).
  destruct (is_scanning w); [reflexivity|]. cbn [orb].
  rewrite <- Hlen.
  rewrite (bind_eq _ _ _ _ _ (has_unconnected_from_eq w (peripherals w) []
                                eq_refl)).
  destruct (has_unconnected (peripherals w)); [|reflexivity]. cbn [negb].
  unfold scan_started, bind, modify, extern, ret, log.
  destruct (Z.ltb_spec (bt_le_scan_start_ret bt) 0).
  - rewrite Z.min_r by lia. reflexivity.
  - rewrite Z.min_l by lia. reflexivity.
Qed.

(** [start_scanning] asks the host to scan exactly when the scanning flag is
    off and some slot of the table has no connection; it then sets the flag
    and returns the host's error, if any.  In every other case it returns 0
    and changes nothing. *)
Theorem scanning_starts_when_a_slot_is_unconnected (cfg : config)
    (bt : bt_host) (w : world) :
  length (peripherals w) = CONFIG_ZMK_SPLIT_BLE_CENTRAL_PERIPHERALS cfg ->
  exists r w',
    start_scanning cfg bt w = Some (r, w') /\
    peripherals w' = peripherals w /\
    if negb (is_scanning w) && has_unconnected (peripherals w)
    then is_scanning w' = true /\
         calls w' = calls w ++ [bt_le_scan_start] /\
         r = Z.min 0 (bt_le_scan_start_ret bt)
    else w' = w /\ r = 0.
Proof.
  intros Hlen. rewrite (start_scanning_eq cfg bt w Hlen).
  destruct (is_scanning w); cbn [orb negb andb].
  - exists 0, w. repeat split.
  - destruct (has_unconnected (peripherals w)); cbn [negb].
    + eexists _, _. split; [reflexivity|]. unfold scan_started.
      destruct (_ <? 0); repeat split.
    + exists 0, w. repeat split.
Qed.

Lemma scanning_starts_when_a_slot_is_unconnected_witness :
  exists r w',
    start_scanning example_cfg (example_host 2 0) idle_world = Some (r, w') /\
    peripherals w' = peripherals idle_world /\
    is_scanning w' = true /\
    calls w' = [bt_le_scan_start] /\
    r = 0.
Proof.
  destruct (scanning_starts_when_a_slot_is_unconnected example_cfg
              (example_host 2 0) idle_world eq_refl)
    as [r [w' [Hrun [Hp Hrest]]]].
  exists r, w'. split; [exact Hrun|]. split; [exact Hp|].
  exact Hrest.
Defined.

(** Once [start_scanning] has run, running it again returns 0 and changes
    nothing.  This holds also after a run in which the host refused to
    scan: the flag was set before the host was asked and is not taken back,
    so the refused start is not tried again. *)
Theorem a_refused_scan_is_not_retried (cfg : config) (bt : bt_host)
    (w w' : world) (r : Z) :
  length (peripherals w) = CONFIG_ZMK_SPLIT_BLE_CENTRAL_PERIPHERALS cfg ->
  start_scanning cfg bt w = Some (r, w') ->
  start_scanning cfg bt w' = Some (0, w') /\
  (r < 0 -> is_scanning w' = true).
Proof.
  intros Hlen Hrun. rewrite (start_scanning_eq cfg bt w Hlen) in Hrun.
  destruct (is_scanning w || negb (has_unconnected (peripherals w)))
    eqn:Hidle; injection Hrun as <- <-.
  - split; [|lia]. rewrite (start_scanning_eq cfg bt w Hlen), Hidle.
    reflexivity.
  - assert (Hsc : is_scanning (scan_started bt w) = true)
      by (unfold scan_started; destruct (_ <? 0); reflexivity).
    split; [|intros _; exact Hsc].
    rewrite start_scanning_eq, Hsc; [reflexivity|].
    unfold scan_started. destruct (_ <? 0); exact Hlen.
Qed.

Lemma a_refused_scan_is_not_retried_witness :
  start_scanning example_cfg refusing_host idle_world =
    Some (- 5, scan_started refusing_host idle_world) /\
  start_scanning example_cfg refusing_host
    (scan_started refusing_host idle_world) =
    Some (0, scan_started refusing_host idle_world) /\
  is_scanning (scan_started refusing_host idle_world) = true.
Proof.
  assert (Hrun : start_scanning example_cfg refusing_host idle_world =
                 Some (- 5, scan_started refusing_host idle_world))
    by reflexivity.
  split; [exact Hrun|].
  destruct (a_refused_scan_is_not_retried example_cfg refusing_host
              idle_world _ _ eq_refl Hrun) as [Hagain Hflag].
  split; [exact Hagain|]. apply Hflag. reflexivity.
Defined.

(** ** Answering an advertisement *)

Lemma reserve_refused (cfg : config) (bt : bt_host) (w : world) (addr : Z) :
  (zmk_ble_put_peripheral_addr_ret bt addr < 0 \/
   exists s,
     peripherals w !! Z.to_nat (zmk_ble_put_peripheral_addr_ret bt addr) =
       Some s /\
     state s <> PERIPHERAL_SLOT_STATE_OPEN) ->
  reserve_peripheral_slot cfg bt addr w = Some (- ENOMEM, asked addr w).
Proof.
  intros Href. unfold reserve_peripheral_slot.
  rewrite (bind_eq (extern (zmk_ble_put_peripheral_addr addr)) _ w
             (asked addr w) tt eq_refl).
  destruct (Z.geb_spec (zmk_ble_put_peripheral_addr_ret bt addr) 0)
    as [Hge|Hlt]; [|reflexivity].
  destruct Href as [Hneg|[s [Hs Hst]]]; [lia|].
  rewrite (bind_eq _ _ (asked addr w) (asked addr w) s)
    by (apply load_slot_eq; exact Hs).
  rewrite bool_decide_eq_false_2 by exact Hst. reflexivity.
Qed.

Lemma reserve_taken (cfg : config) (bt : bt_host) (w : world) (addr : Z)
    (s : peripheral_slot) :
  0 <= zmk_ble_put_peripheral_addr_ret bt addr ->
  peripherals w !! Z.to_nat (zmk_ble_put_peripheral_addr_ret bt addr) =
    Some s ->
  state s = PERIPHERAL_SLOT_STATE_OPEN ->
  reserve_peripheral_slot cfg bt addr w =
  Some (zmk_ble_put_peripheral_addr_ret bt addr,
        put_slot (Z.to_nat (zmk_ble_put_peripheral_addr_ret bt addr))
          (set_state PERIPHERAL_SLOT_STATE_CONNECTING s) (asked addr w)).
Proof.
  intros Hi Hs Hst. unfold reserve_peripheral_slot.
  rewrite (bind_eq (extern (zmk_ble_put_peripheral_addr addr)) _ w
             (asked addr w) tt eq_refl).
  replace (_ >=? 0) with true by (symmetry; apply Z.geb_le; lia).
  rewrite (bind_eq _ _ (asked addr w) (asked addr w) s)
    by (apply load_slot_eq; exact Hs).
  rewrite bool_decide_eq_true_2 by exact Hst.
  rewrite (bind_eq _ _ (asked addr w) (asked addr w) (- EINVAL))
    by (apply (release_open_slot cfg (asked addr w) _ s); assumption).
  rewrite (bind_eq _ _ _ _ _ (assign_slot_eq _ _ s (asked addr w) Hs)).
  reflexivity.
Qed.

Lemma eir_found_refused (cfg : config) (bt : bt_host) (w : world)
    (addr stopped created new_conn : Z) :
  (zmk_ble_put_peripheral_addr_ret bt addr < 0 \/
   exists s,
     peripherals w !! Z.to_nat (zmk_ble_put_peripheral_addr_ret bt addr) =
       Some s /\
     state s <> PERIPHERAL_SLOT_STATE_OPEN) ->
  split_central_eir_found cfg bt addr stopped created new_conn w =
  Some ((false, []), asked addr w).
Proof.
  intros Href. unfold split_central_eir_found.
  rewrite (bind_eq _ _ _ _ _ (reserve_refused cfg bt w addr Href)).
  reflexivity.
Qed.

Lemma eir_found_reserved (cfg : config) (bt : bt_host) (w : world)
    (addr stopped : Z) (s : peripheral_slot) :
  stop_scanning stopped
    (put_slot (Z.to_nat (zmk_ble_put_peripheral_addr_ret bt addr))
       (set_state PERIPHERAL_SLOT_STATE_CONNECTING s) (asked addr w)) =
  Some (Z.min 0 stopped,
        reserved_and_stopped addr stopped
          (Z.to_nat (zmk_ble_put_peripheral_addr_ret bt addr)) s w).
Proof.
  unfold stop_scanning, reserved_and_stopped, bind, modify, extern, ret, log.
  destruct (Z.ltb_spec stopped 0).
  - rewrite Z.min_r by lia. reflexivity.
  - rewrite Z.min_l by lia. reflexivity.
Qed.

(** When the reservation is refused, the advertisement is dropped before
    scanning is touched: nothing is asked of the host but the identity
    lookup, and the table and the scanning flag are as before. *)
Theorem a_refused_device_does_not_stop_the_scan (cfg : config)
    (bt : bt_host) (w : world) (addr stopped created new_conn : Z) :
  (zmk_ble_put_peripheral_addr_ret bt addr < 0 \/
   exists s,
     peripherals w !! Z.to_nat (zmk_ble_put_peripheral_addr_ret bt addr) =
       Some s /\
     state s <> PERIPHERAL_SLOT_STATE_OPEN) ->
  exists w',
    split_central_eir_found cfg bt addr stopped created new_conn w =
      Some ((false, []), w') /\
    peripherals w' = peripherals w /\
    is_scanning w' = is_scanning w /\
    calls w' = calls w ++ [zmk_ble_put_peripheral_addr addr].
Proof.
  intros Href. exists (asked addr w).
  split; [apply eir_found_refused; exact Href|]. repeat split.
Qed.

Lemma a_refused_device_does_not_stop_the_scan_witness :
  exists w',
    split_central_eir_found example_cfg (example_host 2 0) 99 0 0 8
      (set_is_scanning true idle_world) = Some ((false, []), w') /\
    peripherals w' = peripherals idle_world /\
    is_scanning w' = true /\
    calls w' = [zmk_ble_put_peripheral_addr 99].
Proof.
  apply (a_refused_device_does_not_stop_the_scan example_cfg
           (example_host 2 0) (set_is_scanning true idle_world) 99 0 0 8).
  right. exists (connected_slot 7 (replicate 16 0)).
  split; [reflexivity|discriminate].
Defined.

(** When the slot was reserved and the host then fails to stop the scan,
    the function leaves at once: the slot stays Connecting with no
    connection, the scanning flag is off and no connection was asked for.
    Any later advertisement for that slot is refused, with the table and
    the flag left as they are. *)
Theorem a_failed_scan_stop_strands_the_slot (cfg : config) (bt : bt_host)
    (w : world) (addr stopped created new_conn : Z) (s : peripheral_slot) :
  0 <= zmk_ble_put_peripheral_addr_ret bt addr ->
  peripherals w !! Z.to_nat (zmk_ble_put_peripheral_addr_ret bt addr) =
    Some s ->
  state s = PERIPHERAL_SLOT_STATE_OPEN ->
  stopped < 0 ->
  exists w',
    split_central_eir_found cfg bt addr stopped created new_conn w =
      Some ((false, []), w') /\
    peripherals w' =
      <[Z.to_nat (zmk_ble_put_peripheral_addr_ret bt addr) :=
          set_state PERIPHERAL_SLOT_STATE_CONNECTING s]> (peripherals w) /\
    is_scanning w' = false /\
    forall stopped' created' new_conn',
      exists w'',
        split_central_eir_found cfg bt addr stopped' created' new_conn' w' =
          Some ((false, []), w'') /\
        peripherals w'' = peripherals w' /\
        is_scanning w'' = false.
Proof.
  intros Hi Hs Hst Hstop.
  assert (Hlt : (Z.to_nat (zmk_ble_put_peripheral_addr_ret bt addr) <
                 length (peripherals w))%nat)
    by (eapply lookup_lt_Some; exact Hs).
  unfold split_central_eir_found at 1.
  rewrite (bind_eq _ _ _ _ _ (reserve_taken cfg bt w addr s Hi Hs Hst)).
  replace (_ <? 0) with false by (symmetry; apply Z.ltb_ge; lia).
  rewrite (bind_eq _ _ _ _ _ (eir_found_reserved cfg bt w addr stopped s)).
  rewrite Z.min_r by lia.
  replace (stopped <? 0) with true by (symmetry; apply Z.ltb_lt; lia).
  set (w' := reserved_and_stopped addr stopped _ s w).
  assert (Hp : peripherals w' =
               <[Z.to_nat (zmk_ble_put_peripheral_addr_ret bt addr) :=
                   set_state PERIPHERAL_SLOT_STATE_CONNECTING s]>
                 (peripherals w))
    by (unfold w', reserved_and_stopped; destruct (_ <? 0); reflexivity).
  assert (Hsc : is_scanning w' = false)
    by (unfold w', reserved_and_stopped; destruct (_ <? 0); reflexivity).
  exists w'. split; [reflexivity|]. split; [exact Hp|]. split; [exact Hsc|].
  intros stopped' created' new_conn'. exists (asked addr w').
  split; [|split; [reflexivity|exact Hsc]].
  apply eir_found_refused. right.
  exists (set_state PERIPHERAL_SLOT_STATE_CONNECTING s).
  split; [|discriminate].
  rewrite Hp. apply list_lookup_insert_eq. exact Hlt.
Qed.

Lemma a_failed_scan_stop_strands_the_slot_witness :
  exists w',
    split_central_eir_found example_cfg (example_host 2 1) 99 (- 5) 0 8
      (set_is_scanning true idle_world) = Some ((false, []), w') /\
    peripherals w' =
      [connected_slot 7 (replicate 16 0);
       set_state PERIPHERAL_SLOT_STATE_CONNECTING open_slot] /\
    is_scanning w' = false /\
    exists w'',
      split_central_eir_found example_cfg (example_host 2 1) 99 0 0 8 w' =
        Some ((false, []), w'') /\
      peripherals w'' = peripherals w' /\
      is_scanning w'' = false.
Proof.
  destruct (a_failed_scan_stop_strands_the_slot example_cfg
              (example_host 2 1) (set_is_scanning true idle_world)
              99 (- 5) 0 8 open_slot)
    as [w' [Hrun [Hp [Hsc Hagain]]]].
  - cbn. lia.
  - reflexivity.
  - reflexivity.
  - lia.
  - exists w'. split; [exact Hrun|]. split; [exact Hp|]. split; [exact Hsc|].
    apply Hagain.
Defined.

(** ** From an advertisement to a connection *)

Lemma reserved_and_stopped_peripherals (addr stopped : Z) (i : nat)
    (s : peripheral_slot) (w : world) :
  peripherals (reserved_and_stopped addr stopped i s w) =
  <[i := set_state PERIPHERAL_SLOT_STATE_CONNECTING s]> (peripherals w).
Proof. unfold reserved_and_stopped. destruct (_ <? 0); reflexivity. Qed.

Lemma reserved_and_stopped_is_scanning (addr stopped : Z) (i : nat)
    (s : peripheral_slot) (w : world) :
  is_scanning (reserved_and_stopped addr stopped i s w) = false.
Proof. unfold reserved_and_stopped. destruct (_ <? 0); reflexivity. Qed.

Lemma reserved_and_stopped_k_uptime (addr stopped : Z) (i : nat)
    (s : peripheral_slot) (w : world) :
  k_uptime (reserved_and_stopped addr stopped i s w) = k_uptime w.
Proof. unfold reserved_and_stopped. destruct (_ <? 0); reflexivity. Qed.





(** ** Connections that fail *)

(** A release of a slot that is not Open, followed by [start_scanning]. *)
Lemma release_then_scan (cfg : config) (bt : bt_host) (w : world)
    (slot : nat) (s : peripheral_slot) :
  length (peripherals w) = ZMK_SPLIT_BLE_PERIPHERAL_COUNT cfg ->
  peripherals w !! slot = Some s ->
  wf_slot s ->
  state s <> PERIPHERAL_SLOT_STATE_OPEN ->
  exists wr r w',
    release_peripheral_slot cfg (Z.of_nat slot) w = Some (0, wr) /\
    start_scanning cfg bt wr = Some (r, w') /\
    peripherals w' = <[slot := released cfg s]> (peripherals w) /\
    is_scanning w' = true /\
    calls w' =
      calls w ++ unref_calls s ++
      raise_calls (release_events (to_uint8 (Z.of_nat slot)) (k_uptime w)
                     (position_state s)) ++
      (if is_scanning w then [] else [bt_le_scan_start]).
Proof.
  intros Hlen Hs Hwf Hst.
  assert (Hlt : (slot < length (peripherals w))%nat)
    by (eapply lookup_lt_Some; exact Hs).
  assert (Hidx : 0 <= Z.of_nat slot <
                 Z.of_nat (ZMK_SPLIT_BLE_PERIPHERAL_COUNT cfg)) by lia.
  assert (Hs' : peripherals w !! Z.to_nat (Z.of_nat slot) = Some s)
    by (rewrite Nat2Z.id; exact Hs).
  pose proof (release_run cfg w _ s Hidx Hs' Hwf Hst) as Hrel.
  rewrite Nat2Z.id in Hrel.
  set (wr := set_peripherals _ _) in Hrel.
  assert (Hpr : peripherals wr = <[slot := released cfg s]> (peripherals w))
    by reflexivity.
  assert (Hcr : calls wr =
            (calls w ++ unref_calls s) ++
            raise_calls (release_events (to_uint8 (Z.of_nat slot))
                           (k_uptime w) (position_state s))).
  { unfold wr. rewrite calls_set_peripherals, raise_positions_calls.
    reflexivity. }
  assert (Hscr : is_scanning wr = is_scanning w).
  { unfold wr. rewrite is_scanning_set_peripherals,
      raise_positions_is_scanning. reflexivity. }
  destruct (start_scanning_run cfg bt wr slot (released cfg s))
    as [r [w' [Hstart [Hp' [Hsc' Hc']]]]].
  - rewrite Hpr. apply list_lookup_insert_eq. exact Hlt.
  - reflexivity.
  - unfold ZMK_SPLIT_BLE_PERIPHERAL_COUNT in Hlen. lia.
  - exists wr, r, w'. split; [exact Hrel|]. split; [exact Hstart|].
    split; [rewrite Hp'; exact Hpr|]. split; [exact Hsc'|].
    rewrite Hc', Hcr, Hscr, <- !app_assoc. reflexivity.
Qed.

(** When the host reports that a connection could not be established, the
    slot of that connection is released as on a disconnect, without a
    battery event: the reference is dropped, held positions are released,
    the slot is Open again, no discovery is asked for, and scanning is on
    afterwards. *)
Theorem a_failed_connection_frees_the_slot (cfg : config) (bt : bt_host)
    (w : world) (c conn_err discovered : Z) (slot : nat)
    (s : peripheral_slot) :
  wf_world cfg w ->
  slot_of_conn w c slot ->
  peripherals w !! slot = Some s ->
  state s <> PERIPHERAL_SLOT_STATE_OPEN ->
  conn_err <> 0 ->
  exists w',
    split_central_connected cfg bt c conn_err true discovered w =
      Some ([], w') /\
    peripherals w' = <[slot := released cfg s]> (peripherals w) /\
    is_scanning w' = true /\
    calls w' =
      calls w ++ unref_calls s ++
      raise_calls (release_events (to_uint8 (Z.of_nat slot)) (k_uptime w)
                     (position_state s)) ++
      (if is_scanning w then [] else [bt_le_scan_start]).
Proof.
  intros [Hlen [Hall _]] Hslot Hs Hst Herr.
  assert (Hwf : wf_slot s) by exact (Forall_lookup_1 _ _ _ _ Hall Hs).
  unfold split_central_connected. cbn [negb].
  replace (conn_err =? 0) with false by (symmetry; apply Z.eqb_neq; exact Herr).
  cbn [negb].
  set (wl := set_logged (logged w ++ [LOG_LEVEL_ERR]) w).
  rewrite (bind_eq (log LOG_LEVEL_ERR) _ w wl tt eq_refl).
  assert (Hlenl : length (peripherals wl) = ZMK_SPLIT_BLE_PERIPHERAL_COUNT cfg)
    by exact Hlen.
  assert (Hslotl : slot_of_conn wl c slot) by exact Hslot.
  destruct (release_then_scan cfg bt wl slot s Hlenl Hs Hwf Hst)
    as [wr [r [w' [Hrel [Hstart [Hp' [Hsc' Hc']]]]]]].
  assert (Hrelc : release_peripheral_slot_for_conn cfg c wl = Some (0, wr)).
  { unfold release_peripheral_slot_for_conn.
    rewrite (bind_eq _ _ _ _ _ (index_for_conn_eq cfg _ _ _ Hlenl Hslotl)).
    replace (Z.of_nat slot <? 0) with false
      by (symmetry; apply Z.ltb_ge; lia).
    exact Hrel. }
  rewrite (bind_eq _ _ _ _ _ Hrelc), (bind_eq _ _ _ _ _ Hstart).
  exists w'. split; [reflexivity|]. split; [exact Hp'|].
  split; [exact Hsc'|]. exact Hc'.
Qed.

Lemma a_failed_connection_frees_the_slot_witness :
  exists w',
    split_central_connected example_cfg (example_host 2 0) 7 62 true 0
      held_world = Some ([], w') /\
    peripherals w' =
      <[0%nat := released example_cfg (connected_slot 7 bit5)]>
        (peripherals held_world) /\
    is_scanning w' = true /\
    calls w' =
      calls held_world ++ unref_calls (connected_slot 7 bit5) ++
      raise_calls (release_events (to_uint8 (Z.of_nat 0))
                     (k_uptime held_world)
                     (position_state (connected_slot 7 bit5))) ++
      (if is_scanning held_world then [] else [bt_le_scan_start]).
Proof.
  apply (a_failed_connection_frees_the_slot example_cfg (example_host 2 0)
           held_world 7 62 0 0 (connected_slot 7 bit5)
           held_world_wf held_world_slot_of_conn eq_refl).
  - discriminate.
  - lia.
Defined.

(** When the host refuses to create the connection, the slot that was
    reserved for the device is released again and scanning, which had been
    stopped for the attempt, is resumed: the slot is Open with no
    connection and the scanning flag is on. *)
Theorem a_refused_connection_gives_the_slot_back (cfg : config)
    (bt : bt_host) (w : world) (addr stopped created new_conn : Z)
    (s : peripheral_slot) :
  let i := Z.to_nat (zmk_ble_put_peripheral_addr_ret bt addr) in
  wf_world cfg w ->
  0 <= zmk_ble_put_peripheral_addr_ret bt addr ->
  peripherals w !! i = Some s ->
  state s = PERIPHERAL_SLOT_STATE_OPEN ->
  0 <= stopped -> created < 0 ->
  exists w',
    split_central_eir_found cfg bt addr stopped created new_conn w =
      Some ((false, [bt_conn_le_create addr i]), w') /\
    peripherals w' = <[i := released cfg s]> (peripherals w) /\
    is_scanning w' = true /\
    In bt_le_scan_stop (calls w') /\
    last (calls w') = Some bt_le_scan_start.
Proof.
  intros i [Hlen [Hall _]] Hi Hs Hst Hstop Hcreate.
  assert (Hwf : wf_slot s) by exact (Forall_lookup_1 _ _ _ _ Hall Hs).
  assert (Hlt : (i < length (peripherals w))%nat)
    by (eapply lookup_lt_Some; exact Hs).
  unfold split_central_eir_found.
  rewrite (bind_eq _ _ _ _ _ (reserve_taken cfg bt w addr s Hi Hs Hst)).
  replace (_ <? 0) with false by (symmetry; apply Z.ltb_ge; lia).
  rewrite (bind_eq _ _ _ _ _ (eir_found_reserved cfg bt w addr stopped s)).
  rewrite Z.min_l by lia. change (0 <? 0) with false. cbn iota.
  replace (created <? 0) with true by (symmetry; apply Z.ltb_lt; lia).
  fold i.
  set (wa := reserved_and_stopped addr stopped i s w).
  set (wl := set_logged (logged wa ++ [LOG_LEVEL_ERR]) wa).
  rewrite (bind_eq (log LOG_LEVEL_ERR) _ wa wl tt eq_refl).
  set (s1 := set_state PERIPHERAL_SLOT_STATE_CONNECTING s).
  assert (Hpl : peripherals wl = <[i := s1]> (peripherals w))
    by (apply reserved_and_stopped_peripherals).
  assert (Hscl : is_scanning wl = false)
    by (apply reserved_and_stopped_is_scanning).
  assert (Hcl : calls wl =
                calls w ++ [zmk_ble_put_peripheral_addr addr; bt_le_scan_stop]).
  { unfold wl, wa, reserved_and_stopped.
    replace (stopped <? 0) with false by (symmetry; apply Z.ltb_ge; lia).
    cbn [calls set_logged set_calls set_is_scanning put_slot asked
         set_peripherals].
    rewrite <- app_assoc. reflexivity. }
  assert (Hlenl : length (peripherals wl) = ZMK_SPLIT_BLE_PERIPHERAL_COUNT cfg)
    by (rewrite Hpl, length_insert; exact Hlen).
  assert (Hsl : peripherals wl !! i = Some s1)
    by (rewrite Hpl; apply list_lookup_insert_eq; exact Hlt).
  destruct (release_then_scan cfg bt wl i s1 Hlenl Hsl Hwf
              ltac:(discriminate))
    as [wr [r [w' [Hrel [Hstart [Hp' [Hsc' Hc']]]]]]].
  unfold i in Hrel at 1. rewrite Z2Nat.id in Hrel by exact Hi.
  rewrite (bind_eq _ _ _ _ _ Hrel), (bind_eq _ _ _ _ _ Hstart).
  exists w'. split; [reflexivity|].
  split; [rewrite Hp', Hpl; apply list_insert_insert_eq|].
  split; [exact Hsc'|].
  rewrite Hc', Hcl, Hscl. split.
  - apply in_or_app. left. apply in_or_app. right. right. left. reflexivity.
  - rewrite !app_assoc. apply last_snoc.
Qed.

Lemma a_refused_connection_gives_the_slot_back_witness :
  exists w',
    split_central_eir_found example_cfg (example_host 2 1) 99 0 (- 12) 8
      (set_is_scanning true idle_world) =
      Some ((false, [bt_conn_le_create 99 1]), w') /\
    peripherals w' = <[1%nat := released example_cfg open_slot]>
                       (peripherals idle_world) /\
    is_scanning w' = true /\
    In bt_le_scan_stop (calls w') /\
    last (calls w') = Some bt_le_scan_start.
Proof.
  apply (a_refused_connection_gives_the_slot_back example_cfg
           (example_host 2 1) (set_is_scanning true idle_world) 99 0 (- 12) 8
           open_slot).
  - exact idle_world_wf.
  - cbn. lia.
  - reflexivity.
  - reflexivity.
  - lia.
  - lia.
Defined.

(** ** Security changes *)

Lemma layout_broadcast_run (cfg : config) (bt : bt_host) (w : world) :
  length (peripherals w) = ZMK_SPLIT_BLE_PERIPHERAL_COUNT cfg ->
  update_peripherals_selected_physical_layout cfg bt w =
  Some (tt,
        logged_calls
          (flat_map (layout_write bt
                       (to_uint8 (zmk_physical_layouts_get_selected bt)))
                    (peripherals w))
          (flat_map (layout_write_log bt) (peripherals w)) w).
Proof.
  intros Hlen.
  unfold update_peripherals_selected_physical_layout, for_range.
  rewrite <- Hlen.
  apply (for_each_slot_calls _
           (layout_write bt (to_uint8 (zmk_physical_layouts_get_selected bt)))
           (layout_write_log bt) (peripherals w) [] (peripherals w) w);
    [|reflexivity|reflexivity].
  intros i s w' Hw' Hs. rewrite <- Hw' in Hs.
  rewrite (bind_eq _ _ _ _ _ (load_slot_eq _ _ _ Hs)).
  destruct (bool_decide (state s = PERIPHERAL_SLOT_STATE_CONNECTED))
    eqn:Hst; cbn [negb].
  - destruct (update_peripheral_selected_layout_eq bt i
                (to_uint8 (zmk_physical_layouts_get_selected bt)) s w' Hs)
      as [r Hr].
    rewrite (bind_eq _ _ _ _ _ Hr). reflexivity.
  - unfold layout_write, layout_write_log. rewrite Hst.
    cbn [andb]. rewrite logged_calls_nil. reflexivity.
Qed.

(** When the link of a Connected peripheral whose layout handle is resolved
    reaches [BT_SECURITY_L2] without a security error, the layout worker is
    submitted, and its run writes the selected layout to that peripheral.
    With a security error, or below that level, the callback changes
    nothing. *)
Theorem a_secured_link_gets_the_layout (cfg : config) (bt : bt_host)
    (w : world) (c level err : Z) (slot : nat) (s : peripheral_slot) :
  length (peripherals w) = ZMK_SPLIT_BLE_PERIPHERAL_COUNT cfg ->
  slot_of_conn w c slot ->
  peripherals w !! slot = Some s ->
  state s = PERIPHERAL_SLOT_STATE_CONNECTED ->
  selected_physical_layout_handle s <> 0 ->
  (err <= 0 -> BT_SECURITY_L2 <= level ->
   bt_conn_get_security bt c = level ->
   exists w1 w2,
     split_central_security_changed cfg c level err w = Some (tt, w1) /\
     calls w1 =
       calls w ++ [k_work_submit update_peripherals_selected_layouts_work] /\
     update_peripherals_selected_physical_layout cfg bt w1 = Some (tt, w2) /\
     In (bt_gatt_write_without_response c
           (selected_physical_layout_handle s)
           (layout_idx_value
              (to_uint8 (zmk_physical_layouts_get_selected bt))))
        (calls w2)) /\
  (0 < err \/ level < BT_SECURITY_L2 ->
   split_central_security_changed cfg c level err w = Some (tt, w)).
Proof.
  intros Hlen Hslot Hs Hst Hhandle.
  assert (Hc : conn s = c).
  { destruct Hslot as [[s0 [Hs0 Hc0]] _]. rewrite Hs in Hs0.
    injection Hs0 as <-. exact Hc0. }
  assert (Hrun : split_central_security_changed cfg c level err w =
                 if err >? 0 then Some (tt, w)
                 else if level <? BT_SECURITY_L2 then Some (tt, w)
                 else extern
                        (k_work_submit update_peripherals_selected_layouts_work)
                        w).
  { unfold split_central_security_changed.
    rewrite (bind_eq _ _ _ _ _ (slot_for_conn_eq cfg _ _ _ Hlen Hslot)).
    rewrite (bind_eq _ _ _ _ _ (load_slot_eq _ _ _ Hs)).
    replace (selected_physical_layout_handle s =? 0) with false
      by (symmetry; apply Z.eqb_neq; exact Hhandle).
    destruct (err >? 0); [reflexivity|].
    destruct (level <? BT_SECURITY_L2); reflexivity. }
  split.
  - set (w1 := set_calls
                 (calls w ++
                  [k_work_submit update_peripherals_selected_layouts_work]) w).
    intros Herr Hlevel Hsec. exists w1. eexists.
    split; [|split; [reflexivity|split]].
    + rewrite Hrun.
      replace (err >? 0) with false
        by (symmetry; rewrite Z.gtb_ltb; apply Z.ltb_ge; lia).
      replace (level <? BT_SECURITY_L2) with false
        by (symmetry; apply Z.ltb_ge; lia).
      reflexivity.
    + apply (layout_broadcast_run cfg bt w1). exact Hlen.
    + rewrite calls_logged_calls. apply in_or_app. right.
      apply in_flat_map. exists s. split.
      * apply list_elem_of_In. eapply list_elem_of_lookup_2. exact Hs.
      * unfold layout_write.
        rewrite bool_decide_eq_true_2 by exact Hst.
        replace (selected_physical_layout_handle s =? 0) with false
          by (symmetry; apply Z.eqb_neq; exact Hhandle).
        rewrite Hc, Hsec.
        replace (level <? BT_SECURITY_L2) with false
          by (symmetry; apply Z.ltb_ge; lia).
        left. reflexivity.
  - intros Hnot. rewrite Hrun.
    destruct (Z.gtb_spec err 0); [reflexivity|].
    destruct (Z.ltb_spec level BT_SECURITY_L2); [reflexivity|].
    lia.
Qed.

Lemma a_secured_link_gets_the_layout_witness :
  (exists w1 w2,
     split_central_security_changed example_cfg 7 2 0 idle_world =
       Some (tt, w1) /\
     calls w1 = [k_work_submit update_peripherals_selected_layouts_work] /\
     update_peripherals_selected_physical_layout example_cfg
       (example_host 2 0) w1 = Some (tt, w2) /\
     In (bt_gatt_write_without_response 7 27 (layout_idx_value 1))
        (calls w2)) /\
  split_central_security_changed example_cfg 7 1 0 idle_world =
    Some (tt, idle_world).
Proof.
  destruct (a_secured_link_gets_the_layout example_cfg (example_host 2 0)
              idle_world 7 2 0 0 (connected_slot 7 (replicate 16 0))
              eq_refl idle_world_slot_of_conn eq_refl eq_refl
              ltac:(discriminate))
    as [Hup _].
  destruct (a_secured_link_gets_the_layout example_cfg (example_host 2 0)
              idle_world 7 1 0 0 (connected_slot 7 (replicate 16 0))
              eq_refl idle_world_slot_of_conn eq_refl eq_refl
              ltac:(discriminate))
    as [_ Hdown].
  split.
  - apply Hup; [lia| |reflexivity]. unfold BT_SECURITY_L2. lia.
  - apply Hdown. right. unfold BT_SECURITY_L2. lia.
Defined.

(** ** Parsing an advertisement *)

Lemma log_eq (l : log_level) (w : world) :
  log l w = Some (tt, logged_calls [] [l] w).
Proof.
  unfold log, modify, logged_calls. rewrite app_nil_r.
  destruct w; reflexivity.
Qed.

Lemma existsb_seq_S (f : nat -> bool) (n : nat) :
  forall i, existsb f (seq (S i) n) = existsb (fun k => f (S k)) (seq i n).
Proof.
  induction n as [|n IH]; intros i; [reflexivity|].
  cbn [seq existsb]. rewrite IH. reflexivity.
Qed.

Lemma eir_parse_uuids_eq (cfg : config) (bt : bt_host)
    (service_uuid : list Z) (addr stopped created new_conn : Z) (w : world) :
  forall (rounds : nat) (data : list Z),
    eir_parse_uuids cfg bt service_uuid rounds data addr stopped created
      new_conn w =
    if lists_service service_uuid rounds data
    then (r <- split_central_eir_found cfg bt addr stopped created new_conn ;;
          ret (Some r)) w
    else Some (None, w).
Proof.
  induction rounds as [|rounds IH]; intros data; [reflexivity|].
  cbn [eir_parse_uuids]. unfold lists_service.
  cbn [seq existsb]. rewrite Nat.mul_0_r, drop_0.
  destruct (bool_decide (take 16 data = service_uuid)); [reflexivity|].
  cbn [orb]. rewrite IH. unfold lists_service.
  rewrite existsb_seq_S.
  assert (Hext : forall l,
            existsb (fun k => bool_decide
                                (take 16 (drop (16 * k) (drop 16 data)) =
                                 service_uuid)) l =
            existsb (fun k => bool_decide
                                (take 16 (drop (16 * S k) data) =
                                 service_uuid)) l).
  { intros l. induction l as [|k l IHl]; [reflexivity|].
    cbn [existsb]. rewrite IHl, drop_drop.
    replace (16 + 16 * k)%nat with (16 * S k)%nat by lia. reflexivity. }
  rewrite Hext. reflexivity.
Qed.

Lemma eir_parse_eq (cfg : config) (bt : bt_host) (service_uuid : list Z)
    (d : bt_data) (addr stopped created new_conn : Z) (w : world) :
  split_central_eir_parse cfg bt service_uuid d addr stopped created
    new_conn w =
  if names_service service_uuid d
  then split_central_eir_found cfg bt addr stopped created new_conn w
  else Some ((true, []),
             logged_calls [] (if malformed d then [LOG_LEVEL_ERR] else []) w).
Proof.
  unfold split_central_eir_parse, names_service, malformed, is_uuid128_list.
  destruct (_ || _); cbn [andb]; [|rewrite logged_calls_nil; reflexivity].
  destruct (_ =? 0)%nat; cbn [negb andb].
  - unfold bind at 1. rewrite eir_parse_uuids_eq.
    destruct (lists_service _ _ _);
      [|rewrite logged_calls_nil; reflexivity].
    unfold bind, ret.
    destruct (split_central_eir_found _ _ _ _ _ _ w) as [[r w']|];
      reflexivity.
  - rewrite (bind_eq _ _ _ _ _ (log_eq _ w)). reflexivity.
Qed.

Lemma eir_found_false (cfg : config) (bt : bt_host)
    (addr stopped created new_conn : Z) (w w' : world)
    (r : bool * list host_request) :
  split_central_eir_found cfg bt addr stopped created new_conn w =
    Some (r, w') ->
  fst r = false.
Proof.
  unfold split_central_eir_found, bind, ret.
  destruct (reserve_peripheral_slot _ _ _ _) as [[i w1]|]; [|discriminate].
  destruct (i <? 0); [intros [= <- _]; reflexivity|].
  destruct (stop_scanning _ _) as [[e w2]|]; [|discriminate].
  destruct (e <? 0); [intros [= <- _]; reflexivity|].
  destruct (created <? 0).
  - destruct (log _ _) as [[[] w3]|]; [|discriminate].
    destruct (release_peripheral_slot _ _ _) as [[x w4]|]; [|discriminate].
    destruct (start_scanning _ _ _) as [[y w5]|]; [|discriminate].
    intros [= <- _]. reflexivity.
  - destruct (assign_slot _ _ _) as [[[] w3]|]; [|discriminate].
    intros [= <- _]. reflexivity.
Qed.

Lemma bt_data_parse_eq (cfg : config) (bt : bt_host) (service_uuid : list Z)
    (addr stopped created new_conn : Z) :
  forall (ad : list bt_data) (w : world),
    bt_data_parse cfg bt service_uuid ad addr stopped created new_conn w =
    let wl := logged_calls []
                (malformed_log (before_service service_uuid ad)) w in
    if existsb (names_service service_uuid) ad
    then (r <- split_central_eir_found cfg bt addr stopped created new_conn ;;
          ret (snd r)) wl
    else Some ([], wl).
Proof.
  induction ad as [|d ad IH]; intros w; cbn zeta.
  - cbn. rewrite logged_calls_nil. reflexivity.
  - cbn [bt_data_parse existsb before_service]. unfold bind at 1.
    rewrite eir_parse_eq.
    destruct (names_service service_uuid d); cbn [orb].
    + cbn [malformed_log flat_map]. rewrite logged_calls_nil.
      unfold bind.
      destruct (split_central_eir_found _ _ _ _ _ _ w) as [[r w']|] eqn:Hr;
        [|reflexivity].
      rewrite (eir_found_false _ _ _ _ _ _ _ _ _ Hr). reflexivity.
    + cbn [fst snd]. unfold bind at 1. rewrite IH. cbn zeta.
      cbn [malformed_log flat_map]. fold (malformed_log).
      rewrite logged_calls_app. cbn [app].
      destruct (existsb _ ad); [|reflexivity].
      unfold bind, ret.
      destruct (split_central_eir_found _ _ _ _ _ _ _) as [[r w']|];
        reflexivity.
Qed.

(** A connectable advertisement is answered exactly when one of its elements
    is a well-formed list of 128-bit UUIDs that holds the split service's,
    and then once: the elements before the first such one are passed over,
    with an error logged for each malformed list among them, and the ones
    after it are not looked at.  A directed advertisement is answered as it
    is, and any other kind is ignored. *)
Theorem an_advertisement_is_answered_once (cfg : config) (bt : bt_host)
    (service_uuid : list Z) (addr type : Z) (ad : list bt_data)
    (stopped created new_conn : Z) (w : world) :
  split_central_device_found cfg bt service_uuid addr type ad stopped
    created new_conn w =
  if type =? BT_GAP_ADV_TYPE_ADV_IND then
    let wl := logged_calls []
                (malformed_log (before_service service_uuid ad)) w in
    if existsb (names_service service_uuid) ad
    then (r <- split_central_eir_found cfg bt addr stopped created new_conn ;;
          ret (snd r)) wl
    else Some ([], wl)
  else if type =? BT_GAP_ADV_TYPE_ADV_DIRECT_IND then
    (r <- split_central_eir_found cfg bt addr stopped created new_conn ;;
     ret (snd r)) w
  else Some ([], w).
Proof.
  unfold split_central_device_found.
  destruct (type =? BT_GAP_ADV_TYPE_ADV_IND); [apply bt_data_parse_eq|].
  destruct (type =? BT_GAP_ADV_TYPE_ADV_DIRECT_IND); reflexivity.
Qed.

(** The second element is malformed, the third lists the service: one
    connection is asked for, and one error logged. *)
Example an_advertisement_with_the_service :
  (fun r => (fst r, logged (snd r), calls (snd r))) <$>
    split_central_device_found example_cfg (example_host 2 1) example_uuid
      99 BT_GAP_ADV_TYPE_ADV_IND example_ad 0 0 8 idle_world =
  Some ([bt_conn_le_create 99 1], [LOG_LEVEL_ERR],
        [zmk_ble_put_peripheral_addr 99; bt_le_scan_stop]).
Proof. vm_compute. reflexivity. Qed.

(** ** Discovery of the service *)

(** The service discovery that [split_central_process_connection] started
    is answered by an attribute: the slot's parameters are turned into a
    discovery of characteristics over the same handles, which is asked of
    the host on the same connection, and the service discovery stops.  An
    attribute of a discovery for another UUID is passed over, and the end of
    the discovery clears the parameters of the slot. *)
Theorem service_discovery_hands_over (cfg : config) (w : world)
    (c discovered : Z) (attr : bt_gatt_attr) (params slot : nat)
    (s : peripheral_slot) :
  length (peripherals w) = ZMK_SPLIT_BLE_PERIPHERAL_COUNT cfg ->
  slot_of_conn w c slot ->
  peripherals w !! slot = Some s ->
  (discover_params s = service_discovery ->
   exists w',
     split_central_service_discovery_func cfg c (Some attr) params
       discovered w =
       Some ((BT_GATT_ITER_STOP,
              [bt_gatt_discover c characteristic_discovery]), w') /\
     peripherals w' =
       <[slot := set_discover_params characteristic_discovery s]>
         (peripherals w)) /\
  (forall uuid,
     dp_uuid (discover_params s) = Some uuid ->
     uuid <> ZMK_SPLIT_BT_SERVICE_UUID ->
     split_central_service_discovery_func cfg c (Some attr) params
       discovered w = Some ((BT_GATT_ITER_CONTINUE, []), w)) /\
  (split_central_service_discovery_func cfg c None slot discovered w =
   Some ((BT_GATT_ITER_STOP, []),
         put_slot slot (set_discover_params zero_discover_params s) w)).
Proof.
  intros Hlen Hslot Hs.
  assert (Hlt : (slot < length (peripherals w))%nat)
    by (eapply lookup_lt_Some; exact Hs).
  split; [|split].
  - intros Hdp. unfold split_central_service_discovery_func.
    rewrite (bind_eq _ _ _ _ _ (slot_for_conn_eq cfg _ _ _ Hlen Hslot)).
    rewrite (bind_eq _ _ _ _ _ (load_slot_eq _ _ _ Hs)).
    rewrite Hdp.
    rewrite (bind_eq (of_option (dp_uuid service_discovery)) _ w w
               ZMK_SPLIT_BT_SERVICE_UUID eq_refl).
    eval_uuid_eq. cbn [negb].
    rewrite (bind_eq _ _ _ _ _ (assign_slot_eq _ _ s w Hs)).
    rewrite Hdp.
    set (w1 := set_peripherals _ w).
    assert (Hs1 : peripherals w1 !! slot =
                  Some (set_discover_params characteristic_discovery s))
      by (apply list_lookup_insert_eq; exact Hlt).
    rewrite (bind_eq _ _ _ _ _ (load_slot_eq _ _ _ Hs1)).
    unfold bind, log, modify, ret.
    destruct (discovered =? 0); cbn [negb]; eexists;
      (split; [reflexivity|reflexivity]).
  - intros uuid Hu Hne. unfold split_central_service_discovery_func.
    rewrite (bind_eq _ _ _ _ _ (slot_for_conn_eq cfg _ _ _ Hlen Hslot)).
    rewrite (bind_eq _ _ _ _ _ (load_slot_eq _ _ _ Hs)).
    rewrite Hu.
    rewrite (bind_eq (of_option (Some uuid)) _ w w uuid eq_refl).
    unfold bt_uuid_eq. rewrite bool_decide_eq_false_2 by exact Hne.
    reflexivity.
  - unfold split_central_service_discovery_func.
    rewrite (bind_eq _ _ _ _ _ (assign_slot_eq _ _ s w Hs)).
    reflexivity.
Qed.

Lemma service_discovery_hands_over_witness :
  (exists w',
     split_central_service_discovery_func example_cfg 7 (Some layers_attr)
       0 0 searching_world =
       Some ((BT_GATT_ITER_STOP,
              [bt_gatt_discover 7 characteristic_discovery]), w') /\
     peripherals w' =
       [set_discover_params characteristic_discovery searching_slot;
        open_slot]) /\
  split_central_service_discovery_func example_cfg 7 None 0 0
    searching_world =
  Some ((BT_GATT_ITER_STOP, []),
        put_slot 0 (set_discover_params zero_discover_params searching_slot)
          searching_world).
Proof.
  assert (Hslot : slot_of_conn searching_world 7 0).
  { split; [exists searching_slot; split; reflexivity|]. intros k sk Hk. lia. }
  destruct (service_discovery_hands_over example_cfg searching_world 7 0
              layers_attr 0 0 searching_slot eq_refl Hslot eq_refl)
    as [Hfound [_ Hend]].
  split; [apply Hfound; reflexivity|exact Hend].
Defined.

(** ** Battery reads and sensor notifications *)

(** A battery level that was read is handled as one that was notified: with
    no error and data at hand, [split_central_battery_level_read_func] does
    what [split_central_battery_level_notify_func] does.  With an error it
    only logs and stops. *)
Theorem a_read_battery_level_is_handled_as_a_notified_one (cfg : config)
    (c err : Z) (params : subscribe_params_ptr) (data : list Z) (len : Z)
    (w : world) :
  (err <= 0 ->
   split_central_battery_level_read_func cfg c err (Some data) len w =
   split_central_battery_level_notify_func cfg c params (Some data) len w) /\
  (0 < err ->
   forall data',
     split_central_battery_level_read_func cfg c err data' len w =
     Some (BT_GATT_ITER_STOP, logged_calls [] [LOG_LEVEL_ERR] w)).
Proof.
  unfold split_central_battery_level_read_func,
    split_central_battery_level_notify_func.
  split.
  - intros Herr.
    replace (err >? 0) with false
      by (symmetry; rewrite Z.gtb_ltb; apply Z.ltb_ge; lia).
    reflexivity.
  - intros Herr data'.
    replace (err >? 0) with true
      by (symmetry; rewrite Z.gtb_ltb; apply Z.ltb_lt; lia).
    rewrite (bind_eq _ _ _ _ _ (log_eq _ w)). reflexivity.
Qed.

Lemma a_read_battery_level_is_handled_as_a_notified_one_witness :
  split_central_battery_level_read_func example_cfg 7 0 (Some [55]) 1
    idle_world =
  split_central_battery_level_notify_func example_cfg 7
    (ptr_batt_lvl_subscribe_params 0) (Some [55]) 1 idle_world /\
  split_central_battery_level_read_func example_cfg 7 14 None 0 idle_world =
  Some (BT_GATT_ITER_STOP, logged_calls [] [LOG_LEVEL_ERR] idle_world).
Proof.
  destruct (a_read_battery_level_is_handled_as_a_notified_one example_cfg
              7 0 (ptr_batt_lvl_subscribe_params 0) [55] 1 idle_world)
    as [Hread _].
  destruct (a_read_battery_level_is_handled_as_a_notified_one example_cfg
              7 14 (ptr_batt_lvl_subscribe_params 0) [] 0 idle_world)
    as [_ Hfail].
  split; [apply Hread; lia|apply Hfail; lia].
Defined.

Lemma sensor_worker_run (q : list zmk_sensor_event) :
  forall (w : world) (fuel : nat),
    peripheral_sensor_event_msgq w = q -> (length q < fuel)%nat ->
    peripheral_sensor_event_work_callback fuel w =
    Some (q, set_peripheral_sensor_event_msgq [] w).
Proof.
  induction q as [|ev q IH]; intros w fuel Hq Hfuel;
    (destruct fuel as [|fuel]; [cbn in Hfuel; lia|]);
    cbn [peripheral_sensor_event_work_callback];
    unfold bind at 1, gets at 1; rewrite Hq; cbn [msgq_get].
  - destruct w; cbn in Hq; subst. reflexivity.
  - unfold bind at 1, modify at 1.
    rewrite (bind_eq _ _ _ _ _
               (IH (set_peripheral_sensor_event_msgq q w) fuel eq_refl
                   ltac:(cbn in Hfuel; lia))).
    reflexivity.
Qed.

Lemma copied_channel_data (frame : nat -> Z) (data : list Z) :
  forall (channels : list Z) (i : nat),
    (forall k, (k < length channels)%nat ->
       data !! (sensor_event_channel_data_offset + (i + k))%nat =
       channels !! k) ->
    map (fun k => sensor_event_bytes frame data
                    (sensor_event_channel_data_offset + k)%nat)
        (seq i (length channels)) = channels.
Proof.
  induction channels as [|x channels IH]; intros i Hdata; [reflexivity|].
  cbn [length seq map]. f_equal.
  - unfold sensor_event_bytes.
    specialize (Hdata 0%nat ltac:(cbn; lia)).
    rewrite Nat.add_0_r in Hdata. rewrite Hdata. reflexivity.
  - apply IH. intros k Hk.
    specialize (Hdata (S k) ltac:(cbn; lia)).
    replace (S i + k)%nat with (i + S k)%nat by lia. exact Hdata.
Qed.

(** A sensor notification of the size its channel count announces, with no
    more channels than an event holds, is published as it came: the event
    the sensor worker raises has the notified index and count, the notified
    channel data and nothing of the stack, and the time of the
    notification. *)
Theorem a_sized_sensor_notification_is_published (cfg : config)
    (frame : nat -> Z) (params : subscribe_params_ptr)
    (index count : Z) (channels : list Z) (w : world) (fuel : nat) :
  0 <= count <= Z.of_nat (ZMK_SENSOR_EVENT_MAX_CHANNELS cfg) ->
  length channels = (sizeof_zmk_sensor_channel_data cfg * Z.to_nat count)%nat ->
  (length (peripheral_sensor_event_msgq w) <
   CONFIG_ZMK_SPLIT_BLE_CENTRAL_POSITION_QUEUE_SIZE cfg)%nat ->
  (S (length (peripheral_sensor_event_msgq w)) < fuel)%nat ->
  exists w1 w2,
    split_central_sensor_notify_func cfg frame params
      (Some (index :: count :: channels))
      (Z.of_nat (2 + length channels)) w =
      Some (BT_GATT_ITER_CONTINUE, w1) /\
    peripheral_sensor_event_work_callback fuel w1 =
      Some (peripheral_sensor_event_msgq w ++
            [{| sensor_index := index;
                channel_data_size := count;
                channel_data := channels;
                sensor_timestamp := k_uptime w |}], w2) /\
    peripheral_sensor_event_msgq w2 = [].
Proof.
  intros Hcount Hchannels Hroom Hfuel.
  unfold split_central_sensor_notify_func.
  replace (_ <? _) with false
    by (symmetry; apply Z.ltb_ge; unfold sensor_event_channel_data_offset;
        lia).
  assert (Hn : Z.to_nat (Z.min (Z.of_nat (2 + length channels))
                               (Z.of_nat (sizeof_sensor_event cfg))) =
               (2 + length channels)%nat).
  { unfold sizeof_sensor_event, sensor_event_channel_data_offset.
    rewrite Z.min_l, Nat2Z.id; [reflexivity|].
    rewrite Hchannels. apply inj_le, Nat.add_le_mono_l, Nat.mul_le_mono_l.
    lia. }
  rewrite Hn.
  destruct (decide (2 + length channels <=
                    length (index :: count :: channels))%nat) as [_|Hno];
    [|cbn [length] in Hno; lia].
  rewrite (bind_eq (ret _) _ w w _ eq_refl).
  rewrite (bind_eq _ _ w w (k_uptime w) eq_refl).
  rewrite take_ge by (cbn [length]; lia).
  assert (Hi : sensor_event_bytes frame (index :: count :: channels) 0 = index)
    by reflexivity.
  assert (Hc : sensor_event_bytes frame (index :: count :: channels) 1 = count)
    by reflexivity.
  rewrite Hi, Hc, <- Hchannels.
  rewrite (copied_channel_data frame (index :: count :: channels) channels 0)
    by (intros k Hk; reflexivity).
  rewrite Z.min_l by lia.
  set (ev := {| sensor_index := index; channel_data_size := count;
                channel_data := channels; sensor_timestamp := k_uptime w |}).
  unfold put_sensor_event, msgq_put, bind, extern, gets, modify, ret.
  cbn [peripheral_sensor_event_msgq set_calls].
  destruct (decide _) as [_|Hfull]; [|contradiction].
  eexists. eexists. split; [reflexivity|]. split.
  - apply sensor_worker_run; [reflexivity|].
    rewrite length_app. cbn [length]. lia.
  - reflexivity.
Qed.

Lemma a_sized_sensor_notification_is_published_witness :
  exists w1 w2,
    split_central_sensor_notify_func example_cfg stale_frame
      (ptr_sensor_subscribe_params 0)
      (Some (0 :: 1 :: map Z.of_nat (seq 1 12))) 14 idle_world =
      Some (BT_GATT_ITER_CONTINUE, w1) /\
    peripheral_sensor_event_work_callback 2 w1 =
      Some ([{| sensor_index := 0;
                channel_data_size := 1;
                channel_data := map Z.of_nat (seq 1 12);
                sensor_timestamp := 1000 |}], w2) /\
    peripheral_sensor_event_msgq w2 = [].
Proof.
  apply (a_sized_sensor_notification_is_published example_cfg stale_frame
           (ptr_sensor_subscribe_params 0) 0 1 (map Z.of_nat (seq 1 12))
           idle_world 2).
  - cbn. lia.
  - reflexivity.
  - cbn. lia.
  - cbn. lia.
Defined.
